(** * RetailCore: inventory costing and credit-ledger engine

    A shallow embedding of the service layer of RetailCore
    (salesService.ts, inventoryService.ts, reportService.ts, the product
    repository and the [calculateWAC] helper of the database module),
    followed by the properties of the written specification that concern it.

    Conventions of the embedding.
    - A JavaScript [number] that holds a count, an instant or an identifier
      is a [Z]: a double holds a whole number exactly below 2^53, and counts
      and instants are taken in that range.  The one identifier the services
      compute from stored ones, the next ledger id, carries the rounding of
      the double addition ([nearest_double]).
    - A [number] that holds money is an exact rational [Q], where the code
      computes on doubles.  An equality [=] between two amounts has the same
      expression over the same inputs on both sides, and holds whatever the
      arithmetic is; [==] ([Qeq]) is kept for worked figures and for the
      results on rounding and on the weighted average, which are results of
      exact arithmetic.
    - [created_at] / [updated_at] hold the instant as the number of
      milliseconds [new Date(created_at).getTime()] denotes; a text that is
      not a date has no place in the model.
    - [new Date()], [Date.now()] and the random invoice number are read from
      the environment: every operation takes the instant [now] and the
      invoice number as arguments (one instant per call).
    - [throw new Error(..)] is a result in the left summand of a sum type. *)

From Stdlib Require Import ZArith QArith Qround Qminmax Lia Lqa.
From stdpp Require Import base option list gmap strings sorting.

Local Open Scope Z_scope.

(** ** Numbers *)

Module Num.

(** [Math.round(x)]: the nearest integer, halves going up. *)
Definition Math_round (x : Q) : Z := Qfloor (x + (1 # 2)).

(** [Math.round(x * 100) / 100], the monetary rounding of the services. *)
Definition round2 (x : Q) : Q := inject_Z (Math_round (x * 100)) / 100.

(** [Math.max(a, b)] on counts and on amounts. *)
Definition Math_max (a b : Z) : Z := Z.max a b.
Definition Math_maxQ (a b : Q) : Q := if Qle_bool a b then b else a.

(** [Math.max(...xs, 0)]. *)
Definition Math_max_list (xs : list Z) : Z := foldr Z.max 0 xs.

(** The double nearest to a whole number, as a whole number.  Below 2^53 in
    magnitude a whole number is a double; a larger one keeps its 53 leading
    bits, rounded to the nearest, a tie going to the even one.  It is what
    [a + 1] leaves of the exact sum when [a] is a double holding a whole
    number. *)
Definition nearest_double (n : Z) : Z :=
  let a := Z.abs n in
  if a <? 2 ^ 53 then n
  else
    let e := Z.log2 a - 52 in
    let q := a / 2 ^ e in
    let r := a mod 2 ^ e in
    let half := 2 ^ (e - 1) in
    let q' := if (r <? half) || ((r =? half) && Z.even q) then q else q + 1 in
    Z.sgn n * (q' * 2 ^ e).

(** An amount with at most two decimals: a whole number of hundredths. *)
Definition two_decimals (x : Q) : Prop := exists n : Z, x == inject_Z n / 100.

End Num.
Export Num.

(** ** Data model (interfaces of schema.ts) *)

Record Product := mkProduct {
  p_id : Z;
  p_name : string;
  p_name_ur : option string;
  p_sku : option string;
  p_barcode : option string;
  p_category_id : option Z;
  p_supplier_id : option Z;
  p_cost_price : Q;
  p_selling_price : Q;
  p_quantity : Z;
  p_min_stock_level : Z;
  p_wac_cost : Q;
  p_unit : string;
  p_description : option string;
  p_is_active : bool;
  p_created_at : Z;
  p_updated_at : Z
}.

Record Customer := mkCustomer {
  c_id : Z;
  c_name : string;
  c_phone : option string;
  c_email : option string;
  c_address : option string;
  c_credit_limit : Q;
  c_credit_balance : Q;
  c_notes : option string;
  c_is_active : bool;
  c_created_at : Z;
  c_updated_at : Z
}.

Inductive PaymentMethod := pm_cash | pm_credit | pm_card | pm_mixed.
Inductive SaleStatus := st_pending | st_completed | st_refunded | st_cancelled.

Record Sale := mkSale {
  s_id : Z;
  s_invoice_number : option string;
  s_customer_id : option Z;
  s_user_id : Z;
  s_subtotal : Q;
  s_discount_amount : Q;
  s_discount_percent : option Q;
  s_tax_amount : Q;
  s_total : Q;
  s_payment_method : PaymentMethod;
  s_payment_received : Q;
  s_change_amount : Q;
  s_status : SaleStatus;
  s_notes : option string;
  s_created_at : Z
}.

Record SaleItem := mkSaleItem {
  si_id : Z;
  si_sale_id : Z;
  si_product_id : Z;
  si_quantity : Z;
  si_unit_price : Q;
  si_cost_price : Q;
  si_discount_amount : Q;
  si_total : Q;
  si_created_at : Z
}.

(** The [type] tag of a ledger entry: ['credit' | 'debit' | 'opening']. *)
Inductive LedgerType := lt_credit | lt_debit | lt_opening.

Record LedgerEntry := mkLedgerEntry {
  le_id : Z;
  le_customer_id : Z;
  le_type : LedgerType;
  le_amount : Q;
  le_balance : Q;
  le_reference_id : option Z;
  le_reference_type : option string;
  le_description : option string;
  le_user_id : Z;
  le_created_at : Z
}.

Inductive MovementType := mv_purchase | mv_sale | mv_adjustment | mv_return | mv_damage.

Record StockMovement := mkStockMovement {
  sm_id : Z;
  sm_product_id : Z;
  sm_type : MovementType;
  sm_quantity : Z;
  sm_unit_cost : option Q;
  sm_reference_id : option Z;
  sm_reference_type : option string;
  sm_notes : option string;
  sm_user_id : Z;
  sm_created_at : Z
}.

(** Thrown errors, one constructor per message. *)
Inductive Error :=
| ProductNotFound (productId : Z)
| CustomerNotFound (customerId : Z)
| InsufficientStock.

(** ** Costing (database index and inventory service) *)

Module Inventory.

(** [calculateWAC] of the database module. *)
Definition calculateWAC (currentQuantity : Z) (currentWAC : Q)
    (newQuantity : Z) (newCost : Q) : Q :=
  let totalQuantity := currentQuantity + newQuantity in
  if totalQuantity =? 0 then 0%Q
  else
    let totalValue :=
      (inject_Z currentQuantity * currentWAC + inject_Z newQuantity * newCost)%Q in
    (totalValue / inject_Z totalQuantity)%Q.

(** [calculateNewWAC] of the inventory service. *)
Definition calculateNewWAC (currentStock : Z) (currentWAC : Q)
    (newQuantity : Z) (newCost : Q) : Q :=
  let totalStock := currentStock + newQuantity in
  if totalStock <=? 0 then 0%Q
  else calculateWAC currentStock currentWAC newQuantity newCost.

Record StockInParams := mkStockInParams {
  sip_productId : Z;
  sip_quantity : Z;
  sip_unitCost : Q;
  sip_supplierId : option Z;
  sip_userId : Z;
  sip_notes : option string
}.

Record StockInResult := mkStockInResult {
  sir_success : bool;
  sir_product : Product;
  sir_stockMovement : StockMovement;
  sir_previousStock : Z;
  sir_previousWAC : Q;
  sir_newStock : Z;
  sir_newWAC : Q
}.

Record StockInOutcome := mkStockInOutcome {
  sio_updatedProducts : list Product;
  sio_result : StockInResult
}.

(** [products.find(p => p.id === productId)]. *)
Definition find_product (productId : Z) (products : list Product) : option Product :=
  List.find (fun p => p_id p =? productId) products.

(** [performStockIn]: the in-memory stock receipt. *)
Definition performStockIn (now : Z) (products : list Product) (params : StockInParams)
    : Error + StockInOutcome :=
  let productId := sip_productId params in
  let quantity := sip_quantity params in
  let unitCost := sip_unitCost params in
  match find_product productId products with
  | None => inl (ProductNotFound productId)
  | Some product =>
      let previousStock := p_quantity product in
      let previousWAC := p_wac_cost product in
      let newStock := previousStock + quantity in
      let newWAC := calculateNewWAC previousStock previousWAC quantity unitCost in
      let updatedProduct :=
        {| p_id := p_id product; p_name := p_name product;
           p_name_ur := p_name_ur product; p_sku := p_sku product;
           p_barcode := p_barcode product; p_category_id := p_category_id product;
           p_supplier_id := p_supplier_id product;
           p_cost_price := unitCost;
           p_selling_price := p_selling_price product;
           p_quantity := newStock;
           p_min_stock_level := p_min_stock_level product;
           p_wac_cost := round2 newWAC;
           p_unit := p_unit product; p_description := p_description product;
           p_is_active := p_is_active product;
           p_created_at := p_created_at product;
           p_updated_at := now |} in
      let stockMovement :=
        {| sm_id := now;
           sm_product_id := productId;
           sm_type := mv_purchase;
           sm_quantity := quantity;
           sm_unit_cost := Some unitCost;
           sm_reference_id := sip_supplierId params;
           sm_reference_type := Some "PURCHASE"%string;
           sm_notes := sip_notes params;
           sm_user_id := sip_userId params;
           sm_created_at := now |} in
      let updatedProducts :=
        List.map (fun p => if p_id p =? productId then updatedProduct else p) products in
      inr {| sio_updatedProducts := updatedProducts;
             sio_result :=
               {| sir_success := true;
                  sir_product := updatedProduct;
                  sir_stockMovement := stockMovement;
                  sir_previousStock := previousStock;
                  sir_previousWAC := previousWAC;
                  sir_newStock := newStock;
                  sir_newWAC := newWAC |} |}
  end.

(** The product record after a sale of [sold] units at instant [now]:
    [{ ...p, quantity: Math.max(0, p.quantity - sold), updated_at: .. }]. *)
Definition with_reduced_quantity (now : Z) (sold : Z) (p : Product) : Product :=
  {| p_id := p_id p; p_name := p_name p;
     p_name_ur := p_name_ur p; p_sku := p_sku p;
     p_barcode := p_barcode p; p_category_id := p_category_id p;
     p_supplier_id := p_supplier_id p;
     p_cost_price := p_cost_price p;
     p_selling_price := p_selling_price p;
     p_quantity := Math_max 0 (p_quantity p - sold);
     p_min_stock_level := p_min_stock_level p;
     p_wac_cost := p_wac_cost p;
     p_unit := p_unit p; p_description := p_description p;
     p_is_active := p_is_active p;
     p_created_at := p_created_at p;
     p_updated_at := now |}.

(** [reduceStock]. *)
Definition reduceStock (now : Z) (products : list Product) (productId quantity : Z)
    : list Product :=
  List.map (fun p => if negb (p_id p =? productId) then p
                     else with_reduced_quantity now quantity p) products.

End Inventory.
Export Inventory.

(** ** Sales service *)

Module Sales.

Record CartItem := mkCartItem {
  ci_product : Product;
  ci_quantity : Z;
  ci_unitPrice : Q;
  ci_discount : Q
}.

Record SaleParams := mkSaleParams {
  sp_customerId : option Z;
  sp_userId : Z;
  sp_items : list CartItem;
  sp_discount : Q;
  sp_paymentMode : PaymentMethod;
  sp_amountPaid : Q;
  sp_notes : option string
}.

(** [KhataSaleParams]: the customer is required and the mode is ['credit']. *)
Record KhataSaleParams := mkKhataSaleParams {
  kp_customerId : Z;
  kp_userId : Z;
  kp_items : list CartItem;
  kp_discount : Q;
  kp_amountPaid : Q;
  kp_notes : option string
}.

Record SaleResult := mkSaleResult {
  sr_success : bool;
  sr_sale : Sale;
  sr_saleItems : list SaleItem;
  sr_invoiceNumber : string;
  sr_change : Q;
  sr_ledgerEntry : option LedgerEntry
}.

Record SaleTotals := mkSaleTotals {
  t_subtotal : Q;
  t_discount : Q;
  t_netAmount : Q;
  t_totalCost : Q;
  t_grossProfit : Q;
  t_itemCount : Z
}.

(** [calculateSaleTotals]; every [reduce] is a left fold from [0]. *)
Definition calculateSaleTotals (items : list CartItem) (discount : Q) : SaleTotals :=
  let subtotal :=
    fold_left (fun sum item =>
                 sum + inject_Z (ci_quantity item) * ci_unitPrice item - ci_discount item)%Q
              items 0%Q in
  let netAmount := (subtotal - discount)%Q in
  let totalCost :=
    fold_left (fun sum item =>
                 sum + inject_Z (ci_quantity item) * p_wac_cost (ci_product item))%Q
              items 0%Q in
  let grossProfit := (netAmount - totalCost)%Q in
  {| t_subtotal := subtotal;
     t_discount := discount;
     t_netAmount := netAmount;
     t_totalCost := totalCost;
     t_grossProfit := grossProfit;
     t_itemCount := fold_left (fun sum item => sum + ci_quantity item) items 0 |}.

(** [discount > 0 ? (discount / subtotal) * 100 : 0].  A positive discount
    over a subtotal of [0] gives [Infinity], which is no amount: [None]. *)
Definition discount_percent (discount subtotal : Q) : option Q :=
  if Qlt_le_dec 0 discount
  then if Qeq_bool subtotal 0 then None else Some (discount / subtotal * 100)%Q
  else Some 0%Q.

(** [items.map((item, index) => ({ id: Date.now() + index, .. }))]. *)
Definition make_sale_items (now : Z) (saleId : Z) (items : list CartItem) : list SaleItem :=
  imap (fun index item =>
          {| si_id := now + Z.of_nat index;
             si_sale_id := saleId;
             si_product_id := p_id (ci_product item);
             si_quantity := ci_quantity item;
             si_unit_price := ci_unitPrice item;
             si_cost_price := p_wac_cost (ci_product item);
             si_discount_amount := ci_discount item;
             si_total := (inject_Z (ci_quantity item) * ci_unitPrice item
                          - ci_discount item)%Q;
             si_created_at := now |}) items.

(** [items.find(item => item.product.id === p.id)]. *)
Definition find_sold_item (items : list CartItem) (p : Product) : option CartItem :=
  List.find (fun item => p_id (ci_product item) =? p_id p) items.

(** The "update product quantities" step shared by both kinds of sale. *)
Definition update_quantities (now : Z) (items : list CartItem) (products : list Product)
    : list Product :=
  List.map (fun p => match find_sold_item items p with
                     | None => p
                     | Some soldItem => with_reduced_quantity now (ci_quantity soldItem) p
                     end) products.

Record CashSaleOutcome := mkCashSaleOutcome {
  cso_sale : SaleResult;
  cso_updatedProducts : list Product
}.

(** [createCashSale].  The function has no failing path. *)
Definition createCashSale (now : Z) (invoiceNumber : string)
    (params : SaleParams) (products : list Product) : CashSaleOutcome :=
  let items := sp_items params in
  let discount := sp_discount params in
  let amountPaid := sp_amountPaid params in
  let totals := calculateSaleTotals items discount in
  let change := Math_maxQ 0 (amountPaid - t_netAmount totals) in
  let sale :=
    {| s_id := now;
       s_invoice_number := Some invoiceNumber;
       s_customer_id := sp_customerId params;
       s_user_id := sp_userId params;
       s_subtotal := t_subtotal totals;
       s_discount_amount := discount;
       s_discount_percent := discount_percent discount (t_subtotal totals);
       s_tax_amount := 0;
       s_total := t_netAmount totals;
       s_payment_method := pm_cash;
       s_payment_received := amountPaid;
       s_change_amount := change;
       s_status := st_completed;
       s_notes := sp_notes params;
       s_created_at := now |} in
  let saleItems := make_sale_items now (s_id sale) items in
  let updatedProducts := update_quantities now items products in
  {| cso_sale :=
       {| sr_success := true;
          sr_sale := sale;
          sr_saleItems := saleItems;
          sr_invoiceNumber := invoiceNumber;
          sr_change := change;
          sr_ledgerEntry := None |};
     cso_updatedProducts := updatedProducts |}.

(** [customers.find(c => c.id === customerId)]. *)
Definition find_customer (customerId : Z) (customers : list Customer) : option Customer :=
  List.find (fun c => c_id c =? customerId) customers.

(** [Math.max(...ledgerEntries.map(e => e.id), 0) + 1], a sum of doubles. *)
Definition next_ledger_id (ledgerEntries : list LedgerEntry) : Z :=
  nearest_double (Math_max_list (List.map le_id ledgerEntries) + 1).

(** [customers.map(c => c.id !== customerId ? c
                         : { ...c, credit_balance: newBalance, updated_at: .. })]. *)
Definition set_balance (now : Z) (customerId : Z) (newBalance : Q)
    (customers : list Customer) : list Customer :=
  List.map (fun c =>
              if negb (c_id c =? customerId) then c
              else {| c_id := c_id c; c_name := c_name c; c_phone := c_phone c;
                      c_email := c_email c; c_address := c_address c;
                      c_credit_limit := c_credit_limit c;
                      c_credit_balance := newBalance;
                      c_notes := c_notes c; c_is_active := c_is_active c;
                      c_created_at := c_created_at c;
                      c_updated_at := now |}) customers.

Record KhataSaleOutcome := mkKhataSaleOutcome {
  kso_sale : SaleResult;
  kso_updatedProducts : list Product;
  kso_updatedCustomers : list Customer;
  kso_newLedgerEntry : LedgerEntry
}.

(** [createKhataSale]. *)
Definition createKhataSale (now : Z) (invoiceNumber : string)
    (params : KhataSaleParams) (products : list Product)
    (customers : list Customer) (ledgerEntries : list LedgerEntry)
    : Error + KhataSaleOutcome :=
  let customerId := kp_customerId params in
  let items := kp_items params in
  let discount := kp_discount params in
  match find_customer customerId customers with
  | None => inl (CustomerNotFound customerId)
  | Some customer =>
      let totals := calculateSaleTotals items discount in
      let sale :=
        {| s_id := now;
           s_invoice_number := Some invoiceNumber;
           s_customer_id := Some customerId;
           s_user_id := kp_userId params;
           s_subtotal := t_subtotal totals;
           s_discount_amount := discount;
           s_discount_percent := discount_percent discount (t_subtotal totals);
           s_tax_amount := 0;
           s_total := t_netAmount totals;
           s_payment_method := pm_credit;
           s_payment_received := 0;
           s_change_amount := 0;
           s_status := st_completed;
           s_notes := kp_notes params;
           s_created_at := now |} in
      let saleItems := make_sale_items now (s_id sale) items in
      let updatedProducts := update_quantities now items products in
      let newBalance := (c_credit_balance customer + t_netAmount totals)%Q in
      let newLedgerEntry :=
        {| le_id := next_ledger_id ledgerEntries;
           le_customer_id := customerId;
           le_type := lt_credit;
           le_amount := t_netAmount totals;
           le_balance := newBalance;
           le_reference_id := Some (s_id sale);
           le_reference_type := Some "sale"%string;
           le_description := Some ("Credit Sale - Invoice #" +:+ invoiceNumber)%string;
           le_user_id := kp_userId params;
           le_created_at := now |} in
      let updatedCustomers := set_balance now customerId newBalance customers in
      inr {| kso_sale :=
               {| sr_success := true;
                  sr_sale := sale;
                  sr_saleItems := saleItems;
                  sr_invoiceNumber := invoiceNumber;
                  sr_change := 0;
                  sr_ledgerEntry := Some newLedgerEntry |};
             kso_updatedProducts := updatedProducts;
             kso_updatedCustomers := updatedCustomers;
             kso_newLedgerEntry := newLedgerEntry |}
  end.

Record PaymentOutcome := mkPaymentOutcome {
  po_updatedCustomers : list Customer;
  po_newLedgerEntry : LedgerEntry
}.

(** [description || 'Payment received']: an absent or empty text is falsy. *)
Definition description_or_default (description : option string) : string :=
  match description with
  | Some d => if String.eqb d ""%string then "Payment received"%string else d
  | None => "Payment received"%string
  end.

(** [recordKhataPayment]. *)
Definition recordKhataPayment (now : Z) (customerId : Z) (amount : Q) (userId : Z)
    (customers : list Customer) (ledgerEntries : list LedgerEntry)
    (description : option string) : Error + PaymentOutcome :=
  match find_customer customerId customers with
  | None => inl (CustomerNotFound customerId)
  | Some customer =>
      let newBalance := (c_credit_balance customer - amount)%Q in
      let newLedgerEntry :=
        {| le_id := next_ledger_id ledgerEntries;
           le_customer_id := customerId;
           le_type := lt_debit;
           le_amount := amount;
           le_balance := newBalance;
           le_reference_id := None;
           le_reference_type := Some "payment"%string;
           le_description := Some (description_or_default description);
           le_user_id := userId;
           le_created_at := now |} in
      let updatedCustomers := set_balance now customerId newBalance customers in
      inr {| po_updatedCustomers := updatedCustomers;
             po_newLedgerEntry := newLedgerEntry |}
  end.

End Sales.
Export Sales.

(** ** Product repository (SQL-backed) *)

Module Repository.

(** The two tables the repository operations touch. *)
Record Database := mkDatabase {
  tbl_products : list Product;
  tbl_stock_movements : list StockMovement
}.

(** [SELECT * FROM products WHERE id = ?] through [queryOne]. *)
Definition getProductById (id : Z) (db : Database) : option Product :=
  find_product id (tbl_products db).

(** [x || null] on an optional number and on an optional text. *)
Definition or_nullZ (x : option Z) : option Z :=
  match x with Some 0 => None | _ => x end.
Definition or_null_string (x : option string) : option string :=
  match x with
  | Some s => if String.eqb s ""%string then None else x
  | None => None
  end.

(** Row id given by [AUTOINCREMENT] to the next stock movement. *)
Definition next_movement_id (db : Database) : Z :=
  Math_max_list (List.map sm_id (tbl_stock_movements db)) + 1.

Record StockInInput := mkStockInInput {
  sii_product_id : Z;
  sii_quantity : Z;
  sii_unit_cost : Q;
  sii_user_id : Z;
  sii_notes : option string
}.

Inductive StockOutKind := so_sale | so_adjustment | so_damage | so_return.

Definition movement_type_of (k : StockOutKind) : MovementType :=
  match k with
  | so_sale => mv_sale
  | so_adjustment => mv_adjustment
  | so_damage => mv_damage
  | so_return => mv_return
  end.

Record StockOutInput := mkStockOutInput {
  soi_product_id : Z;
  soi_quantity : Z;
  soi_type : StockOutKind;
  soi_reference_id : option Z;
  soi_reference_type : option string;
  soi_user_id : Z;
  soi_notes : option string
}.

Record RepoResult := mkRepoResult {
  rr_product : option Product;
  rr_movement : option StockMovement
}.

(** [UPDATE products SET quantity = ?, updated_at = CURRENT_TIMESTAMP WHERE id = ?]. *)
Definition update_quantity (now : Z) (id newQuantity : Z) (rows : list Product)
    : list Product :=
  List.map (fun p =>
              if p_id p =? id then
                {| p_id := p_id p; p_name := p_name p;
                   p_name_ur := p_name_ur p; p_sku := p_sku p;
                   p_barcode := p_barcode p; p_category_id := p_category_id p;
                   p_supplier_id := p_supplier_id p;
                   p_cost_price := p_cost_price p;
                   p_selling_price := p_selling_price p;
                   p_quantity := newQuantity;
                   p_min_stock_level := p_min_stock_level p;
                   p_wac_cost := p_wac_cost p;
                   p_unit := p_unit p; p_description := p_description p;
                   p_is_active := p_is_active p;
                   p_created_at := p_created_at p;
                   p_updated_at := now |}
              else p) rows.

(** [UPDATE products SET quantity = ?, wac_cost = ?, cost_price = ?,
    updated_at = CURRENT_TIMESTAMP WHERE id = ?]. *)
Definition update_stock_in (now : Z) (id newQuantity : Z) (newWAC unitCost : Q)
    (rows : list Product) : list Product :=
  List.map (fun p =>
              if p_id p =? id then
                {| p_id := p_id p; p_name := p_name p;
                   p_name_ur := p_name_ur p; p_sku := p_sku p;
                   p_barcode := p_barcode p; p_category_id := p_category_id p;
                   p_supplier_id := p_supplier_id p;
                   p_cost_price := unitCost;
                   p_selling_price := p_selling_price p;
                   p_quantity := newQuantity;
                   p_min_stock_level := p_min_stock_level p;
                   p_wac_cost := newWAC;
                   p_unit := p_unit p; p_description := p_description p;
                   p_is_active := p_is_active p;
                   p_created_at := p_created_at p;
                   p_updated_at := now |}
              else p) rows.

(** [stockIn] inside [transaction]: a thrown error rolls the database back,
    so a failure carries no new database. *)
Definition stockIn (now : Z) (input : StockInInput) (db : Database)
    : Error + (Database * RepoResult) :=
  match getProductById (sii_product_id input) db with
  | None => inl (ProductNotFound (sii_product_id input))
  | Some product =>
      let newWAC := calculateWAC (p_quantity product) (p_wac_cost product)
                                 (sii_quantity input) (sii_unit_cost input) in
      let newQuantity := p_quantity product + sii_quantity input in
      let rows := update_stock_in now (sii_product_id input) newQuantity newWAC
                                  (sii_unit_cost input) (tbl_products db) in
      let rowid := next_movement_id db in
      let movement :=
        {| sm_id := rowid;
           sm_product_id := sii_product_id input;
           sm_type := mv_purchase;
           sm_quantity := sii_quantity input;
           sm_unit_cost := Some (sii_unit_cost input);
           sm_reference_id := None;
           sm_reference_type := None;
           sm_notes := or_null_string (sii_notes input);
           sm_user_id := sii_user_id input;
           sm_created_at := now |} in
      let db' := {| tbl_products := rows;
                    tbl_stock_movements := tbl_stock_movements db ++ [movement] |} in
      inr (db', {| rr_product := getProductById (sii_product_id input) db';
                   rr_movement :=
                     List.find (fun m => sm_id m =? rowid) (tbl_stock_movements db') |})
  end.

(** [stockOut] inside [transaction]. *)
Definition stockOut (now : Z) (input : StockOutInput) (db : Database)
    : Error + (Database * RepoResult) :=
  match getProductById (soi_product_id input) db with
  | None => inl (ProductNotFound (soi_product_id input))
  | Some product =>
      if p_quantity product <? soi_quantity input then inl InsufficientStock
      else
        let newQuantity := p_quantity product - soi_quantity input in
        let rows := update_quantity now (soi_product_id input) newQuantity
                                    (tbl_products db) in
        let rowid := next_movement_id db in
        let movement :=
          {| sm_id := rowid;
             sm_product_id := soi_product_id input;
             sm_type := movement_type_of (soi_type input);
             sm_quantity := - soi_quantity input;
             sm_unit_cost := Some (p_wac_cost product);
             sm_reference_id := or_nullZ (soi_reference_id input);
             sm_reference_type := or_null_string (soi_reference_type input);
             sm_notes := or_null_string (soi_notes input);
             sm_user_id := soi_user_id input;
             sm_created_at := now |} in
        let db' := {| tbl_products := rows;
                      tbl_stock_movements := tbl_stock_movements db ++ [movement] |} in
        inr (db', {| rr_product := getProductById (soi_product_id input) db';
                     rr_movement :=
                       List.find (fun m => sm_id m =? rowid) (tbl_stock_movements db') |})
  end.

End Repository.
Export Repository.

(** ** Report service *)

Module Reports.

Record DateRange := mkDateRange {
  startDate : Z;
  endDate : Z
}.

Record ProfitReport := mkProfitReport {
  grossProfit : Q;
  totalRevenue : Q;
  totalCost : Q;
  totalDiscounts : Q;
  netProfit : Q;
  profitMargin : Q;
  transactionCount : nat;
  itemsSold : Z
}.

Definition is_completed (s : Sale) : bool :=
  match s_status s with st_completed => true | _ => false end.

(** [saleDate >= dateRange.startDate && saleDate <= dateRange.endDate]. *)
Definition in_range (r : DateRange) (s : Sale) : bool :=
  (startDate r <=? s_created_at s) && (s_created_at s <=? endDate r).

(** The sales a report covers: completed ones, inside the range when one is given. *)
Definition filter_sales (sales : list Sale) (dateRange : option DateRange) : list Sale :=
  let filteredSales := List.filter is_completed sales in
  match dateRange with
  | Some r => List.filter (in_range r) filteredSales
  | None => filteredSales
  end.

(** The four running totals of the [forEach] over the selected items. *)
Record Totals := mkTotals {
  acc_revenue : Q;
  acc_cost : Q;
  acc_itemDiscounts : Q;
  acc_itemsSold : Z
}.

Definition add_item (acc : Totals) (item : SaleItem) : Totals :=
  {| acc_revenue := (acc_revenue acc + inject_Z (si_quantity item) * si_unit_price item)%Q;
     acc_cost := (acc_cost acc + inject_Z (si_quantity item) * si_cost_price item)%Q;
     acc_itemDiscounts := (acc_itemDiscounts acc + si_discount_amount item)%Q;
     acc_itemsSold := acc_itemsSold acc + si_quantity item |}.

(** [calculateNetProfit]. *)
Definition calculateNetProfit (sales : list Sale) (saleItems : list SaleItem)
    (dateRange : option DateRange) : ProfitReport :=
  let filteredSales := filter_sales sales dateRange in
  let saleIds : gset Z := list_to_set (List.map s_id filteredSales) in
  let filteredItems :=
    List.filter (fun item => bool_decide (si_sale_id item ∈ saleIds)) saleItems in
  let acc := fold_left add_item filteredItems
                       {| acc_revenue := 0; acc_cost := 0;
                          acc_itemDiscounts := 0; acc_itemsSold := 0 |} in
  let totalSaleDiscounts :=
    fold_left (fun sum s => sum + s_discount_amount s)%Q filteredSales 0%Q in
  let totalDiscounts := (acc_itemDiscounts acc + totalSaleDiscounts)%Q in
  let grossProfit := (acc_revenue acc - acc_cost acc - acc_itemDiscounts acc)%Q in
  let netProfit := (grossProfit - totalSaleDiscounts)%Q in
  let profitMargin :=
    if Qlt_le_dec 0 (acc_revenue acc)
    then (inject_Z (Math_round (netProfit / acc_revenue acc * 10000)) / 100)%Q
    else 0%Q in
  {| grossProfit := grossProfit;
     totalRevenue := acc_revenue acc;
     totalCost := acc_cost acc;
     totalDiscounts := totalDiscounts;
     netProfit := netProfit;
     profitMargin := profitMargin;
     transactionCount := length filteredSales;
     itemsSold := acc_itemsSold acc |}.

(** [Array.prototype.sort(compare)]: the sort is stable, and [a] goes before
    [b] when [compare(a, b) < 0].  A stable insertion sort gives the order
    every conforming engine returns for a consistent comparator. *)
Fixpoint js_insert {A} (compare : A -> A -> Z) (x : A) (l : list A) : list A :=
  match l with
  | [] => [x]
  | y :: l' => if compare x y <=? 0 then x :: y :: l'
               else y :: js_insert compare x l'
  end.

Definition js_sort {A} (compare : A -> A -> Z) (l : list A) : list A :=
  foldr (js_insert compare) [] l.

(** [getCustomerLedgerStatement]. *)
Definition getCustomerLedgerStatement (customerId : Z) (ledgerEntries : list LedgerEntry)
    : list LedgerEntry :=
  js_sort (fun a b => le_created_at b - le_created_at a)
          (List.filter (fun e => le_customer_id e =? customerId) ledgerEntries).

End Reports.
Export Reports.

(** ** The committed store and its operations *)

Module Engine.

(** The records a caller of the services keeps between operations. *)
Record Store := mkStore {
  st_products : list Product;
  st_customers : list Customer;
  st_ledger : list LedgerEntry;
  st_movements : list StockMovement
}.

Inductive Op :=
| OpStockIn (now : Z) (params : StockInParams)
| OpRepoStockIn (now : Z) (input : StockInInput)
| OpCashSale (now : Z) (invoiceNumber : string) (params : SaleParams)
| OpKhataSale (now : Z) (invoiceNumber : string) (params : KhataSaleParams)
| OpPayment (now : Z) (customerId : Z) (amount : Q) (userId : Z)
            (description : option string)
| OpReduceStock (now : Z) (productId quantity : Z)
| OpStockOut (now : Z) (input : StockOutInput).

Definition database_of (s : Store) : Database :=
  {| tbl_products := st_products s; tbl_stock_movements := st_movements s |}.

Definition with_database (s : Store) (db : Database) : Store :=
  {| st_products := tbl_products db;
     st_customers := st_customers s;
     st_ledger := st_ledger s;
     st_movements := tbl_stock_movements db |}.

(** One operation on the store: the arrays a service returns take the place
    of the ones it was given, the entry or movement it returns is appended,
    and an operation that throws leaves the store as it was. *)
Definition apply_op (op : Op) (s : Store) : Store :=
  match op with
  | OpStockIn now params =>
      match performStockIn now (st_products s) params with
      | inl _ => s
      | inr out =>
          {| st_products := sio_updatedProducts out;
             st_customers := st_customers s;
             st_ledger := st_ledger s;
             st_movements := st_movements s ++ [sir_stockMovement (sio_result out)] |}
      end
  | OpRepoStockIn now input =>
      match stockIn now input (database_of s) with
      | inl _ => s
      | inr (db, _) => with_database s db
      end
  | OpCashSale now invoiceNumber params =>
      let out := createCashSale now invoiceNumber params (st_products s) in
      {| st_products := cso_updatedProducts out;
         st_customers := st_customers s;
         st_ledger := st_ledger s;
         st_movements := st_movements s |}
  | OpKhataSale now invoiceNumber params =>
      match createKhataSale now invoiceNumber params (st_products s)
                            (st_customers s) (st_ledger s) with
      | inl _ => s
      | inr out =>
          {| st_products := kso_updatedProducts out;
             st_customers := kso_updatedCustomers out;
             st_ledger := st_ledger s ++ [kso_newLedgerEntry out];
             st_movements := st_movements s |}
      end
  | OpPayment now customerId amount userId description =>
      match recordKhataPayment now customerId amount userId
                               (st_customers s) (st_ledger s) description with
      | inl _ => s
      | inr out =>
          {| st_products := st_products s;
             st_customers := po_updatedCustomers out;
             st_ledger := st_ledger s ++ [po_newLedgerEntry out];
             st_movements := st_movements s |}
      end
  | OpReduceStock now productId quantity =>
      {| st_products := reduceStock now (st_products s) productId quantity;
         st_customers := st_customers s;
         st_ledger := st_ledger s;
         st_movements := st_movements s |}
  | OpStockOut now input =>
      match stockOut now input (database_of s) with
      | inl _ => s
      | inr (db, _) => with_database s db
      end
  end.

(** A sequence of operations, first to last. *)
Definition run (ops : list Op) (s : Store) : Store :=
  fold_left (fun st op => apply_op op st) ops s.

(** Every product has a stock of at least zero. *)
Definition stock_nonneg (products : list Product) : Prop :=
  Forall (fun p => 0 <= p_quantity p) products.

(** A receipt that adds a quantity of at least zero; the other operations
    carry no condition. *)
Definition receipt_nonneg (op : Op) : Prop :=
  match op with
  | OpStockIn _ params => 0 <= sip_quantity params
  | OpRepoStockIn _ input => 0 <= sii_quantity input
  | _ => True
  end.

(** The balance the most recently appended entry of a customer records,
    [0] when the customer has no entry. *)
Definition latest_balance (customerId : Z) (ledger : list LedgerEntry) : Q :=
  match last (List.filter (fun e => le_customer_id e =? customerId) ledger) with
  | Some e => le_balance e
  | None => 0%Q
  end.

(** Every stored balance is the one its customer's latest entry records. *)
Definition ledger_consistent (s : Store) : Prop :=
  forall c, In c (st_customers s) ->
    (c_credit_balance c == latest_balance (c_id c) (st_ledger s))%Q.

End Engine.
Export Engine.

(** ** Auxiliary notions used in the statements *)

Module Notions.

(** Two product records that differ at most in [quantity] and [updated_at]. *)
Definition same_but_stock (p p' : Product) : Prop :=
  p_id p' = p_id p /\ p_name p' = p_name p /\ p_name_ur p' = p_name_ur p /\
  p_sku p' = p_sku p /\ p_barcode p' = p_barcode p /\
  p_category_id p' = p_category_id p /\ p_supplier_id p' = p_supplier_id p /\
  p_cost_price p' = p_cost_price p /\ p_selling_price p' = p_selling_price p /\
  p_min_stock_level p' = p_min_stock_level p /\ p_wac_cost p' = p_wac_cost p /\
  p_unit p' = p_unit p /\ p_description p' = p_description p /\
  p_is_active p' = p_is_active p /\ p_created_at p' = p_created_at p.

(** Two customer records that differ at most in [credit_balance] and
    [updated_at]. *)
Definition same_but_balance (c c' : Customer) : Prop :=
  c_id c' = c_id c /\ c_name c' = c_name c /\ c_phone c' = c_phone c /\
  c_email c' = c_email c /\ c_address c' = c_address c /\
  c_credit_limit c' = c_credit_limit c /\ c_notes c' = c_notes c /\
  c_is_active c' = c_is_active c /\ c_created_at c' = c_created_at c.

(** Sum of an amount over a list. *)
Definition sumQ {A} (f : A -> Q) (l : list A) : Q :=
  foldr (fun x acc => f x + acc)%Q 0%Q l.

(** The margin of one sale line, [quantity * (unit_price - cost_price)]. *)
Definition line_margin (item : SaleItem) : Q :=
  (inject_Z (si_quantity item) * (si_unit_price item - si_cost_price item))%Q.

(** The lines of the given sales. *)
Definition lines_of (selected : list Sale) (saleItems : list SaleItem) : list SaleItem :=
  List.filter (fun item => existsb (fun s => s_id s =? si_sale_id item) selected) saleItems.

(** Net profit over a chosen set of sales:
    sum of line margins, less line discounts, less sale discounts. *)
Definition net_profit_over (selected : list Sale) (saleItems : list SaleItem) : Q :=
  (sumQ line_margin (lines_of selected saleItems)
   - sumQ si_discount_amount (lines_of selected saleItems)
   - sumQ s_discount_amount selected)%Q.

(** Completed sales whose instant lies in the closed range [start .. end]. *)
Definition completed_within (r : DateRange) (sales : list Sale) : list Sale :=
  List.filter (fun s => is_completed s && (startDate r <=? s_created_at s)
                          && (s_created_at s <=? endDate r)) sales.

(** The specification's [profitForRange(start, end)], after its wording:
    completed sales whose timestamp lies in the half-open range
    [start, end). *)
Definition spec_profitForRange (start end_ : Z) (sales : list Sale)
    (saleItems : list SaleItem) : Q :=
  net_profit_over
    (List.filter (fun s => is_completed s && (start <=? s_created_at s)
                             && (s_created_at s <? end_)) sales)
    saleItems.

(** Most recent first. *)
Definition newest_first (a b : LedgerEntry) : Prop :=
  le_created_at b <= le_created_at a.

(** The order the specification words for a statement: most recent first,
    and of two entries of one instant the one with the larger id first. *)
Definition newest_then_largest_id (a b : LedgerEntry) : Prop :=
  le_created_at b < le_created_at a \/
  (le_created_at b = le_created_at a /\ le_id b <= le_id a).

(** The entries of one instant, in the order the list has them. *)
Definition entries_at (t : Z) (l : list LedgerEntry) : list LedgerEntry :=
  List.filter (fun e => le_created_at e =? t) l.

End Notions.
Export Notions.

(** ** Sample records for the worked scenarios *)

Module Sample.

Definition product_with (id quantity : Z) (wac : Q) : Product :=
  {| p_id := id; p_name := "Basmati Rice 5kg"; p_name_ur := None;
     p_sku := Some "RICE-001"%string; p_barcode := None;
     p_category_id := Some 1; p_supplier_id := None;
     p_cost_price := wac; p_selling_price := 50;
     p_quantity := quantity; p_min_stock_level := 10;
     p_wac_cost := wac; p_unit := "bag"; p_description := None;
     p_is_active := true; p_created_at := 0; p_updated_at := 0 |}.

Definition customer_with (id : Z) (balance : Q) : Customer :=
  {| c_id := id; c_name := "Ali Khan"; c_phone := None; c_email := None;
     c_address := None; c_credit_limit := 50000; c_credit_balance := balance;
     c_notes := None; c_is_active := true; c_created_at := 0; c_updated_at := 0 |}.

Definition receipt (id quantity : Z) (unitCost : Q) : StockInParams :=
  {| sip_productId := id; sip_quantity := quantity; sip_unitCost := unitCost;
     sip_supplierId := None; sip_userId := 1; sip_notes := None |}.

Definition line (p : Product) (quantity : Z) (unitPrice : Q) : CartItem :=
  {| ci_product := p; ci_quantity := quantity; ci_unitPrice := unitPrice;
     ci_discount := 0 |}.

Definition cash_sale (items : list CartItem) : SaleParams :=
  {| sp_customerId := None; sp_userId := 1; sp_items := items; sp_discount := 0;
     sp_paymentMode := pm_cash; sp_amountPaid := 300; sp_notes := None |}.

Definition khata_sale (customerId : Z) (items : list CartItem) : KhataSaleParams :=
  {| kp_customerId := customerId; kp_userId := 1; kp_items := items;
     kp_discount := 0; kp_amountPaid := 0; kp_notes := None |}.

Definition stock_out (id quantity : Z) : StockOutInput :=
  {| soi_product_id := id; soi_quantity := quantity; soi_type := so_sale;
     soi_reference_id := None; soi_reference_type := None; soi_user_id := 1;
     soi_notes := None |}.

Definition sale_at (id t : Z) (discount : Q) : Sale :=
  {| s_id := id; s_invoice_number := None; s_customer_id := None; s_user_id := 1;
     s_subtotal := 100; s_discount_amount := discount; s_discount_percent := Some 0%Q;
     s_tax_amount := 0; s_total := 100 - discount; s_payment_method := pm_cash;
     s_payment_received := 100; s_change_amount := 0; s_status := st_completed;
     s_notes := None; s_created_at := t |}.

Definition sale_line (saleId quantity : Z) (unitPrice cost : Q) : SaleItem :=
  {| si_id := 1; si_sale_id := saleId; si_product_id := 1; si_quantity := quantity;
     si_unit_price := unitPrice; si_cost_price := cost; si_discount_amount := 0;
     si_total := inject_Z quantity * unitPrice; si_created_at := 0 |}.

Definition entry (id customerId t : Z) (balance : Q) : LedgerEntry :=
  {| le_id := id; le_customer_id := customerId; le_type := lt_credit;
     le_amount := balance; le_balance := balance; le_reference_id := None;
     le_reference_type := None; le_description := None; le_user_id := 1;
     le_created_at := t |}.

(** A store with one product and one customer, and a day of operations. *)
Definition shop (quantity : Z) (balance : Q) : Store :=
  {| st_products := [product_with 7 quantity 30];
     st_customers := [customer_with 3 balance];
     st_ledger := [];
     st_movements := [] |}.

Definition busy_day : list Op :=
  [ OpStockIn 1 (receipt 7 10 100);
    OpCashSale 2 "INV-20240101-0001" (cash_sale [line (product_with 7 10 100) 6 50]);
    OpKhataSale 3 "INV-20240101-0002" (khata_sale 3 [line (product_with 7 4 100) 2 50]);
    OpPayment 4 3 40 1 None;
    OpStockOut 5 (stock_out 7 1) ].

End Sample.

(** ** Sorting with other comparators *)

Module Ordering.

(** The insertion step of a stable sort, the test "goes before" being given. *)
Fixpoint insert_by {A} (goes_before : A -> A -> bool) (x : A) (l : list A) : list A :=
  match l with
  | [] => [x]
  | y :: l' => if goes_before x y then x :: y :: l'
               else y :: insert_by goes_before x l'
  end.

Definition sort_by {A} (goes_before : A -> A -> bool) (l : list A) : list A :=
  foldr (insert_by goes_before) [] l.

(** [Array.prototype.sort(compare)] for a comparator whose result is an
    amount: [a] goes before [b] when [compare(a, b) < 0], and the sort is
    stable. *)
Definition js_sortQ {A} (compare : A -> A -> Q) (l : list A) : list A :=
  sort_by (fun a b => Qle_bool (compare a b) 0) l.

(** [array.slice(0, limit)]: a negative [limit] counts from the end. *)
Definition js_slice0 {A} (limit : Z) (l : list A) : list A :=
  if limit <? 0 then take (Z.to_nat (Z.of_nat (length l) + limit)) l
  else take (Z.to_nat limit) l.

End Ordering.
Export Ordering.

(** ** Inventory service: stock alerts and valuation *)

Module InventoryReports.

(** [getLowStockProducts] of the inventory service. *)
Definition getLowStockProducts (products : list Product) : list Product :=
  js_sort (fun a b => p_quantity a - p_quantity b)
          (List.filter (fun p => p_is_active p && (p_quantity p <=? p_min_stock_level p))
                       products).

(** [calculateInventoryValue]. *)
Definition calculateInventoryValue (products : list Product) : Q :=
  fold_left (fun total p => total + inject_Z (p_quantity p) * p_wac_cost p)%Q
            (List.filter p_is_active products) 0%Q.

End InventoryReports.
Export InventoryReports.

(** ** Product repository: soft delete and valuation *)

Module RepositoryAdmin.

(** [UPDATE products SET is_active = 0, updated_at = CURRENT_TIMESTAMP
    WHERE id = ?], and [result.changes > 0]. *)
Definition deleteProduct (now : Z) (id : Z) (db : Database) : Database * bool :=
  ({| tbl_products :=
        List.map (fun p =>
                    if p_id p =? id then
                      {| p_id := p_id p; p_name := p_name p;
                         p_name_ur := p_name_ur p; p_sku := p_sku p;
                         p_barcode := p_barcode p; p_category_id := p_category_id p;
                         p_supplier_id := p_supplier_id p;
                         p_cost_price := p_cost_price p;
                         p_selling_price := p_selling_price p;
                         p_quantity := p_quantity p;
                         p_min_stock_level := p_min_stock_level p;
                         p_wac_cost := p_wac_cost p;
                         p_unit := p_unit p; p_description := p_description p;
                         p_is_active := false;
                         p_created_at := p_created_at p;
                         p_updated_at := now |}
                    else p) (tbl_products db);
      tbl_stock_movements := tbl_stock_movements db |},
   existsb (fun p => p_id p =? id) (tbl_products db)).

Record InventoryValue := mkInventoryValue {
  iv_totalItems : Z;
  iv_totalValue : Q
}.

(** [getInventoryValue]: [SUM(quantity)] and [SUM(quantity * wac_cost)] over
    the active rows, [0] for a sum over no row. *)
Definition getInventoryValue (db : Database) : InventoryValue :=
  let rows := List.filter p_is_active (tbl_products db) in
  {| iv_totalItems := fold_left (fun sum p => sum + p_quantity p) rows 0;
     iv_totalValue :=
       fold_left (fun sum p => sum + inject_Z (p_quantity p) * p_wac_cost p)%Q rows 0%Q |}.

End RepositoryAdmin.
Export RepositoryAdmin.

(** ** Report service: alerts, balances, summaries and breakdowns *)

Module MoreReports.

Inductive StockStatus := out_of_stock | critical | low_stock.

Record StockAlertItem := mkStockAlertItem {
  sa_productId : Z;
  sa_barcode : option string;
  sa_productName : string;
  sa_productNameUr : option string;
  sa_currentStock : Z;
  sa_minStockLevel : Z;
  sa_unitsBelowMinimum : Z;
  sa_status : StockStatus
}.

(** [p.quantity === 0 ? 'out_of_stock'
     : p.quantity <= p.min_stock_level / 2 ? 'critical' : 'low_stock']. *)
Definition stock_status (p : Product) : StockStatus :=
  if p_quantity p =? 0 then out_of_stock
  else if Qle_bool (inject_Z (p_quantity p)) (inject_Z (p_min_stock_level p) / 2)
       then critical
       else low_stock.

(** [getLowStockAlerts]. *)
Definition getLowStockAlerts (products : list Product) : list StockAlertItem :=
  js_sort (fun a b => sa_currentStock a - sa_currentStock b)
    (List.map (fun p =>
                 {| sa_productId := p_id p;
                    sa_barcode := p_barcode p;
                    sa_productName := p_name p;
                    sa_productNameUr := p_name_ur p;
                    sa_currentStock := p_quantity p;
                    sa_minStockLevel := p_min_stock_level p;
                    sa_unitsBelowMinimum := p_min_stock_level p - p_quantity p;
                    sa_status := stock_status p |})
       (List.filter (fun p => p_is_active p && (p_quantity p <=? p_min_stock_level p))
                    products)).

Record CustomerBalanceEntry := mkCustomerBalanceEntry {
  cb_customerId : Z;
  cb_name : string;
  cb_phone : option string;
  cb_amountOwed : Q;
  cb_creditLimit : Q;
  cb_remainingCredit : Q
}.

(** [getOutstandingBalances]. *)
Definition getOutstandingBalances (customers : list Customer) : list CustomerBalanceEntry :=
  js_sortQ (fun a b => cb_amountOwed b - cb_amountOwed a)%Q
    (List.map (fun c =>
                 {| cb_customerId := c_id c;
                    cb_name := c_name c;
                    cb_phone := c_phone c;
                    cb_amountOwed := c_credit_balance c;
                    cb_creditLimit := c_credit_limit c;
                    cb_remainingCredit := (c_credit_limit c - c_credit_balance c)%Q |})
       (List.filter (fun c => c_is_active c && negb (Qle_bool (c_credit_balance c) 0))
                    customers)).

Record SalesSummary := mkSalesSummary {
  ss_totalSales : Q;
  ss_cashSales : Q;
  ss_creditSales : Q;
  ss_cardSales : Q;
  ss_totalDiscounts : Q;
  ss_transactionCount : nat
}.

Definition is_method (m : PaymentMethod) (s : Sale) : bool :=
  match m, s_payment_method s with
  | pm_cash, pm_cash | pm_credit, pm_credit | pm_card, pm_card | pm_mixed, pm_mixed => true
  | _, _ => false
  end.

(** [sales.reduce((sum, s) => sum + s.total, 0)]. *)
Definition sum_total (sales : list Sale) : Q :=
  fold_left (fun sum s => sum + s_total s)%Q sales 0%Q.

(** [getDailySalesSummary]. *)
Definition getDailySalesSummary (sales : list Sale) (dateRange : option DateRange)
    : SalesSummary :=
  let filteredSales := filter_sales sales dateRange in
  {| ss_totalSales := sum_total filteredSales;
     ss_cashSales := sum_total (List.filter (is_method pm_cash) filteredSales);
     ss_creditSales := sum_total (List.filter (is_method pm_credit) filteredSales);
     ss_cardSales := sum_total (List.filter (is_method pm_card) filteredSales);
     ss_totalDiscounts :=
       fold_left (fun sum s => sum + s_discount_amount s)%Q filteredSales 0%Q;
     ss_transactionCount := length filteredSales |}.

(** A [Map] with numeric keys, in insertion order: [get], and [set], which
    keeps the place of a key already present and puts a new key last. *)
Fixpoint map_get {V} (k : Z) (m : list (Z * V)) : option V :=
  match m with
  | [] => None
  | (k', v) :: m' => if k' =? k then Some v else map_get k m'
  end.

Fixpoint map_set {V} (k : Z) (v : V) (m : list (Z * V)) : list (Z * V) :=
  match m with
  | [] => [(k, v)]
  | (k', v') :: m' => if k' =? k then (k, v) :: m' else (k', v') :: map_set k v m'
  end.

(** [Array.from(map.values())]. *)
Definition map_values {V} (m : list (Z * V)) : list V := List.map snd m.

(** [revenue > 0 ? Math.round((profit / revenue) * 10000) / 100 : 0]. *)
Definition margin_percent (profit revenue : Q) : Q :=
  if Qlt_le_dec 0 revenue
  then (inject_Z (Math_round (profit / revenue * 10000)) / 100)%Q
  else 0%Q.

Record ProductProfitEntry := mkProductProfitEntry {
  pp_productId : Z;
  pp_productName : string;
  pp_productNameUr : option string;
  pp_quantitySold : Z;
  pp_revenue : Q;
  pp_cost : Q;
  pp_profit : Q;
  pp_profitMargin : Q
}.

(** One turn of the [forEach] of [getProductProfitReport]. *)
Definition add_product_sale (products : list Product)
    (productStats : list (Z * ProductProfitEntry)) (item : SaleItem)
    : list (Z * ProductProfitEntry) :=
  match find_product (si_product_id item) products with
  | None => productStats
  | Some product =>
      let existing :=
        match map_get (si_product_id item) productStats with
        | Some e => e
        | None => {| pp_productId := p_id product;
                     pp_productName := p_name product;
                     pp_productNameUr := p_name_ur product;
                     pp_quantitySold := 0; pp_revenue := 0; pp_cost := 0;
                     pp_profit := 0; pp_profitMargin := 0 |}
        end in
      let revenue := (inject_Z (si_quantity item) * si_unit_price item
                      - si_discount_amount item)%Q in
      let cost := (inject_Z (si_quantity item) * si_cost_price item)%Q in
      map_set (si_product_id item)
        {| pp_productId := pp_productId existing;
           pp_productName := pp_productName existing;
           pp_productNameUr := pp_productNameUr existing;
           pp_quantitySold := pp_quantitySold existing + si_quantity item;
           pp_revenue := (pp_revenue existing + revenue)%Q;
           pp_cost := (pp_cost existing + cost)%Q;
           pp_profit := (pp_profit existing + (revenue - cost))%Q;
           pp_profitMargin := pp_profitMargin existing |}
        productStats
  end.

(** [getProductProfitReport]; its date range is not used by the code. *)
Definition getProductProfitReport (products : list Product) (saleItems : list SaleItem)
    (limit : Z) : list ProductProfitEntry :=
  let productStats := fold_left (add_product_sale products) saleItems [] in
  js_slice0 limit
    (js_sortQ (fun a b => pp_profit b - pp_profit a)%Q
       (List.map (fun entry =>
                    {| pp_productId := pp_productId entry;
                       pp_productName := pp_productName entry;
                       pp_productNameUr := pp_productNameUr entry;
                       pp_quantitySold := pp_quantitySold entry;
                       pp_revenue := pp_revenue entry;
                       pp_cost := pp_cost entry;
                       pp_profit := pp_profit entry;
                       pp_profitMargin :=
                         margin_percent (pp_profit entry) (pp_revenue entry) |})
                 (map_values productStats))).

End MoreReports.
Export MoreReports.

(** ** Product repository: update *)

Module RepositoryUpdate.

Record UpdateProductInput := mkUpdateProductInput {
  upi_id : Z;
  upi_name : option string;
  upi_name_ur : option string;
  upi_sku : option string;
  upi_barcode : option string;
  upi_category_id : option Z;
  upi_supplier_id : option Z;
  upi_cost_price : option Q;
  upi_selling_price : option Q;
  upi_min_stock_level : option Z;
  upi_unit : option string;
  upi_description : option string;
  upi_is_active : option bool
}.

(** [a ?? b] for a value that may be absent, on a field that is always there
    and on a field that may be absent itself. *)
Definition coalesce {A} (a : option A) (b : A) : A :=
  match a with Some v => v | None => b end.
Definition coalesce_opt {A} (a b : option A) : option A :=
  match a with Some v => Some v | None => b end.

(** What the database raises when a statement breaks a constraint of the
    schema. *)
Inductive SqlError :=
| UniqueConstraintFailed (column : string).

(** [sku TEXT UNIQUE]: the text is held by a row of another id.  ([NULL] is
    never taken; the other constraints of the table are on columns the
    statement does not write, or cannot be broken by a value of the type of
    the input; foreign keys are not enforced by the connection, as for the
    movements of [stockIn] and [stockOut].) *)
Definition sku_taken (id : Z) (sku : option string) (rows : list Product) : bool :=
  match sku with
  | None => false
  | Some text =>
      existsb (fun r => negb (p_id r =? id) && bool_decide (p_sku r = Some text)) rows
  end.

(** [updateProduct]: the values of the [UPDATE] are those of the input, and
    those of the product found where the input has none; no row of the id
    gives [null] and no statement is run; a statement that breaks the
    constraint on [sku] throws, and the table stays as it was. *)
Definition updateProduct (now : Z) (input : UpdateProductInput) (db : Database)
    : SqlError + (Database * option Product) :=
  match getProductById (upi_id input) db with
  | None => inr (db, None)
  | Some product =>
      if sku_taken (upi_id input) (coalesce_opt (upi_sku input) (p_sku product))
                   (tbl_products db)
      then inl (UniqueConstraintFailed "products.sku")
      else
      let db' :=
        {| tbl_products :=
             List.map (fun p =>
                if p_id p =? upi_id input then
                  {| p_id := p_id p;
                     p_name := coalesce (upi_name input) (p_name product);
                     p_name_ur := coalesce_opt (upi_name_ur input) (p_name_ur product);
                     p_sku := coalesce_opt (upi_sku input) (p_sku product);
                     p_barcode := coalesce_opt (upi_barcode input) (p_barcode product);
                     p_category_id :=
                       coalesce_opt (upi_category_id input) (p_category_id product);
                     p_supplier_id :=
                       coalesce_opt (upi_supplier_id input) (p_supplier_id product);
                     p_cost_price := coalesce (upi_cost_price input) (p_cost_price product);
                     p_selling_price :=
                       coalesce (upi_selling_price input) (p_selling_price product);
                     p_quantity := p_quantity p;
                     p_min_stock_level :=
                       coalesce (upi_min_stock_level input) (p_min_stock_level product);
                     p_wac_cost := p_wac_cost p;
                     p_unit := coalesce (upi_unit input) (p_unit product);
                     p_description :=
                       coalesce_opt (upi_description input) (p_description product);
                     p_is_active := coalesce (upi_is_active input) (p_is_active product);
                     p_created_at := p_created_at p;
                     p_updated_at := now |}
                else p) (tbl_products db);
           tbl_stock_movements := tbl_stock_movements db |} in
      inr (db', getProductById (upi_id input) db')
  end.

End RepositoryUpdate.
Export RepositoryUpdate.

(** ** Further notions used in the statements *)

Module MoreNotions.


(** The operations that come with a stock movement: the receipts and the
    repository's stock out. *)
Definition is_stock_movement_op (op : Op) : bool :=
  match op with
  | OpStockIn _ _ | OpRepoStockIn _ _ | OpStockOut _ _ => true
  | _ => false
  end.

(** The signed quantities the movements of one product add up to. *)
Definition movement_total (productId : Z) (movements : list StockMovement) : Z :=
  fold_right (fun m acc => (if sm_product_id m =? productId then sm_quantity m else 0) + acc)
             0 movements.

End MoreNotions.
Export MoreNotions.

Module MoreSample.

Definition stock_in (id quantity : Z) (unitCost : Q) : StockInInput :=
  {| sii_product_id := id; sii_quantity := quantity; sii_unit_cost := unitCost;
     sii_user_id := 1; sii_notes := None |}.

Definition table (rows : list Product) : Database :=
  {| tbl_products := rows; tbl_stock_movements := [] |}.

(** A product after a soft delete. *)
Definition deactivated (p : Product) : Product :=
  {| p_id := p_id p; p_name := p_name p; p_name_ur := p_name_ur p; p_sku := p_sku p;
     p_barcode := p_barcode p; p_category_id := p_category_id p;
     p_supplier_id := p_supplier_id p; p_cost_price := p_cost_price p;
     p_selling_price := p_selling_price p; p_quantity := p_quantity p;
     p_min_stock_level := p_min_stock_level p; p_wac_cost := p_wac_cost p;
     p_unit := p_unit p; p_description := p_description p;
     p_is_active := false; p_created_at := p_created_at p;
     p_updated_at := p_updated_at p |}.

(** A product under another stock-keeping unit. *)
Definition relabel (sku : option string) (p : Product) : Product :=
  {| p_id := p_id p; p_name := p_name p; p_name_ur := p_name_ur p; p_sku := sku;
     p_barcode := p_barcode p; p_category_id := p_category_id p;
     p_supplier_id := p_supplier_id p; p_cost_price := p_cost_price p;
     p_selling_price := p_selling_price p; p_quantity := p_quantity p;
     p_min_stock_level := p_min_stock_level p; p_wac_cost := p_wac_cost p;
     p_unit := p_unit p; p_description := p_description p;
     p_is_active := p_is_active p; p_created_at := p_created_at p;
     p_updated_at := p_updated_at p |}.

(** An edit of a product that gives a new last cost and a new stock-keeping
    unit, and nothing else. *)
Definition edit (id : Z) (cost : Q) (sku : string) : UpdateProductInput :=
  {| upi_id := id; upi_name := None; upi_name_ur := None; upi_sku := Some sku;
     upi_barcode := None; upi_category_id := None; upi_supplier_id := None;
     upi_cost_price := Some cost; upi_selling_price := None;
     upi_min_stock_level := None; upi_unit := None; upi_description := None;
     upi_is_active := None |}.

End MoreSample.

(** * Properties *)

(** ** Monetary rounding *)

(** [lra] does not read a division: a division by [100] is turned into the
    product by a hundredth. *)
Ltac hundredth :=
  unfold Qdiv in *; change (/ 100) with (1 # 100) in *.

(** Nor does it read an integer taken as an amount: each one is given a name. *)
Ltac name_counts :=
  repeat match goal with
         | |- context [inject_Z ?z] =>
             let q := fresh "q" in set (q := inject_Z z) in *; clearbody q
         | H : context [inject_Z ?z] |- _ =>
             let q := fresh "q" in set (q := inject_Z z) in *; clearbody q
         end.

Ltac qlra := hundredth; name_counts; lra.

Section Rounding.

Local Open Scope Q_scope.


Lemma inject_Z_pos (z : Z) : (0 < z)%Z -> 0 < inject_Z z.
Proof. intros H. change 0 with (inject_Z 0). now rewrite <- Zlt_Qlt. Qed.

Lemma inject_Z_nonneg (z : Z) : (0 <= z)%Z -> 0 <= inject_Z z.
Proof. intros H. change 0 with (inject_Z 0). now rewrite <- Zle_Qle. Qed.

Lemma Math_round_compat (x y : Q) : x == y -> Math_round x = Math_round y.
Proof. intros E. unfold Math_round. now rewrite E. Qed.

Lemma round2_compat (x y : Q) : x == y -> round2 x == round2 y.
Proof.
  intros E. unfold round2.
  rewrite (Math_round_compat (x * 100) (y * 100)); [reflexivity | now rewrite E].
Qed.





(** The rounded amount has at most two decimals. *)
Lemma round2_is_two_decimals (x : Q) : two_decimals (round2 x).
Proof. exists (Math_round (x * 100)). reflexivity. Qed.

(** Rounding moves an amount by at most half a hundredth. *)
Lemma round2_error (x : Q) : x - (1 # 200) < round2 x <= x + (1 # 200).
Proof.
  unfold round2, Math_round.
  pose proof (Qfloor_le (x * 100 + (1 # 2))) as L.
  pose proof (Qlt_floor (x * 100 + (1 # 2))) as U.
  rewrite inject_Z_plus in U. change (inject_Z 1) with 1 in U.
  split; qlra.
Qed.

End Rounding.

(** ** Stock receipts *)

Section StockReceipts.

Local Open Scope Q_scope.

Lemma find_product_some (id : Z) (products : list Product) (p : Product) :
  find_product id products = Some p -> In p products /\ p_id p = id.
Proof.
  unfold find_product. intros H. apply List.find_some in H as [Hin Hid].
  split; [exact Hin | now apply Z.eqb_eq].
Qed.

Lemma find_product_none (id : Z) (products : list Product) :
  find_product id products = None -> forall p, In p products -> p_id p <> id.
Proof.
  unfold find_product. intros H p Hin E.
  apply (List.find_none _ _ H) in Hin. apply Z.eqb_neq in Hin. contradiction.
Qed.

(** What [performStockIn] returns when the product is found. *)
Lemma performStockIn_found now products params product :
  find_product (sip_productId params) products = Some product ->
  exists out,
    performStockIn now products params = inr out /\
    sir_success (sio_result out) = true /\
    p_quantity (sir_product (sio_result out))
      = (p_quantity product + sip_quantity params)%Z /\
    p_wac_cost (sir_product (sio_result out))
      = round2 (calculateNewWAC (p_quantity product) (p_wac_cost product)
                                (sip_quantity params) (sip_unitCost params)) /\
    p_cost_price (sir_product (sio_result out)) = sip_unitCost params /\
    p_id (sir_product (sio_result out)) = p_id product /\
    sio_updatedProducts out
      = List.map (fun p => if (p_id p =? sip_productId params)%Z
                           then sir_product (sio_result out) else p) products.
Proof.
  intros Hfind. unfold performStockIn. rewrite Hfind.
  eexists. split; [reflexivity |]. cbn. repeat split; reflexivity.
Qed.

(** With a positive total, the new cost is the weighted average. *)
Lemma calculateNewWAC_average (cq : Z) (cw : Q) (aq : Z) (uc : Q) :
  (0 < cq + aq)%Z ->
  calculateNewWAC cq cw aq uc
  = (inject_Z cq * cw + inject_Z aq * uc) / inject_Z (cq + aq).
Proof.
  intros Hpos. unfold calculateNewWAC, calculateWAC.
  destruct (Z.leb_spec (cq + aq) 0); [lia |].
  destruct (Z.eqb_spec (cq + aq) 0); [lia | reflexivity].
Qed.

(** On an empty stock the weighted average is the cost of the receipt. *)
Lemma calculateNewWAC_empty (cw : Q) (aq : Z) (uc : Q) :
  (0 < aq)%Z -> calculateNewWAC 0 cw aq uc == uc.
Proof.
  intros Hpos. rewrite calculateNewWAC_average by lia.
  rewrite Z.add_0_l. change (inject_Z 0) with 0.
  pose proof (inject_Z_pos aq Hpos).
  field. lra.
Qed.

(** A weighted average lies between the two costs it averages. *)
Lemma weighted_average_between (cq : Z) (cw : Q) (aq : Z) (uc : Q) :
  (0 <= cq)%Z -> (0 < aq)%Z ->
  Qmin cw uc <= calculateNewWAC cq cw aq uc <= Qmax cw uc.
Proof.
  intros Hcq Haq. rewrite calculateNewWAC_average by lia.
  rewrite inject_Z_plus.
  pose proof (inject_Z_nonneg cq Hcq) as Ha.
  pose proof (inject_Z_pos aq Haq) as Hb.
  pose proof (Q.le_min_l cw uc) as M1. pose proof (Q.le_min_r cw uc) as M2.
  pose proof (Q.le_max_l cw uc) as X1. pose proof (Q.le_max_r cw uc) as X2.
  generalize dependent (Qmin cw uc). generalize dependent (Qmax cw uc).
  generalize dependent (inject_Z cq). generalize dependent (inject_Z aq).
  intros b Hb a Ha hi X1 X2 lo M1 M2.
  split.
  - apply Qle_shift_div_l; [lra |]. nra.
  - apply Qle_shift_div_r; [lra |]. nra.
Qed.

End StockReceipts.

Section StockReceiptClaims.

Local Open Scope Q_scope.

(** Replacing the rows of one id by a row of that id: the replacement is what
    a later lookup of the id finds. *)
Lemma find_product_replaced (id : Z) (q : Product) (products : list Product) (p : Product) :
  find_product id products = Some p -> p_id q = id ->
  find_product id (List.map (fun x => if (p_id x =? id)%Z then q else x) products)
  = Some q.
Proof.
  unfold find_product. intros Hfind Hq.
  induction products as [| x rest IH]; [discriminate |].
  cbn in *. destruct (Z.eqb_spec (p_id x) id) as [E | NE].
  - rewrite Hq, Z.eqb_refl. reflexivity.
  - destruct (Z.eqb_spec (p_id x) id); [contradiction | now apply IH].
Qed.


Lemma replaced_present (id : Z) (q : Product) (products : list Product) (p : Product) :
  find_product id products = Some p ->
  In q (List.map (fun x => if (p_id x =? id)%Z then q else x) products).
Proof.
  intros Hfind. apply find_product_some in Hfind as [Hin Hid].
  apply List.in_map_iff. exists p. split; [| exact Hin].
  now rewrite Hid, Z.eqb_refl.
Qed.

(** The worked scenario: 10 units at 100.00, then 10 units at 120.00, on an
    empty stock. *)
Lemma performStockIn_scenario now1 now2 id products product :
  find_product id products = Some product ->
  p_quantity product = 0%Z ->
  exists out1 out2,
    performStockIn now1 products (Sample.receipt id 10 100) = inr out1 /\
    p_quantity (sir_product (sio_result out1)) = 10%Z /\
    p_wac_cost (sir_product (sio_result out1)) == 100 /\
    performStockIn now2 (sio_updatedProducts out1) (Sample.receipt id 10 120) = inr out2 /\
    p_quantity (sir_product (sio_result out2)) = 20%Z /\
    p_wac_cost (sir_product (sio_result out2)) == 110 /\
    find_product id (sio_updatedProducts out2) = Some (sir_product (sio_result out2)).
Proof.
  intros Hfind Hzero.
  pose proof (find_product_some _ _ _ Hfind) as [_ Hpid].
  destruct (performStockIn_found now1 products (Sample.receipt id 10 100) product Hfind)
    as (out1 & Hout1 & _ & Hq1 & Hw1 & _ & Hid1 & Hrows1).
  cbn [Sample.receipt sip_productId sip_quantity sip_unitCost] in *.
  assert (Hfind1 : find_product id (sio_updatedProducts out1)
                   = Some (sir_product (sio_result out1))).
  { rewrite Hrows1. eapply find_product_replaced; [exact Hfind | congruence]. }
  destruct (performStockIn_found now2 (sio_updatedProducts out1)
              (Sample.receipt id 10 120) _ Hfind1)
    as (out2 & Hout2 & _ & Hq2 & Hw2 & _ & Hid2 & Hrows2).
  cbn [Sample.receipt sip_productId sip_quantity sip_unitCost] in *.
  assert (W1 : p_wac_cost (sir_product (sio_result out1)) == 100).
  { rewrite Hw1, Hzero.
    rewrite (round2_compat _ 100) by (now apply calculateNewWAC_empty).
    reflexivity. }
  exists out1, out2. rewrite Hzero in Hq1.
  split; [exact Hout1 |]. split; [exact Hq1 |]. split; [exact W1 |].
  split; [exact Hout2 |]. split; [rewrite Hq2, Hq1; reflexivity |].
  split.
  - rewrite Hw2, Hq1, calculateNewWAC_average by lia.
    rewrite (round2_compat _ 110); [reflexivity |].
    rewrite W1. reflexivity.
  - rewrite Hrows2. eapply find_product_replaced; [exact Hfind1 | congruence].
Qed.

End StockReceiptClaims.

Section StockReceiptTheorems.

Local Open Scope Q_scope.

(** C2, on an empty stock.  The specification stores the cost of the receipt
    as it is when the stock is empty, and so does the SQL form of the receipt
    in the same service ([SQL_QUERIES.stockIn]: [WHEN quantity = 0 .. THEN
    unitCost], the rounding being on the other branch).  [performStockIn]
    rounds the new cost to two decimals in every case: one unit at 1.004
    received on an empty stock has a new cost of 1.004 and is stored at a
    cost of 1.00. *)
Theorem performStockIn_rounds_cost_on_empty_stock :
  exists out,
    performStockIn 1 [Sample.product_with 7 0 0] (Sample.receipt 7 1 (251 # 250))
      = inr out /\
    p_quantity (Sample.product_with 7 0 0) = 0%Z /\
    sir_newWAC (sio_result out) == 251 # 250 /\
    p_wac_cost (sir_product (sio_result out)) == 1 /\
    ~ p_wac_cost (sir_product (sio_result out)) == 251 # 250.
Proof.
  eexists. split; [reflexivity |]. split; [reflexivity |].
  split; [reflexivity |]. split; [reflexivity | discriminate].
Qed.

(** The average before rounding, [newWAC] of the result, is between the two
    costs whatever their decimals. *)
Lemma performStockIn_newWAC_between now products params product :
  find_product (sip_productId params) products = Some product ->
  (0 <= p_quantity product)%Z -> (0 < sip_quantity params)%Z ->
  exists out,
    performStockIn now products params = inr out /\
    Qmin (p_wac_cost product) (sip_unitCost params)
      <= sir_newWAC (sio_result out)
      <= Qmax (p_wac_cost product) (sip_unitCost params).
Proof.
  intros Hfind Hcq Haq. unfold performStockIn. rewrite Hfind.
  eexists. split; [reflexivity |]. cbn [sio_result sir_newWAC].
  now apply weighted_average_between.
Qed.






End StockReceiptTheorems.

(** ** Failures of a stock receipt *)

Section StockReceiptFailures.

(** C8, as the code has it.  [performStockIn] fails in one case only, with
    ProductNotFound when no product has the given id, and the store is then
    left as it was; on an existing product it succeeds whatever the added
    quantity and the unit cost are, zero and negative values included, and
    stores the new quantity and the cost and returns a movement for them. *)
Theorem performStockIn_fails_only_when_missing now products params :
  (find_product (sip_productId params) products = None <->
   performStockIn now products params = inl (ProductNotFound (sip_productId params))) /\
  (forall e, performStockIn now products params = inl e ->
     e = ProductNotFound (sip_productId params) /\
     forall s, st_products s = products -> apply_op (OpStockIn now params) s = s) /\
  (forall product, find_product (sip_productId params) products = Some product ->
     exists out,
       performStockIn now products params = inr out /\
       sir_success (sio_result out) = true /\
       p_quantity (sir_product (sio_result out))
         = p_quantity product + sip_quantity params /\
       p_cost_price (sir_product (sio_result out)) = sip_unitCost params /\
       sm_quantity (sir_stockMovement (sio_result out)) = sip_quantity params /\
       In (sir_product (sio_result out)) (sio_updatedProducts out)).
Proof.
  split; [| split].
  - unfold performStockIn.
    destruct (find_product (sip_productId params) products); split; congruence.
  - intros e He. split.
    + unfold performStockIn in He.
      destruct (find_product (sip_productId params) products); congruence.
    + intros s <-. cbn [apply_op]. now rewrite He.
  - intros product Hfind.
    destruct (performStockIn_found now products params product Hfind)
      as (out & Hout & Hs & Hq & _ & Hc & _ & Hrows).
    exists out. repeat split; try assumption.
    + unfold performStockIn in Hout. rewrite Hfind in Hout.
      injection Hout as <-. reflexivity.
    + rewrite Hrows. eapply replaced_present; eassumption.
Qed.

Lemma performStockIn_fails_only_when_missing_witness :
  performStockIn 1 [Sample.product_with 7 5 30] (Sample.receipt 8 10 100)
  = inl (ProductNotFound 8).
Proof.
  apply (proj1 (performStockIn_fails_only_when_missing 1 [Sample.product_with 7 5 30]
                  (Sample.receipt 8 10 100))).
  reflexivity.
Defined.

(** The rule as the specification words it fails: a receipt of -1 unit at a
    cost of -5 on an existing product is accepted; the stock goes from 5 to 4
    and the last cost becomes -5. *)
Lemma performStockIn_accepts_invalid_counterexample :
  exists out,
    performStockIn 1 [Sample.product_with 7 5 30] (Sample.receipt 7 (-1) (-5)) = inr out /\
    sip_quantity (Sample.receipt 7 (-1) (-5)) <= 0 /\
    (sip_unitCost (Sample.receipt 7 (-1) (-5)) < 0)%Q /\
    sir_success (sio_result out) = true /\
    List.map p_quantity (sio_updatedProducts out) = [4] /\
    List.map p_cost_price (sio_updatedProducts out) = [(-5)%Q] /\
    sm_quantity (sir_stockMovement (sio_result out)) = -1.
Proof.
  eexists. split; [reflexivity |]. repeat split; discriminate || reflexivity.
Qed.

End StockReceiptFailures.

(** ** Stock is never negative *)

Section StockNonNegative.

Lemma with_reduced_quantity_nonneg now sold p :
  0 <= p_quantity (with_reduced_quantity now sold p).
Proof. cbn. unfold Math_max. lia. Qed.

Lemma update_quantities_nonneg now items products :
  stock_nonneg products -> stock_nonneg (update_quantities now items products).
Proof.
  unfold stock_nonneg, update_quantities. intros H.
  apply List.Forall_map. eapply List.Forall_impl; [| exact H].
  intros p Hp. destruct (find_sold_item items p); [| exact Hp].
  apply with_reduced_quantity_nonneg.
Qed.

Lemma reduceStock_nonneg now products productId quantity :
  stock_nonneg products -> stock_nonneg (reduceStock now products productId quantity).
Proof.
  unfold stock_nonneg, reduceStock. intros H.
  apply List.Forall_map. eapply List.Forall_impl; [| exact H].
  intros p Hp. destruct (negb (p_id p =? productId)); [exact Hp |].
  apply with_reduced_quantity_nonneg.
Qed.

Lemma stock_nonneg_found id products p :
  stock_nonneg products -> find_product id products = Some p -> 0 <= p_quantity p.
Proof.
  intros H Hfind. apply find_product_some in Hfind as [Hin _].
  unfold stock_nonneg in H. rewrite List.Forall_forall in H. now apply H.
Qed.

Lemma performStockIn_nonneg now products params out :
  0 <= sip_quantity params -> stock_nonneg products ->
  performStockIn now products params = inr out ->
  stock_nonneg (sio_updatedProducts out).
Proof.
  intros Hq H Hout. unfold performStockIn in Hout.
  destruct (find_product (sip_productId params) products) as [product |] eqn:Hfind;
    [| discriminate].
  injection Hout as <-. cbn [sio_updatedProducts].
  pose proof (stock_nonneg_found _ _ _ H Hfind) as Hp.
  unfold stock_nonneg in *. apply List.Forall_map.
  eapply List.Forall_impl; [| exact H].
  intros p Hpq. cbn beta. destruct (p_id p =? sip_productId params); [| exact Hpq].
  cbn. lia.
Qed.

Lemma stockIn_nonneg now input db db' r :
  0 <= sii_quantity input -> stock_nonneg (tbl_products db) ->
  stockIn now input db = inr (db', r) ->
  stock_nonneg (tbl_products db').
Proof.
  intros Hq H Hout. unfold stockIn, getProductById in Hout.
  destruct (find_product (sii_product_id input) (tbl_products db))
    as [product |] eqn:Hfind; [| discriminate].
  injection Hout as <- _. cbn [tbl_products].
  pose proof (stock_nonneg_found _ _ _ H Hfind) as Hp.
  unfold stock_nonneg, update_stock_in in *. apply List.Forall_map.
  eapply List.Forall_impl; [| exact H].
  intros p Hpq. cbn beta. destruct (p_id p =? sii_product_id input); [| exact Hpq].
  cbn. lia.
Qed.

Lemma stockOut_nonneg now input db db' r :
  stock_nonneg (tbl_products db) ->
  stockOut now input db = inr (db', r) ->
  stock_nonneg (tbl_products db').
Proof.
  intros H Hout. unfold stockOut, getProductById in Hout.
  destruct (find_product (soi_product_id input) (tbl_products db))
    as [product |] eqn:Hfind; [| discriminate].
  destruct (Z.ltb_spec (p_quantity product) (soi_quantity input)) as [| Hle];
    [discriminate |].
  injection Hout as <- _. cbn [tbl_products].
  unfold stock_nonneg, update_quantity in *. apply List.Forall_map.
  eapply List.Forall_impl; [| exact H].
  intros p Hpq. cbn beta. destruct (p_id p =? soi_product_id input); [| exact Hpq].
  cbn. lia.
Qed.

(** One operation keeps every stock at zero or more. *)
Lemma apply_op_stock_nonneg op s :
  receipt_nonneg op -> stock_nonneg (st_products s) ->
  stock_nonneg (st_products (apply_op op s)).
Proof.
  intros Hop H. destruct op; cbn [apply_op receipt_nonneg] in *.
  - destruct (performStockIn now (st_products s) params) as [e | out] eqn:E;
      [exact H |].
    cbn [st_products]. eapply performStockIn_nonneg; eassumption.
  - destruct (stockIn now input (database_of s)) as [e | [db r]] eqn:E; [exact H |].
    cbn [with_database st_products].
    exact (stockIn_nonneg now input (database_of s) db r Hop H E).
  - cbn [st_products createCashSale cso_updatedProducts].
    now apply update_quantities_nonneg.
  - destruct (createKhataSale now invoiceNumber params (st_products s)
                (st_customers s) (st_ledger s)) as [e | out] eqn:E; [exact H |].
    cbn [st_products]. unfold createKhataSale in E.
    destruct (find_customer (kp_customerId params) (st_customers s)); [| discriminate].
    injection E as <-. cbn [kso_updatedProducts].
    now apply update_quantities_nonneg.
  - destruct (recordKhataPayment now customerId amount userId (st_customers s)
                (st_ledger s) description); exact H.
  - cbn [st_products]. now apply reduceStock_nonneg.
  - destruct (stockOut now input (database_of s)) as [e | [db r]] eqn:E; [exact H |].
    cbn [with_database st_products].
    exact (stockOut_nonneg now input (database_of s) db r H E).
Qed.

(** C4, as the code has it.  Over any sequence of operations (stock receipts
    that add a quantity of zero or more, cash sales, credit sales, payments,
    stock reductions and stock outs), if every product has a quantity of zero
    or more before, every product has a quantity of zero or more after; and so
    it is after each single operation. *)
Theorem stock_never_negative ops s :
  Forall receipt_nonneg ops ->
  stock_nonneg (st_products s) ->
  stock_nonneg (st_products (run ops s)).
Proof.
  unfold run. revert s. induction ops as [| op ops IH]; intros s Hops H.
  - exact H.
  - cbn [fold_left]. apply IH.
    + now apply Forall_inv_tail in Hops.
    + apply apply_op_stock_nonneg; [now apply Forall_inv in Hops | exact H].
Qed.

End StockNonNegative.

Section StockNonNegativeExamples.

Lemma stock_never_negative_witness :
  stock_nonneg (st_products (run Sample.busy_day (Sample.shop 0 0))).
Proof.
  apply stock_never_negative.
  - repeat constructor; simpl; lia.
  - repeat constructor; simpl; lia.
Defined.

(** The rule as the specification words it fails for a receipt of a negative
    quantity, which [performStockIn] accepts: a stock of 5 with a receipt of
    -10 becomes -5. *)
Lemma negative_receipt_counterexample :
  stock_nonneg (st_products (Sample.shop 5 0)) /\
  List.map p_quantity
    (st_products (apply_op (OpStockIn 1 (Sample.receipt 7 (-10) 100)) (Sample.shop 5 0)))
  = [-5].
Proof.
  split; [repeat constructor; simpl; lia | reflexivity].
Qed.

End StockNonNegativeExamples.

(** ** Cash sales and stock *)

Section CashSales.

Lemma lookup_map {A B} (f : A -> B) (l : list A) (i : nat) :
  List.map f l !! i = f <$> (l !! i).
Proof. apply list_lookup_fmap. Qed.

Lemma with_reduced_quantity_same now sold p :
  same_but_stock p (with_reduced_quantity now sold p).
Proof. unfold same_but_stock. cbn. repeat split. Qed.

(** What the quantity update of a sale does to the product at one position. *)
Lemma update_quantities_lookup now items products i p :
  products !! i = Some p ->
  match find_sold_item items p with
  | None => update_quantities now items products !! i = Some p
  | Some soldItem =>
      exists p', update_quantities now items products !! i = Some p' /\
        same_but_stock p p' /\
        p_updated_at p' = now /\
        p_quantity p' = Z.max 0 (p_quantity p - ci_quantity soldItem) /\
        (p_quantity p < ci_quantity soldItem -> p_quantity p' = 0) /\
        (ci_quantity soldItem <= p_quantity p ->
           p_quantity p' = p_quantity p - ci_quantity soldItem)
  end.
Proof.
  intros Hp. unfold update_quantities. rewrite lookup_map, Hp. cbn [fmap option_fmap option_map].
  destruct (find_sold_item items p) as [soldItem |]; [| reflexivity].
  eexists. split; [reflexivity |].
  split; [apply with_reduced_quantity_same |].
  cbn. unfold Math_max. repeat split; lia.
Qed.

Lemma stockOut_insufficient now input db product :
  getProductById (soi_product_id input) db = Some product ->
  p_quantity product < soi_quantity input ->
  stockOut now input db = inl InsufficientStock.
Proof.
  intros Hfind Hlt. unfold stockOut. rewrite Hfind.
  destruct (Z.ltb_spec (p_quantity product) (soi_quantity input)); [reflexivity | lia].
Qed.

Lemma stockOut_sufficient now input db product :
  getProductById (soi_product_id input) db = Some product ->
  soi_quantity input <= p_quantity product ->
  exists db' r,
    stockOut now input db = inr (db', r) /\
    length (tbl_products db') = length (tbl_products db) /\
    (forall p, In p (tbl_products db') -> p_id p = soi_product_id input ->
               p_quantity p = p_quantity product - soi_quantity input) /\
    (exists m, tbl_stock_movements db' = tbl_stock_movements db ++ [m] /\
               sm_quantity m = - soi_quantity input).
Proof.
  intros Hfind Hle. unfold stockOut. rewrite Hfind.
  destruct (Z.ltb_spec (p_quantity product) (soi_quantity input)); [lia |].
  eexists _, _. split; [reflexivity |]. cbn [tbl_products tbl_stock_movements].
  split; [unfold update_quantity; apply List.length_map |].
  split.
  - intros p Hin Hid. unfold update_quantity in Hin.
    apply List.in_map_iff in Hin as [x [Hx _]].
    destruct (Z.eqb_spec (p_id x) (soi_product_id input)); subst p; [reflexivity | contradiction].
  - eexists. split; reflexivity.
Qed.

(** C1, as the code has it.  [createCashSale] has no failing path: it
    succeeds for every line set.  A product that a line refers to keeps all
    its fields but [quantity] and [updated_at]; its quantity becomes
    max(0, quantity - line quantity), that is 0 when the line asks for more
    than the stock and quantity - line quantity when it asks for at most the
    stock; a product no line refers to is left as it is.  The
    insufficient-stock failure is that of [stockOut]: it fails with
    InsufficientStock when the requested quantity exceeds the stock, the
    database being rolled back, and succeeds otherwise. *)
Theorem createCashSale_never_fails_and_clamps :
  (forall now invoiceNumber params products,
     sr_success (cso_sale (createCashSale now invoiceNumber params products)) = true /\
     length (cso_updatedProducts (createCashSale now invoiceNumber params products))
       = length products /\
     forall i p, products !! i = Some p ->
       match find_sold_item (sp_items params) p with
       | None =>
           cso_updatedProducts (createCashSale now invoiceNumber params products) !! i
           = Some p
       | Some soldItem =>
           exists p',
             cso_updatedProducts (createCashSale now invoiceNumber params products) !! i
               = Some p' /\
             same_but_stock p p' /\
             p_updated_at p' = now /\
             p_quantity p' = Z.max 0 (p_quantity p - ci_quantity soldItem) /\
             (p_quantity p < ci_quantity soldItem -> p_quantity p' = 0) /\
             (ci_quantity soldItem <= p_quantity p ->
                p_quantity p' = p_quantity p - ci_quantity soldItem)
       end) /\
  (forall now input db product,
     getProductById (soi_product_id input) db = Some product ->
     (p_quantity product < soi_quantity input ->
        stockOut now input db = inl InsufficientStock /\
        apply_op (OpStockOut now input)
                 {| st_products := tbl_products db; st_customers := [];
                    st_ledger := []; st_movements := tbl_stock_movements db |}
        = {| st_products := tbl_products db; st_customers := [];
             st_ledger := []; st_movements := tbl_stock_movements db |}) /\
     (soi_quantity input <= p_quantity product ->
        exists db' r,
          stockOut now input db = inr (db', r) /\
          length (tbl_products db') = length (tbl_products db) /\
          (forall p, In p (tbl_products db') -> p_id p = soi_product_id input ->
                     p_quantity p = p_quantity product - soi_quantity input) /\
          (exists m, tbl_stock_movements db' = tbl_stock_movements db ++ [m] /\
                     sm_quantity m = - soi_quantity input))).
Proof.
  split.
  - intros now invoiceNumber params products.
    cbn [createCashSale cso_sale cso_updatedProducts sr_success].
    split; [reflexivity |].
    split; [unfold update_quantities; apply List.length_map |].
    intros i p Hp. now apply update_quantities_lookup.
  - intros now input db product Hfind. split.
    + intros Hlt. pose proof (stockOut_insufficient now input db product Hfind Hlt) as E.
      split; [exact E |].
      cbn [apply_op]. destruct db as [rows moves]. unfold database_of.
      cbn [st_products st_movements tbl_products tbl_stock_movements].
      now rewrite E.
    + now apply stockOut_sufficient.
Qed.

Lemma createCashSale_never_fails_and_clamps_witness :
  stockOut 1 (Sample.stock_out 7 6)
           {| tbl_products := [Sample.product_with 7 5 30]; tbl_stock_movements := [] |}
  = inl InsufficientStock.
Proof.
  apply (proj2 createCashSale_never_fails_and_clamps 1 (Sample.stock_out 7 6)
           {| tbl_products := [Sample.product_with 7 5 30]; tbl_stock_movements := [] |}
           (Sample.product_with 7 5 30)).
  - reflexivity.
  - simpl; lia.
Defined.

(** The rule as the specification words it fails: a cash sale of 6 units of a
    product that has 5 succeeds, and the product is left with a quantity of 0
    instead of 5. *)
Lemma createCashSale_oversell_counterexample :
  p_quantity (Sample.product_with 7 5 30) = 5 /\
  ci_quantity (Sample.line (Sample.product_with 7 5 30) 6 50) = 6 /\
  sr_success (cso_sale (createCashSale 1 "INV-20240101-0001"
      (Sample.cash_sale [Sample.line (Sample.product_with 7 5 30) 6 50])
      [Sample.product_with 7 5 30])) = true /\
  List.map p_quantity (cso_updatedProducts (createCashSale 1 "INV-20240101-0001"
      (Sample.cash_sale [Sample.line (Sample.product_with 7 5 30) 6 50])
      [Sample.product_with 7 5 30])) = [0] /\
  List.map si_quantity (sr_saleItems (cso_sale (createCashSale 1 "INV-20240101-0001"
      (Sample.cash_sale [Sample.line (Sample.product_with 7 5 30) 6 50])
      [Sample.product_with 7 5 30]))) = [6].
Proof. repeat split. Qed.

End CashSales.

(** ** Credit sales and payments *)

Section CreditLedger.

Local Open Scope Q_scope.

Lemma find_customer_some (id : Z) (customers : list Customer) (c : Customer) :
  find_customer id customers = Some c -> In c customers /\ c_id c = id.
Proof.
  unfold find_customer. intros H. apply List.find_some in H as [Hin Hid].
  split; [exact Hin | now apply Z.eqb_eq].
Qed.

(** The customers of a balance update, one by one. *)
Lemma set_balance_in now id b customers c' :
  In c' (set_balance now id b customers) ->
  (c_id c' = id /\ c_credit_balance c' = b) \/ (c_id c' <> id /\ In c' customers).
Proof.
  unfold set_balance. intros Hin. apply List.in_map_iff in Hin as [c [Hc Hin]].
  destruct (Z.eqb_spec (c_id c) id) as [E | NE]; cbn [negb] in Hc; subst c'.
  - left. split; [exact E | reflexivity].
  - right. split; assumption.
Qed.

Lemma set_balance_lookup now id b customers i c :
  customers !! i = Some c ->
  (c_id c <> id -> set_balance now id b customers !! i = Some c) /\
  (c_id c = id ->
     exists c', set_balance now id b customers !! i = Some c' /\
       same_but_balance c c' /\ c_credit_balance c' = b /\ c_updated_at c' = now).
Proof.
  intros Hc. unfold set_balance. rewrite lookup_map, Hc. cbn [fmap option_fmap option_map].
  destruct (Z.eqb_spec (c_id c) id) as [E | NE]; cbn [negb]; split; intros H;
    try contradiction; try reflexivity.
  eexists. split; [reflexivity |]. unfold same_but_balance. cbn. repeat split.
Qed.

Lemma set_balance_length now id b customers :
  length (set_balance now id b customers) = length customers.
Proof. unfold set_balance. apply List.length_map. Qed.

(** What [createKhataSale] returns when the customer is found. *)
Lemma createKhataSale_found now invoiceNumber params products customers ledger customer :
  find_customer (kp_customerId params) customers = Some customer ->
  exists out,
    createKhataSale now invoiceNumber params products customers ledger = inr out /\
    sr_success (kso_sale out) = true /\
    sr_ledgerEntry (kso_sale out) = Some (kso_newLedgerEntry out) /\
    s_total (sr_sale (kso_sale out))
      = t_netAmount (calculateSaleTotals (kp_items params) (kp_discount params)) /\
    s_payment_method (sr_sale (kso_sale out)) = pm_credit /\
    le_type (kso_newLedgerEntry out) = lt_credit /\
    le_customer_id (kso_newLedgerEntry out) = kp_customerId params /\
    le_amount (kso_newLedgerEntry out) = s_total (sr_sale (kso_sale out)) /\
    le_balance (kso_newLedgerEntry out)
      = c_credit_balance customer + s_total (sr_sale (kso_sale out)) /\
    le_reference_id (kso_newLedgerEntry out) = Some (s_id (sr_sale (kso_sale out))) /\
    kso_updatedCustomers out
      = set_balance now (kp_customerId params) (le_balance (kso_newLedgerEntry out))
                    customers /\
    kso_updatedProducts out = update_quantities now (kp_items params) products.
Proof.
  intros Hfind. unfold createKhataSale. rewrite Hfind.
  eexists. split; [reflexivity |]. cbn. repeat split; reflexivity.
Qed.

(** What [recordKhataPayment] returns when the customer is found. *)
Lemma recordKhataPayment_found now customerId amount userId customers ledger
    description customer :
  find_customer customerId customers = Some customer ->
  exists out,
    recordKhataPayment now customerId amount userId customers ledger description
      = inr out /\
    le_type (po_newLedgerEntry out) = lt_debit /\
    le_customer_id (po_newLedgerEntry out) = customerId /\
    le_amount (po_newLedgerEntry out) = amount /\
    le_balance (po_newLedgerEntry out) = c_credit_balance customer - amount /\
    po_updatedCustomers out
      = set_balance now customerId (le_balance (po_newLedgerEntry out)) customers.
Proof.
  intros Hfind. unfold recordKhataPayment. rewrite Hfind.
  eexists. split; [reflexivity |]. cbn. repeat split; reflexivity.
Qed.

(** The total of a sale of one line without discounts. *)
Lemma single_line_total (p : Product) (quantity : Z) (unitPrice : Q) :
  t_netAmount (calculateSaleTotals [Sample.line p quantity unitPrice] 0)
  == inject_Z quantity * unitPrice.
Proof. cbn. ring. Qed.

(** What a credit sale does to the ledger.  On an existing customer it
    appends exactly one ledger entry; the type tag of the entry is 'credit',
    its amount is the sale total, and its balance is the customer's credit
    balance before the sale plus the total; every customer of that id gets
    that same value as credit balance.  From a balance of 0, one line of 2
    units at 50 with no discount gives a total of 100, an entry of amount 100
    and balance 100, and a credit balance of 100. *)
Lemma createKhataSale_appends_one_entry :
  (forall now invoiceNumber params s customer,
     find_customer (kp_customerId params) (st_customers s) = Some customer ->
     exists out,
       createKhataSale now invoiceNumber params (st_products s) (st_customers s)
                       (st_ledger s) = inr out /\
       st_ledger (apply_op (OpKhataSale now invoiceNumber params) s)
         = st_ledger s ++ [kso_newLedgerEntry out] /\
       st_customers (apply_op (OpKhataSale now invoiceNumber params) s)
         = kso_updatedCustomers out /\
       le_type (kso_newLedgerEntry out) = lt_credit /\
       le_customer_id (kso_newLedgerEntry out) = kp_customerId params /\
       le_amount (kso_newLedgerEntry out) = s_total (sr_sale (kso_sale out)) /\
       le_balance (kso_newLedgerEntry out)
         = c_credit_balance customer + s_total (sr_sale (kso_sale out)) /\
       length (kso_updatedCustomers out) = length (st_customers s) /\
       (forall i c, st_customers s !! i = Some c -> c_id c = kp_customerId params ->
          exists c', kso_updatedCustomers out !! i = Some c' /\
            same_but_balance c c' /\
            c_credit_balance c' = le_balance (kso_newLedgerEntry out))) /\
  (forall now invoiceNumber customerId p s customer,
     find_customer customerId (st_customers s) = Some customer ->
     c_credit_balance customer == 0 ->
     exists out,
       createKhataSale now invoiceNumber
         (Sample.khata_sale customerId [Sample.line p 2 50])
         (st_products s) (st_customers s) (st_ledger s) = inr out /\
       s_total (sr_sale (kso_sale out)) == 100 /\
       le_amount (kso_newLedgerEntry out) == 100 /\
       le_balance (kso_newLedgerEntry out) == 100 /\
       (forall c, In c (kso_updatedCustomers out) -> c_id c = customerId ->
          c_credit_balance c == 100)).
Proof.
  split.
  - intros now invoiceNumber params s customer Hfind.
    destruct (createKhataSale_found now invoiceNumber params (st_products s)
                (st_customers s) (st_ledger s) customer Hfind)
      as (out & Hout & _ & _ & _ & _ & Hty & Hcid & Ham & Hbal & _ & Hcust & _).
    exists out. split; [exact Hout |].
    cbn [apply_op]. rewrite Hout. cbn [st_ledger st_customers].
    repeat (split; [first [reflexivity | assumption] |]).
    split; [rewrite Hcust; apply set_balance_length |].
    intros i c Hi Hc. rewrite Hcust.
    destruct (proj2 (set_balance_lookup now (kp_customerId params)
                       (le_balance (kso_newLedgerEntry out)) _ i c Hi) Hc)
      as (c' & Hc' & Hsame & Hb & _).
    exists c'. split; [exact Hc' | split; [exact Hsame | exact Hb]].
  - intros now invoiceNumber customerId p s customer Hfind Hzero.
    destruct (createKhataSale_found now invoiceNumber
                (Sample.khata_sale customerId [Sample.line p 2 50])
                (st_products s) (st_customers s) (st_ledger s) customer Hfind)
      as (out & Hout & _ & _ & Htot & _ & _ & _ & Ham & Hbal & _ & Hcust & _).
    cbn [Sample.khata_sale kp_customerId kp_items kp_discount] in *.
    assert (T : s_total (sr_sale (kso_sale out)) == 100).
    { rewrite Htot, single_line_total. reflexivity. }
    assert (B : le_balance (kso_newLedgerEntry out) == 100).
    { rewrite Hbal, T, Hzero. reflexivity. }
    exists out. split; [exact Hout |]. split; [exact T |].
    split; [rewrite Ham; exact T |]. split; [exact B |].
    intros c Hin Hc. rewrite Hcust in Hin.
    apply set_balance_in in Hin as [[_ E] | [NE _]]; [| contradiction].
    rewrite E. exact B.
Qed.

Lemma createKhataSale_appends_one_entry_witness :
  exists out,
    createKhataSale 1 "INV-20240101-0001"
      (Sample.khata_sale 3 [Sample.line (Sample.product_with 7 5 30) 2 50])
      (st_products (Sample.shop 5 0)) (st_customers (Sample.shop 5 0))
      (st_ledger (Sample.shop 5 0)) = inr out /\
    s_total (sr_sale (kso_sale out)) == 100 /\
    le_balance (kso_newLedgerEntry out) == 100.
Proof.
  destruct (proj2 createKhataSale_appends_one_entry 1%Z "INV-20240101-0001"%string 3%Z
              (Sample.product_with 7 5 30) (Sample.shop 5 0) (Sample.customer_with 3 0))
    as (out & Hout & T & _ & B & _).
  - reflexivity.
  - reflexivity.
  - exists out. repeat split; assumption.
Defined.


End CreditLedger.

(** ** The balance invariant *)

Section BalanceInvariant.

Local Open Scope Q_scope.

Lemma latest_balance_appended (e : LedgerEntry) (ledger : list LedgerEntry) :
  latest_balance (le_customer_id e) (ledger ++ [e]) = le_balance e.
Proof.
  unfold latest_balance. rewrite List.filter_app. cbn [List.filter].
  rewrite Z.eqb_refl, last_snoc. reflexivity.
Qed.

Lemma latest_balance_other (id : Z) (e : LedgerEntry) (ledger : list LedgerEntry) :
  le_customer_id e <> id ->
  latest_balance id (ledger ++ [e]) = latest_balance id ledger.
Proof.
  intros NE. unfold latest_balance. rewrite List.filter_app. cbn [List.filter].
  destruct (Z.eqb_spec (le_customer_id e) id); [contradiction |].
  now rewrite List.app_nil_r.
Qed.

(** Appending an entry of a customer together with setting the balance of
    that customer to the balance of the entry keeps the invariant. *)
Lemma balance_update_consistent now (e : LedgerEntry) s products movements :
  ledger_consistent s ->
  ledger_consistent
    {| st_products := products;
       st_customers := set_balance now (le_customer_id e) (le_balance e) (st_customers s);
       st_ledger := st_ledger s ++ [e];
       st_movements := movements |}.
Proof.
  intros Inv c Hin. cbn [st_customers st_ledger] in *.
  apply set_balance_in in Hin as [[Hid Hb] | [NE Hin]].
  - rewrite Hid, latest_balance_appended, Hb. reflexivity.
  - rewrite latest_balance_other by congruence. now apply Inv.
Qed.

(** An operation that leaves customers and ledger alone keeps the invariant. *)
Lemma untouched_consistent s s' :
  st_customers s' = st_customers s -> st_ledger s' = st_ledger s ->
  ledger_consistent s -> ledger_consistent s'.
Proof.
  intros Ec El Inv c Hin. rewrite Ec in Hin. rewrite El. now apply Inv.
Qed.

Lemma apply_op_consistent op s :
  ledger_consistent s -> ledger_consistent (apply_op op s).
Proof.
  intros Inv. destruct op; cbn [apply_op].
  - destruct (performStockIn now (st_products s) params); [exact Inv |].
    now apply (untouched_consistent s).
  - destruct (stockIn now input (database_of s)) as [e | [db r]]; [exact Inv |].
    now apply (untouched_consistent s).
  - now apply (untouched_consistent s).
  - destruct (find_customer (kp_customerId params) (st_customers s))
      as [customer |] eqn:Hfind.
    + destruct (createKhataSale_found now invoiceNumber params (st_products s)
                  (st_customers s) (st_ledger s) customer Hfind)
        as (out & Hout & _ & _ & _ & _ & _ & Hcid & _ & _ & _ & Hcust & _).
      rewrite Hout, Hcust, <- Hcid. now apply balance_update_consistent.
    + unfold createKhataSale. rewrite Hfind. exact Inv.
  - destruct (find_customer customerId (st_customers s)) as [customer |] eqn:Hfind.
    + destruct (recordKhataPayment_found now customerId amount userId (st_customers s)
                  (st_ledger s) description customer Hfind)
        as (out & Hout & _ & Hcid & _ & _ & Hcust).
      rewrite Hout, Hcust. rewrite <- Hcid at 1. now apply balance_update_consistent.
    + unfold recordKhataPayment. rewrite Hfind. exact Inv.
  - now apply (untouched_consistent s).
  - destruct (stockOut now input (database_of s)) as [e | [db r]]; [exact Inv |].
    now apply (untouched_consistent s).
Qed.

(** After a credit sale or a payment that goes through, the customers of its
    id have the balance of the entry just appended, whatever the store was. *)
Lemma touched_customer_consistent op s id :
  match op with
  | OpKhataSale _ _ params => kp_customerId params = id
  | OpPayment _ customerId _ _ _ => customerId = id
  | _ => False
  end ->
  (exists c, In c (st_customers s) /\ c_id c = id) ->
  forall c, In c (st_customers (apply_op op s)) -> c_id c = id ->
    c_credit_balance c == latest_balance id (st_ledger (apply_op op s)).
Proof.
  intros Hop [c0 [Hin0 Hid0]] c Hin Hc.
  assert (Hsome : exists customer, find_customer id (st_customers s) = Some customer).
  { unfold find_customer.
    destruct (List.find (fun c => (c_id c =? id)%Z) (st_customers s)) eqn:E; [eauto |].
    apply (List.find_none _ _ E) in Hin0. apply Z.eqb_neq in Hin0. contradiction. }
  destruct Hsome as [customer Hfind].
  destruct op; try contradiction; subst id; cbn [apply_op] in *.
  - destruct (createKhataSale_found now invoiceNumber params (st_products s)
                (st_customers s) (st_ledger s) customer Hfind)
      as (out & Hout & _ & _ & _ & _ & _ & Hcid & _ & _ & _ & Hcust & _).
    rewrite Hout in *. cbn [st_customers st_ledger] in *.
    rewrite Hcust in Hin. apply set_balance_in in Hin as [[_ Hb] | [NE _]];
      [| contradiction].
    rewrite <- Hcid, latest_balance_appended, Hb. reflexivity.
  - destruct (recordKhataPayment_found now customerId amount userId (st_customers s)
                (st_ledger s) description customer Hfind)
      as (out & Hout & _ & Hcid & _ & _ & Hcust).
    rewrite Hout in *. cbn [st_customers st_ledger] in *.
    rewrite Hcust in Hin. apply set_balance_in in Hin as [[_ Hb] | [NE _]];
      [| contradiction].
    rewrite <- Hcid, latest_balance_appended, Hb. reflexivity.
Qed.

(** C5.  Over any sequence of credit sales and payments (and of the stock
    operations as well), from a store in which every customer's credit balance
    is the balance of that customer's latest ledger entry, or 0 without one,
    the same holds of every customer afterwards. *)
Theorem credit_balance_is_latest_running_balance ops s :
  ledger_consistent s -> ledger_consistent (run ops s).
Proof.
  unfold run. revert s. induction ops as [| op ops IH]; intros s Inv.
  - exact Inv.
  - cbn [fold_left]. apply IH. now apply apply_op_consistent.
Qed.

Lemma credit_balance_is_latest_running_balance_witness :
  ledger_consistent (Sample.shop 0 0) /\
  ledger_consistent (run Sample.busy_day (Sample.shop 0 0)).
Proof.
  assert (H : ledger_consistent (Sample.shop 0 0)).
  { intros c [<- | []]. reflexivity. }
  split; [exact H |].
  exact (credit_balance_is_latest_running_balance Sample.busy_day (Sample.shop 0 0) H).
Defined.

(** The day of operations of the sample, worked out: the customer owes 60,
    the balance of the entry of the payment. *)
Example busy_day_balances :
  List.map c_credit_balance (st_customers (run Sample.busy_day (Sample.shop 0 0)))
    = [100 + 0 - 40] /\
  List.map le_type (st_ledger (run Sample.busy_day (Sample.shop 0 0)))
    = [lt_credit; lt_debit] /\
  List.map p_quantity (st_products (run Sample.busy_day (Sample.shop 0 0))) = [1%Z].
Proof. vm_compute. repeat split. Qed.

End BalanceInvariant.

(** ** What a credit sale and a payment leave alone *)

Section Frame.

Lemma find_sold_item_none items p :
  (forall item, In item items -> p_id (ci_product item) <> p_id p) ->
  find_sold_item items p = None.
Proof.
  intros H. unfold find_sold_item.
  destruct (List.find (fun item => p_id (ci_product item) =? p_id p) items)
    as [item |] eqn:E; [| reflexivity].
  apply List.find_some in E as [Hin Hid]. apply Z.eqb_eq in Hid.
  now apply H in Hin.
Qed.

(** C10.  A credit sale returns every product whose id matches no cart line,
    and every customer other than the one of the sale, as it was given, at
    its place in the array; a payment returns every customer other than the
    paying one as it was given. *)
Theorem khata_operations_frame :
  (forall now invoiceNumber params products customers ledger out,
     createKhataSale now invoiceNumber params products customers ledger = inr out ->
     length (kso_updatedProducts out) = length products /\
     length (kso_updatedCustomers out) = length customers /\
     (forall i p, products !! i = Some p ->
        (forall item, In item (kp_items params) -> p_id (ci_product item) <> p_id p) ->
        kso_updatedProducts out !! i = Some p) /\
     (forall i c, customers !! i = Some c -> c_id c <> kp_customerId params ->
        kso_updatedCustomers out !! i = Some c)) /\
  (forall now customerId amount userId customers ledger description out,
     recordKhataPayment now customerId amount userId customers ledger description
       = inr out ->
     length (po_updatedCustomers out) = length customers /\
     (forall i c, customers !! i = Some c -> c_id c <> customerId ->
        po_updatedCustomers out !! i = Some c)).
Proof.
  split.
  - intros now invoiceNumber params products customers ledger out Hout.
    unfold createKhataSale in Hout.
    destruct (find_customer (kp_customerId params) customers) as [customer |];
      [| discriminate].
    injection Hout as <-. cbn [kso_updatedProducts kso_updatedCustomers].
    split; [unfold update_quantities; apply List.length_map |].
    split; [apply set_balance_length |].
    split.
    + intros i p Hi Hno.
      pose proof (update_quantities_lookup now (kp_items params) products i p Hi) as H.
      now rewrite (find_sold_item_none _ _ Hno) in H.
    + intros i c Hi NE. now apply (set_balance_lookup now _ _ customers i c Hi).
  - intros now customerId amount userId customers ledger description out Hout.
    unfold recordKhataPayment in Hout.
    destruct (find_customer customerId customers) as [customer |]; [| discriminate].
    injection Hout as <-. cbn [po_updatedCustomers].
    split; [apply set_balance_length |].
    intros i c Hi NE. now apply (set_balance_lookup now _ _ customers i c Hi).
Qed.

Lemma khata_operations_frame_witness :
  exists out,
    recordKhataPayment 9 4 40 1 [Sample.customer_with 3 0; Sample.customer_with 4 0]
                       [] None = inr out /\
    po_updatedCustomers out !! 0%nat = Some (Sample.customer_with 3 0).
Proof.
  eexists. split; [reflexivity |].
  apply (proj2 (proj2 khata_operations_frame 9 4 40%Q 1
                  [Sample.customer_with 3 0; Sample.customer_with 4 0] [] None
                  _ eq_refl)).
  - reflexivity.
  - simpl; lia.
Defined.

End Frame.

(** ** Profit over a range *)

Section Profit.

Local Open Scope Q_scope.

Lemma fold_add_item (l : list SaleItem) (acc : Totals) :
  acc_revenue (fold_left add_item l acc)
    == acc_revenue acc
       + sumQ (fun item => inject_Z (si_quantity item) * si_unit_price item) l /\
  acc_cost (fold_left add_item l acc)
    == acc_cost acc
       + sumQ (fun item => inject_Z (si_quantity item) * si_cost_price item) l /\
  acc_itemDiscounts (fold_left add_item l acc)
    == acc_itemDiscounts acc + sumQ si_discount_amount l.
Proof.
  revert acc. induction l as [| item l IH]; intros acc;
    cbn [fold_left sumQ fold_right].
  - split; [| split]; ring.
  - destruct (IH (add_item acc item)) as (R & C & D).
    rewrite R, C, D. cbn [add_item acc_revenue acc_cost acc_itemDiscounts].
    unfold sumQ. split; [| split]; ring.
Qed.

Lemma fold_sale_discounts (l : list Sale) (a : Q) :
  fold_left (fun sum s => sum + s_discount_amount s) l a
  == a + sumQ s_discount_amount l.
Proof.
  revert a. induction l as [| s l IH]; intros a; cbn [fold_left sumQ fold_right].
  - ring.
  - rewrite IH. unfold sumQ. ring.
Qed.

Lemma sum_line_margin (l : list SaleItem) :
  sumQ line_margin l
  == sumQ (fun item => inject_Z (si_quantity item) * si_unit_price item) l
     - sumQ (fun item => inject_Z (si_quantity item) * si_cost_price item) l.
Proof.
  induction l as [| item l IH]; cbn [sumQ fold_right].
  - ring.
  - fold (sumQ line_margin l). rewrite IH. unfold line_margin, sumQ. ring.
Qed.

(** Membership in the [Set] of ids is membership in the selected sales. *)
Lemma sale_id_in_set (selected : list Sale) (id : Z) :
  bool_decide (id ∈ (list_to_set (List.map s_id selected) : gset Z))
  = existsb (fun s => (s_id s =? id)%Z) selected.
Proof.
  induction selected as [| s rest IH]; cbn [List.map list_to_set existsb].
  - apply bool_decide_eq_false, not_elem_of_empty.
  - rewrite <- IH. destruct (Z.eqb_spec (s_id s) id) as [E | NE]; cbn [orb].
    + apply bool_decide_eq_true, elem_of_union. left. now apply elem_of_singleton.
    + apply bool_decide_ext. rewrite elem_of_union, elem_of_singleton.
      split; [intros [E | H]; [congruence | exact H] | now right].
Qed.

Lemma filter_sales_range (sales : list Sale) (r : DateRange) :
  filter_sales sales (Some r) = completed_within r sales.
Proof.
  unfold filter_sales, completed_within, in_range.
  induction sales as [| s rest IH]; [reflexivity |].
  cbn [List.filter]. destruct (is_completed s); cbn [List.filter andb].
  - rewrite IH. reflexivity.
  - exact IH.
Qed.

(** The net profit of the report, over whichever sales it selects. *)
Lemma calculateNetProfit_over (sales : list Sale) (saleItems : list SaleItem)
    (dateRange : option DateRange) :
  netProfit (calculateNetProfit sales saleItems dateRange)
  == net_profit_over (filter_sales sales dateRange) saleItems.
Proof.
  unfold calculateNetProfit, net_profit_over, lines_of. cbn [netProfit].
  rewrite (List.filter_ext _ _
             (fun item => sale_id_in_set (filter_sales sales dateRange) (si_sale_id item))).
  set (lines := List.filter _ saleItems).
  destruct (fold_add_item lines
              {| acc_revenue := 0; acc_cost := 0; acc_itemDiscounts := 0;
                 acc_itemsSold := 0 |}) as (R & C & D).
  rewrite R, C, D, fold_sale_discounts, sum_line_margin.
  cbn [acc_revenue acc_cost acc_itemDiscounts]. ring.
Qed.

(** What the report computes for a range: the net profit over the completed
    sales whose instant is in the closed range, both ends included. *)
Lemma calculateNetProfit_closed_range (sales : list Sale) (saleItems : list SaleItem)
    (r : DateRange) :
  netProfit (calculateNetProfit sales saleItems (Some r))
  == net_profit_over (completed_within r sales) saleItems.
Proof. rewrite calculateNetProfit_over, filter_sales_range. reflexivity. Qed.

(** Away from the end instant the report and the specification agree. *)
Lemma calculateNetProfit_agrees_off_end (sales : list Sale) (saleItems : list SaleItem)
    (r : DateRange) :
  (forall s, In s sales -> s_created_at s <> endDate r) ->
  netProfit (calculateNetProfit sales saleItems (Some r))
  == spec_profitForRange (startDate r) (endDate r) sales saleItems.
Proof.
  intros Hoff. rewrite calculateNetProfit_closed_range.
  unfold spec_profitForRange, completed_within.
  rewrite (List.filter_ext_in
             (fun s => is_completed s && (startDate r <=? s_created_at s)%Z
                       && (s_created_at s <=? endDate r)%Z)
             (fun s => is_completed s && (startDate r <=? s_created_at s)%Z
                       && (s_created_at s <? endDate r)%Z)); [reflexivity |].
  intros s Hin. specialize (Hoff s Hin). f_equal.
  destruct (Z.leb_spec (s_created_at s) (endDate r)),
           (Z.ltb_spec (s_created_at s) (endDate r)); try reflexivity; lia.
Qed.

(** The worked scenario: unit price 50, cost at sale 30, quantity 2 and no
    discounts, inside the range, give a net profit of 40 by the report and by
    the specification. *)
Example calculateNetProfit_scenario :
  netProfit (calculateNetProfit [Sample.sale_at 1 150 0] [Sample.sale_line 1 2 50 30]
               (Some {| startDate := 100; endDate := 200 |})) == 40 /\
  spec_profitForRange 100 200 [Sample.sale_at 1 150 0] [Sample.sale_line 1 2 50 30] == 40.
Proof. split; vm_compute; reflexivity. Qed.

(** C6, at the end of the range.  A completed sale whose instant is the end
    of the range is counted by [calculateNetProfit], which gives a net profit
    of 40 for it, while the half-open range of the specification leaves it out
    and gives 0. *)
Theorem calculateNetProfit_counts_sale_at_end :
  s_created_at (Sample.sale_at 1 200 0) = endDate {| startDate := 100; endDate := 200 |} /\
  netProfit (calculateNetProfit [Sample.sale_at 1 200 0] [Sample.sale_line 1 2 50 30]
               (Some {| startDate := 100; endDate := 200 |})) == 40 /\
  spec_profitForRange 100 200 [Sample.sale_at 1 200 0] [Sample.sale_line 1 2 50 30] == 0.
Proof. split; [reflexivity |]. split; vm_compute; reflexivity. Qed.

End Profit.

(** ** The ledger statement *)

Section SortByKey.

(** The comparator [(a, b) => key(b) - key(a)]: largest key first. *)
Context {A : Type} (key : A -> Z).

Local Abbreviation compare := (fun a b : A => key b - key a).
Local Abbreviation before := (fun a b : A => key b <= key a).

Lemma js_insert_perm (x : A) (l : list A) :
  Permutation (js_insert compare x l) (x :: l).
Proof.
  induction l as [| y l IH]; cbn [js_insert]; [reflexivity |].
  destruct (key y - key x <=? 0); [reflexivity |].
  rewrite IH. apply perm_swap.
Qed.

Lemma js_sort_perm (l : list A) : Permutation (js_sort compare l) l.
Proof.
  unfold js_sort. induction l as [| x l IH]; cbn [fold_right]; [reflexivity |].
  rewrite js_insert_perm. now apply perm_skip.
Qed.

Lemma js_insert_sorted (x : A) (l : list A) :
  StronglySorted before l -> StronglySorted before (js_insert compare x l).
Proof.
  induction 1 as [| y l Hs IH Hy]; cbn [js_insert].
  - repeat constructor.
  - destruct (Z.leb_spec (key y - key x) 0) as [Hle | Hgt].
    + constructor; [now constructor |].
      constructor; [lia |].
      eapply List.Forall_impl; [| exact Hy].
      cbn beta. intros z Hz. lia.
    + constructor; [exact IH |].
      rewrite js_insert_perm. constructor; [lia | exact Hy].
Qed.

Lemma js_sort_sorted (l : list A) : StronglySorted before (js_sort compare l).
Proof.
  unfold js_sort. induction l as [| x l IH]; cbn [fold_right].
  - constructor.
  - now apply js_insert_sorted.
Qed.

(** An insertion only passes elements of a strictly larger key, so the
    elements of any one key keep the order they had. *)
Lemma js_insert_stable (t : Z) (x : A) (l : list A) :
  List.filter (fun a => key a =? t) (js_insert compare x l)
  = List.filter (fun a => key a =? t) (x :: l).
Proof.
  induction l as [| y l IH]; cbn [js_insert]; [reflexivity |].
  destruct (Z.leb_spec (key y - key x) 0) as [Hle | Hgt]; [reflexivity |].
  cbn [List.filter] in *. rewrite IH.
  destruct (Z.eqb_spec (key x) t), (Z.eqb_spec (key y) t); try reflexivity.
  lia.
Qed.

Lemma js_sort_stable (t : Z) (l : list A) :
  List.filter (fun a => key a =? t) (js_sort compare l)
  = List.filter (fun a => key a =? t) l.
Proof.
  unfold js_sort. induction l as [| x l IH]; cbn [fold_right]; [reflexivity |].
  rewrite js_insert_stable. cbn [List.filter]. now rewrite IH.
Qed.

End SortByKey.

Section Statement.

(** What [getCustomerLedgerStatement] returns: exactly the entries of the
    customer, most recent first; entries of one creation time come in the
    order the given list has them (the sort is stable and compares creation
    times only), whatever their ids. *)
Lemma getCustomerLedgerStatement_newest_first customerId ledgerEntries :
  Permutation (getCustomerLedgerStatement customerId ledgerEntries)
              (List.filter (fun e => le_customer_id e =? customerId) ledgerEntries) /\
  (forall e, In e (getCustomerLedgerStatement customerId ledgerEntries) <->
             In e ledgerEntries /\ le_customer_id e = customerId) /\
  StronglySorted newest_first (getCustomerLedgerStatement customerId ledgerEntries) /\
  (forall t, entries_at t (getCustomerLedgerStatement customerId ledgerEntries)
             = entries_at t
                 (List.filter (fun e => le_customer_id e =? customerId) ledgerEntries)).
Proof.
  unfold getCustomerLedgerStatement.
  pose proof (js_sort_perm le_created_at
                (List.filter (fun e => le_customer_id e =? customerId) ledgerEntries))
    as P.
  split; [exact P |]. split; [| split].
  - intros e. rewrite P, List.filter_In, Z.eqb_eq. reflexivity.
  - apply (js_sort_sorted le_created_at).
  - intros t. apply (js_sort_stable le_created_at).
Qed.

(** C9, on entries of one creation time.  The specification orders them by
    id, the larger first, and so do the SQL forms of the statement
    ([getCustomerLedgerQuery] and the schema file: [ORDER BY l.date DESC,
    l.id DESC]).  The comparator of [getCustomerLedgerStatement] compares
    creation times only: two entries of one customer and one creation time,
    given with ids 1 and then 2, come back in that order, the smaller id
    first. *)
Theorem getCustomerLedgerStatement_ties_in_given_order :
  List.map le_id
    (getCustomerLedgerStatement 3 [Sample.entry 1 3 5 100; Sample.entry 2 3 5 140])
  = [1; 2] /\
  List.map le_created_at
    (getCustomerLedgerStatement 3 [Sample.entry 1 3 5 100; Sample.entry 2 3 5 140])
  = [5; 5] /\
  ~ StronglySorted newest_then_largest_id
      (getCustomerLedgerStatement 3 [Sample.entry 1 3 5 100; Sample.entry 2 3 5 140]).
Proof.
  split; [reflexivity |]. split; [reflexivity |].
  intros H. vm_compute in H. inversion H as [| a l _ Hall]; subst.
  inversion Hall as [| b l' Hab _]; subst.
  destruct Hab as [Hlt | [_ Hle]]; vm_compute in *; congruence.
Qed.

(** A statement worked out: the entries of customer 3, newest first, the two
    of instant 5 in the order given. *)
Example getCustomerLedgerStatement_example :
  List.map le_id
    (getCustomerLedgerStatement 3
       [Sample.entry 1 3 5 100; Sample.entry 2 4 6 10; Sample.entry 3 3 9 60;
        Sample.entry 4 3 5 140])
  = [3; 1; 4].
Proof. reflexivity. Qed.

End Statement.

(** * Further properties of the services *)

(** ** Stable sorting by any test *)

Section SortBy.

Context {A : Type} (goes_before : A -> A -> bool).

Lemma insert_by_perm (x : A) (l : list A) :
  Permutation (insert_by goes_before x l) (x :: l).
Proof.
  induction l as [| y l IH]; cbn [insert_by]; [reflexivity |].
  destruct (goes_before x y); [reflexivity |].
  rewrite IH. apply perm_swap.
Qed.

Lemma sort_by_perm (l : list A) : Permutation (sort_by goes_before l) l.
Proof.
  unfold sort_by. induction l as [| x l IH]; cbn [fold_right]; [reflexivity |].
  rewrite insert_by_perm. now apply perm_skip.
Qed.

Lemma sort_by_length (l : list A) : length (sort_by goes_before l) = length l.
Proof. apply Permutation_length, sort_by_perm. Qed.

(** An insertion passes only elements the new one does not go before; when no
    two such elements are both selected, the selected ones keep their order. *)
Lemma insert_by_stable (sel : A -> bool) (x : A) (l : list A) :
  (forall a b, goes_before a b = false -> sel a = true -> sel b = false) ->
  List.filter sel (insert_by goes_before x l) = List.filter sel (x :: l).
Proof.
  intros Hsel. induction l as [| y l IH]; cbn [insert_by]; [reflexivity |].
  destruct (goes_before x y) eqn:E; [reflexivity |].
  cbn [List.filter] in *. rewrite IH.
  destruct (sel x) eqn:Sx; [| reflexivity].
  now rewrite (Hsel x y E Sx).
Qed.

Lemma sort_by_stable (sel : A -> bool) (l : list A) :
  (forall a b, goes_before a b = false -> sel a = true -> sel b = false) ->
  List.filter sel (sort_by goes_before l) = List.filter sel l.
Proof.
  intros Hsel. unfold sort_by.
  induction l as [| x l IH]; cbn [fold_right]; [reflexivity |].
  rewrite insert_by_stable by exact Hsel. cbn [List.filter]. now rewrite IH.
Qed.

Section Sorted.

Hypothesis total : forall a b, goes_before a b = false -> goes_before b a = true.
Hypothesis trans : forall a b c,
  goes_before a b = true -> goes_before b c = true -> goes_before a c = true.

Lemma insert_by_sorted (x : A) (l : list A) :
  StronglySorted (fun a b => goes_before a b = true) l ->
  StronglySorted (fun a b => goes_before a b = true) (insert_by goes_before x l).
Proof.
  induction 1 as [| y l Hs IH Hy]; cbn [insert_by].
  - repeat constructor.
  - destruct (goes_before x y) eqn:E.
    + constructor; [now constructor |].
      constructor; [exact E |].
      eapply List.Forall_impl; [| exact Hy].
      intros z Hz. now apply (trans x y z).
    + constructor; [exact IH |].
      rewrite insert_by_perm. constructor; [now apply total | exact Hy].
Qed.

Lemma sort_by_sorted (l : list A) :
  StronglySorted (fun a b => goes_before a b = true) (sort_by goes_before l).
Proof.
  unfold sort_by. induction l as [| x l IH]; cbn [fold_right].
  - constructor.
  - now apply insert_by_sorted.
Qed.

End Sorted.

End SortBy.

Section SortFacts.

(** The sort with an integer comparator is the sort by the test
    [compare(a, b) <= 0]. *)
Lemma js_sort_sort_by {A} (compare : A -> A -> Z) (l : list A) :
  js_sort compare l = sort_by (fun a b => compare a b <=? 0) l.
Proof.
  unfold js_sort, sort_by. induction l as [| x l IH]; cbn [fold_right]; [reflexivity |].
  rewrite IH. generalize (fold_right (insert_by (fun a b => compare a b <=? 0)) [] l).
  intros s. induction s as [| y s IHs]; cbn [js_insert insert_by]; [reflexivity |].
  now rewrite IHs.
Qed.

(** Sorting the images is taking the images of the sorted list, when the test
    on two images is the test on their originals. *)
Lemma sort_by_map {A B} (f : A -> B) (gb : A -> A -> bool) (gb' : B -> B -> bool)
    (l : list A) :
  (forall a b, gb' (f a) (f b) = gb a b) ->
  sort_by gb' (List.map f l) = List.map f (sort_by gb l).
Proof.
  intros Hf. unfold sort_by.
  induction l as [| x l IH]; cbn [List.map fold_right]; [reflexivity |].
  rewrite IH. generalize (fold_right (insert_by gb) [] l). intros s.
  induction s as [| y s IHs]; cbn [List.map insert_by]; [reflexivity |].
  rewrite Hf. destruct (gb x y); cbn [List.map]; [reflexivity | now rewrite IHs].
Qed.

Lemma StronglySorted_impl {A} (R R' : A -> A -> Prop) (l : list A) :
  (forall a b, R a b -> R' a b) -> StronglySorted R l -> StronglySorted R' l.
Proof.
  intros HR. induction 1 as [| x l Hs IH Hx]; constructor; [exact IH |].
  eapply List.Forall_impl; [| exact Hx]. intros b. apply HR.
Qed.

End SortFacts.

(** ** Low stock *)

Section LowStock.

(** X1.  [getLowStockProducts] returns exactly the active products whose
    quantity is at most their minimum stock level, by ascending quantity,
    products of one quantity in the order the given array has them. *)
Theorem getLowStockProducts_ascending (products : list Product) :
  Permutation (getLowStockProducts products)
    (List.filter (fun p => p_is_active p && (p_quantity p <=? p_min_stock_level p))
                 products) /\
  (forall p, In p (getLowStockProducts products) <->
             In p products /\ p_is_active p = true /\
             p_quantity p <= p_min_stock_level p) /\
  StronglySorted (fun a b => p_quantity a <= p_quantity b)
                 (getLowStockProducts products) /\
  (forall q, List.filter (fun p => p_quantity p =? q) (getLowStockProducts products)
             = List.filter (fun p => p_quantity p =? q)
                 (List.filter (fun p => p_is_active p
                                        && (p_quantity p <=? p_min_stock_level p))
                              products)).
Proof.
  unfold getLowStockProducts. rewrite js_sort_sort_by.
  set (low := List.filter _ products).
  pose proof (sort_by_perm (fun a b => p_quantity a - p_quantity b <=? 0) low) as P.
  split; [exact P |]. split; [| split].
  - intros p. rewrite P. unfold low.
    rewrite List.filter_In, andb_true_iff, Z.leb_le. tauto.
  - eapply StronglySorted_impl;
      [| apply sort_by_sorted; intros; rewrite ?Z.leb_le, ?Z.leb_gt in *; lia].
    cbn beta. intros a b H. apply Z.leb_le in H. lia.
  - intros q. apply sort_by_stable. intros a b H Ha.
    apply Z.leb_gt in H. apply Z.eqb_eq in Ha. apply Z.eqb_neq. lia.
Qed.

Lemma stock_status_cases (p : Product) :
  (stock_status p = out_of_stock <-> p_quantity p = 0) /\
  (stock_status p = critical <->
     p_quantity p <> 0 /\ 2 * p_quantity p <= p_min_stock_level p) /\
  (stock_status p = low_stock <->
     p_quantity p <> 0 /\ p_min_stock_level p < 2 * p_quantity p).
Proof.
  unfold stock_status.
  assert (Half : Qle_bool (inject_Z (p_quantity p)) (inject_Z (p_min_stock_level p) / 2)
                 = true <-> 2 * p_quantity p <= p_min_stock_level p).
  { rewrite Qle_bool_iff. unfold Qle, Qdiv. cbn. lia. }
  destruct (Z.eqb_spec (p_quantity p) 0) as [E | NE].
  - repeat split; intros; try discriminate; try tauto; lia.
  - destruct (Z.le_gt_cases (2 * p_quantity p) (p_min_stock_level p)) as [H | H].
    + rewrite (proj2 Half H).
      repeat split; intros; try discriminate; try tauto; try lia.
    + assert (B : Qle_bool (inject_Z (p_quantity p))
                           (inject_Z (p_min_stock_level p) / 2) = false).
      { apply not_true_is_false. intros B. apply Half in B. lia. }
      rewrite B. repeat split; intros; try discriminate; try tauto; try lia.
Qed.

(** X2.  [getLowStockAlerts] lists the same products as
    [getLowStockProducts], in the same order.  Every alert has a stock of at
    most the minimum level and a number of missing units of at least zero; it
    is 'out_of_stock' exactly when the stock is 0, 'critical' exactly when the
    stock is not 0 and at most half the minimum level, 'low_stock' otherwise. *)
Theorem getLowStockAlerts_classified (products : list Product) :
  List.map sa_productId (getLowStockAlerts products)
    = List.map p_id (getLowStockProducts products) /\
  StronglySorted (fun a b => sa_currentStock a <= sa_currentStock b)
                 (getLowStockAlerts products) /\
  (forall a, In a (getLowStockAlerts products) ->
     sa_currentStock a <= sa_minStockLevel a /\
     sa_unitsBelowMinimum a = sa_minStockLevel a - sa_currentStock a /\
     0 <= sa_unitsBelowMinimum a /\
     (sa_status a = out_of_stock <-> sa_currentStock a = 0) /\
     (sa_status a = critical <->
        sa_currentStock a <> 0 /\ 2 * sa_currentStock a <= sa_minStockLevel a) /\
     (sa_status a = low_stock <->
        sa_currentStock a <> 0 /\ sa_minStockLevel a < 2 * sa_currentStock a)).
Proof.
  unfold getLowStockAlerts, getLowStockProducts. rewrite !js_sort_sort_by.
  set (low := List.filter _ products).
  set (alert := fun p : Product => mkStockAlertItem _ _ _ _ _ _ _ _).
  rewrite (sort_by_map alert (fun a b => p_quantity a - p_quantity b <=? 0))
    by reflexivity.
  split; [| split].
  - rewrite List.map_map. reflexivity.
  - rewrite <- (sort_by_map alert (fun a b => p_quantity a - p_quantity b <=? 0)
                  (fun a b => sa_currentStock a - sa_currentStock b <=? 0))
      by reflexivity.
    eapply StronglySorted_impl;
      [| apply sort_by_sorted; intros; rewrite ?Z.leb_le, ?Z.leb_gt in *; lia].
    cbn beta. intros a b H. apply Z.leb_le in H. lia.
  - intros a Hin. apply List.in_map_iff in Hin as [p [<- Hin]].
    rewrite (sort_by_perm _ low) in Hin. unfold low in Hin.
    apply List.filter_In in Hin as [_ Hlow].
    apply andb_true_iff in Hlow as [_ Hle]. apply Z.leb_le in Hle.
    cbn [alert sa_currentStock sa_minStockLevel sa_unitsBelowMinimum sa_status].
    split; [exact Hle |]. split; [reflexivity |]. split; [lia |].
    apply stock_status_cases.
Qed.

End LowStock.

(** ** Receipts and the valuation of the stock *)

Section Valuation.

Local Open Scope Q_scope.

(** What a product adds to the item count of the stock. *)
Local Abbreviation units :=
  (fun p : Product => if p_is_active p then p_quantity p else 0%Z).

Lemma fold_units (rows : list Product) (a : Z) :
  fold_left (fun sum p => sum + p_quantity p)%Z (List.filter p_is_active rows) a
  = (a + fold_right (fun p acc => units p + acc) 0 rows)%Z.
Proof.
  revert a.
  induction rows as [| p rows IH]; intros a; cbn [List.filter fold_left fold_right].
  - lia.
  - destruct (p_is_active p); cbn [fold_left]; rewrite IH; lia.
Qed.

Lemma sum_units_app (l1 l2 : list Product) :
  fold_right (fun p acc => units p + acc)%Z 0%Z (l1 ++ l2)
  = (fold_right (fun p acc => units p + acc) 0 l1
     + fold_right (fun p acc => units p + acc) 0 l2)%Z.
Proof. induction l1 as [| x l1 IH]; cbn [app fold_right]; lia. Qed.

(** With distinct ids, updating the rows of an id updates one row. *)
Lemma update_one (id : Z) (g : Product -> Product) (products : list Product)
    (p : Product) :
  NoDup (List.map p_id products) -> In p products -> p_id p = id ->
  exists l1 l2,
    products = l1 ++ p :: l2 /\
    List.map (fun x => if (p_id x =? id)%Z then g x else x) products = l1 ++ g p :: l2.
Proof.
  intros Hnd Hin Hid. induction products as [| x rest IH]; [destruct Hin |].
  cbn [List.map] in *. apply NoDup_cons in Hnd as [Hx Hnd].
  rewrite list_elem_of_In in Hx.
  destruct Hin as [-> | Hin].
  - exists [], rest. split; [reflexivity |].
    rewrite Hid, Z.eqb_refl. cbn [app]. f_equal.
    rewrite <- (List.map_id rest) at 2. apply List.map_ext_in.
    intros y Hy. destruct (Z.eqb_spec (p_id y) id) as [E | NE]; [| reflexivity].
    exfalso. apply Hx. rewrite Hid, <- E. now apply List.in_map.
  - destruct (IH Hnd Hin) as (l1 & l2 & E1 & E2).
    exists (x :: l1), l2. split; [now rewrite E1 |].
    destruct (Z.eqb_spec (p_id x) id) as [E | NE].
    + exfalso. apply Hx. rewrite E, <- Hid. now apply List.in_map.
    + cbn [app]. now rewrite E2.
Qed.

(** Updating the rows of an id: the update of the row found first is what a
    later lookup finds, when the update keeps the id. *)
Lemma find_product_updated (id : Z) (g : Product -> Product) (products : list Product)
    (p : Product) :
  find_product id products = Some p -> p_id (g p) = id ->
  find_product id (List.map (fun x => if (p_id x =? id)%Z then g x else x) products)
  = Some (g p).
Proof.
  unfold find_product. intros Hfind Hg.
  induction products as [| x rest IH]; [discriminate |].
  cbn in *. destruct (Z.eqb_spec (p_id x) id) as [E | NE].
  - injection Hfind as ->. now rewrite Hg, Z.eqb_refl.
  - destruct (Z.eqb_spec (p_id x) id); [contradiction | now apply IH].
Qed.

(** X3.  The repository's [stockIn] does not read [is_active], and
    [getInventoryValue] counts active rows only.  On a table of distinct ids,
    a receipt on an active product raises the number of items by the quantity
    received; a receipt on a deactivated product goes through and leaves both
    figures of [getInventoryValue] as they were. *)
Theorem stockIn_and_inventory_count now input db product :
  NoDup (List.map p_id (tbl_products db)) ->
  getProductById (sii_product_id input) db = Some product ->
  exists db' r,
    stockIn now input db = inr (db', r) /\
    (p_is_active product = true ->
       iv_totalItems (getInventoryValue db')
       = (iv_totalItems (getInventoryValue db) + sii_quantity input)%Z) /\
    (p_is_active product = false ->
       getInventoryValue db' = getInventoryValue db /\
       exists row,
         getProductById (sii_product_id input) db' = Some row /\
         p_quantity row = (p_quantity product + sii_quantity input)%Z).
Proof.
  intros Hnd Hfind. unfold stockIn. rewrite Hfind.
  eexists _, _. split; [reflexivity |].
  unfold getProductById in Hfind.
  pose proof (find_product_some _ _ _ Hfind) as [Hin Hid].
  unfold getInventoryValue, getProductById, update_stock_in.
  cbn [tbl_products iv_totalValue iv_totalItems].
  match goal with
  | |- context [List.map (fun p => if (p_id p =? _)%Z then @?g p else p) _] =>
      destruct (update_one (sii_product_id input) g (tbl_products db) product
                  Hnd Hin Hid) as (l1 & l2 & E1 & E2);
      pose proof (find_product_updated (sii_product_id input) g
                    (tbl_products db) product Hfind Hid) as Hrow
  end.
  cbn beta in E2, Hrow.
  split.
  - intros Hact. rewrite E2, E1.
    rewrite !fold_units, !sum_units_app. cbn [fold_right p_is_active p_quantity].
    rewrite Hact. lia.
  - intros Hact. split.
    + rewrite E2, E1.
      rewrite !List.filter_app. cbn [List.filter p_is_active].
      rewrite Hact. reflexivity.
    + eexists. split; [exact Hrow | reflexivity].
Qed.

Lemma stockIn_and_inventory_count_witness :
  exists db' r,
    stockIn 1 {| sii_product_id := 7; sii_quantity := 10; sii_unit_cost := 120;
                 sii_user_id := 1; sii_notes := None |}
            {| tbl_products := [Sample.product_with 7 10 100; Sample.product_with 8 3 5];
               tbl_stock_movements := [] |} = inr (db', r) /\
    iv_totalItems (getInventoryValue db') = 23%Z.
Proof.
  destruct (stockIn_and_inventory_count 1
              {| sii_product_id := 7; sii_quantity := 10; sii_unit_cost := 120;
                 sii_user_id := 1; sii_notes := None |}
              {| tbl_products := [Sample.product_with 7 10 100; Sample.product_with 8 3 5];
                 tbl_stock_movements := [] |}
              (Sample.product_with 7 10 100))
    as (db' & r & E & V & _).
  - cbn. apply NoDup_cons. split; [| apply NoDup_singleton].
    rewrite list_elem_of_singleton. lia.
  - reflexivity.
  - exists db', r. split; [exact E |]. rewrite V; reflexivity.
Defined.

(** X4.  [performStockIn] does not read [is_active] either, and the reports
    of the inventory service read active products only.  On an array of
    distinct ids, a receipt on a deactivated product goes through: its
    quantity rises and it stays deactivated, and neither
    [calculateInventoryValue] nor [getLowStockProducts] shows any of it. *)
Theorem performStockIn_on_deactivated_product now products params product :
  NoDup (List.map p_id products) ->
  find_product (sip_productId params) products = Some product ->
  p_is_active product = false ->
  exists out,
    performStockIn now products params = inr out /\
    p_quantity (sir_product (sio_result out))
      = (p_quantity product + sip_quantity params)%Z /\
    p_is_active (sir_product (sio_result out)) = false /\
    find_product (sip_productId params) (sio_updatedProducts out)
      = Some (sir_product (sio_result out)) /\
    calculateInventoryValue (sio_updatedProducts out) = calculateInventoryValue products /\
    getLowStockProducts (sio_updatedProducts out) = getLowStockProducts products.
Proof.
  intros Hnd Hfind Hact.
  destruct (performStockIn_found now products params product Hfind)
    as (out & Hout & _ & Hq & _ & _ & Hid' & Hrows).
  pose proof (find_product_some _ _ _ Hfind) as [Hin Hid].
  assert (Hact' : p_is_active (sir_product (sio_result out)) = false).
  { unfold performStockIn in Hout. rewrite Hfind in Hout.
    injection Hout as <-. exact Hact. }
  exists out. split; [exact Hout |]. split; [exact Hq |]. split; [exact Hact' |].
  split.
  { rewrite Hrows. eapply find_product_replaced; [exact Hfind | congruence]. }
  destruct (update_one (sip_productId params) (fun _ => sir_product (sio_result out))
              products product Hnd Hin Hid) as (l1 & l2 & E1 & E2).
  rewrite Hrows, E2, E1.
  unfold calculateInventoryValue, getLowStockProducts.
  rewrite !List.filter_app. cbn [List.filter]. rewrite Hact, Hact'. cbn [andb].
  split; reflexivity.
Qed.

Lemma performStockIn_on_deactivated_product_witness :
  exists out,
    performStockIn 1
      [MoreSample.deactivated (Sample.product_with 7 3 30); Sample.product_with 8 40 5]
      (Sample.receipt 7 10 120) = inr out /\
    p_quantity (sir_product (sio_result out)) = 13%Z /\
    getLowStockProducts (sio_updatedProducts out) = [].
Proof.
  destruct (performStockIn_on_deactivated_product 1
              [MoreSample.deactivated (Sample.product_with 7 3 30);
               Sample.product_with 8 40 5]
              (Sample.receipt 7 10 120)
              (MoreSample.deactivated (Sample.product_with 7 3 30)))
    as (out & E & Q & _ & _ & _ & L).
  - cbn. apply NoDup_cons. split; [| apply NoDup_singleton].
    rewrite list_elem_of_singleton. lia.
  - reflexivity.
  - reflexivity.
  - exists out. split; [exact E |]. split; [exact Q |]. rewrite L. reflexivity.
Defined.

(** X5.  The two receipt paths, [performStockIn] of the inventory service and
    [stockIn] of the repository, on the same product and the same receipt:
    the quantity and the last cost they leave are the same, and the new cost
    [performStockIn] returns ([newWAC], before it rounds the stored one) is
    the cost [stockIn] stores whenever the resulting stock is not negative.
    When the resulting stock is negative the two differ: [calculateNewWAC]
    gives 0 where [calculateWAC] still divides. *)
Theorem performStockIn_and_stockIn_costs now products movements params product :
  find_product (sip_productId params) products = Some product ->
  exists out db' r row,
    performStockIn now products params = inr out /\
    stockIn now {| sii_product_id := sip_productId params;
                   sii_quantity := sip_quantity params;
                   sii_unit_cost := sip_unitCost params;
                   sii_user_id := sip_userId params;
                   sii_notes := sip_notes params |}
            {| tbl_products := products; tbl_stock_movements := movements |}
      = inr (db', r) /\
    rr_product r = Some row /\
    getProductById (sip_productId params) db' = Some row /\
    p_quantity (sir_product (sio_result out)) = p_quantity row /\
    p_cost_price (sir_product (sio_result out)) = p_cost_price row /\
    ((0 <= p_quantity product + sip_quantity params)%Z ->
       sir_newWAC (sio_result out) = p_wac_cost row) /\
    ((p_quantity product + sip_quantity params < 0)%Z ->
       sir_newWAC (sio_result out) = 0 /\
       p_wac_cost row
       = (inject_Z (p_quantity product) * p_wac_cost product
          + inject_Z (sip_quantity params) * sip_unitCost params)
         / inject_Z (p_quantity product + sip_quantity params)).
Proof.
  intros Hfind.
  pose proof (find_product_some _ _ _ Hfind) as [_ Hid].
  unfold performStockIn, stockIn, getProductById. cbn [tbl_products sii_product_id].
  rewrite Hfind. eexists _, _, _, _.
  split; [reflexivity |]. split; [reflexivity |].
  cbn [rr_product tbl_products sii_quantity sii_unit_cost].
  unfold getProductById, update_stock_in. cbn [tbl_products].
  match goal with
  | |- context [List.map (fun p => if (p_id p =? _)%Z then @?g p else p) _] =>
      rewrite (find_product_updated (sip_productId params) g products product Hfind Hid)
  end.
  split; [reflexivity |]. split; [reflexivity |].
  cbn [sio_result sir_product sir_newWAC p_quantity p_cost_price p_wac_cost].
  split; [reflexivity |]. split; [reflexivity |].
  unfold calculateNewWAC, calculateWAC.
  split.
  - intros Hpos.
    destruct (Z.leb_spec (p_quantity product + sip_quantity params) 0) as [Hle | Hgt];
      [| reflexivity].
    destruct (Z.eqb_spec (p_quantity product + sip_quantity params) 0); [reflexivity | lia].
  - intros Hneg.
    destruct (Z.leb_spec (p_quantity product + sip_quantity params) 0) as [Hle | Hgt];
      [| lia].
    split; [reflexivity |].
    destruct (Z.eqb_spec (p_quantity product + sip_quantity params) 0); [lia | reflexivity].
Qed.

Lemma performStockIn_and_stockIn_costs_witness :
  exists out row,
    performStockIn 1 [Sample.product_with 7 10 100] (Sample.receipt 7 10 120) = inr out /\
    p_quantity row = 20%Z /\
    sir_newWAC (sio_result out) = p_wac_cost row.
Proof.
  destruct (performStockIn_and_stockIn_costs 1%Z [Sample.product_with 7 10 100] []
              (Sample.receipt 7 10 120) (Sample.product_with 7 10 100))
    as (out & db' & r & row & E1 & E2 & E3 & _ & Q & _ & W & _).
  - reflexivity.
  - exists out, row. split; [exact E1 |].
    split.
    + rewrite <- Q. injection E1 as <-. reflexivity.
    + apply W. simpl; lia.
Defined.

End Valuation.

(** ** Bookkeeping of a sale *)

Section SaleBookkeeping.

Local Open Scope Q_scope.

Lemma make_sale_items_lookup now saleId items i item :
  items !! i = Some item ->
  make_sale_items now saleId items !! i
  = Some {| si_id := (now + Z.of_nat i)%Z;
            si_sale_id := saleId;
            si_product_id := p_id (ci_product item);
            si_quantity := ci_quantity item;
            si_unit_price := ci_unitPrice item;
            si_cost_price := p_wac_cost (ci_product item);
            si_discount_amount := ci_discount item;
            si_total := inject_Z (ci_quantity item) * ci_unitPrice item - ci_discount item;
            si_created_at := now |}.
Proof.
  intros Hi. unfold make_sale_items. rewrite list_lookup_imap, Hi. reflexivity.
Qed.

Lemma make_sale_items_sale_id now saleId items :
  Forall (fun si => si_sale_id si = saleId) (make_sale_items now saleId items).
Proof.
  apply Forall_lookup. intros i si Hsi. unfold make_sale_items in Hsi.
  rewrite list_lookup_imap in Hsi.
  destruct (items !! i); [| discriminate]. cbn in Hsi. injection Hsi as <-. reflexivity.
Qed.

(** X6.  The records of a cash sale: one sale line per cart line, in cart
    order, carrying the sale's id, the product, quantity, unit price and
    discount of the cart line, as cost the weighted-average cost of the
    product as the cart line holds it, and as total quantity x unit price
    less the line discount; the total of the sale is its subtotal less the
    discount, the sale is completed, and its payment method is 'cash'
    whatever [paymentMode] was given. *)
Theorem createCashSale_books_every_line now invoiceNumber params products :
  let out := createCashSale now invoiceNumber params products in
  let sale := sr_sale (cso_sale out) in
  let saleItems := sr_saleItems (cso_sale out) in
  length saleItems = length (sp_items params) /\
  (forall i item, sp_items params !! i = Some item ->
     exists si, saleItems !! i = Some si /\
       si_sale_id si = s_id sale /\
       si_product_id si = p_id (ci_product item) /\
       si_quantity si = ci_quantity item /\
       si_unit_price si = ci_unitPrice item /\
       si_discount_amount si = ci_discount item /\
       si_cost_price si = p_wac_cost (ci_product item) /\
       si_total si = inject_Z (ci_quantity item) * ci_unitPrice item - ci_discount item) /\
  s_total sale = s_subtotal sale - sp_discount params /\
  s_discount_amount sale = sp_discount params /\
  s_status sale = st_completed /\
  s_payment_method sale = pm_cash.
Proof.
  cbn zeta. cbn [createCashSale cso_sale sr_sale sr_saleItems s_id s_subtotal s_total
                 s_discount_amount s_status s_payment_method calculateSaleTotals
                 t_subtotal t_netAmount].
  split; [unfold make_sale_items; apply length_imap |].
  split.
  - intros i item Hi. eexists.
    split; [exact (make_sale_items_lookup now now _ i item Hi) |].
    cbn. repeat split; reflexivity.
  - repeat split; reflexivity.
Qed.

Lemma Math_maxQ_spec (a b : Q) :
  a <= Math_maxQ a b /\ b <= Math_maxQ a b /\
  (a <= b -> Math_maxQ a b = b) /\ (b < a -> Math_maxQ a b = a).
Proof.
  unfold Math_maxQ. destruct (Qle_bool a b) eqn:E.
  - apply Qle_bool_iff in E. repeat split; intros; try lra; reflexivity.
  - assert (b < a).
    { apply Qnot_le_lt. intros H. apply Qle_bool_iff in H. congruence. }
    repeat split; intros; try lra; reflexivity.
Qed.

(** X7.  The change of a cash sale is never negative: it is the amount paid
    less the total when the amount paid covers the total, and 0 when it does
    not; a sale paid short is recorded all the same, with the amount received
    as it was given. *)
Theorem createCashSale_change now invoiceNumber params products :
  let out := createCashSale now invoiceNumber params products in
  let sale := sr_sale (cso_sale out) in
  0 <= s_change_amount sale /\
  sr_change (cso_sale out) = s_change_amount sale /\
  s_payment_received sale = sp_amountPaid params /\
  (s_total sale <= sp_amountPaid params ->
     s_change_amount sale == sp_amountPaid params - s_total sale) /\
  (sp_amountPaid params <= s_total sale -> s_change_amount sale == 0) /\
  sr_success (cso_sale out) = true.
Proof.
  cbn zeta. cbn [createCashSale cso_sale sr_sale sr_change sr_success s_change_amount
                 s_payment_received s_total].
  destruct (Math_maxQ_spec 0 (sp_amountPaid params
              - t_netAmount (calculateSaleTotals (sp_items params) (sp_discount params))))
    as (H0 & H1 & Hle & Hlt).
  split; [exact H0 |]. split; [reflexivity |]. split; [reflexivity |].
  split; [| split; [| reflexivity]].
  - intros H. rewrite Hle by lra. reflexivity.
  - intros H.
    destruct (Qlt_le_dec (sp_amountPaid params
                - t_netAmount (calculateSaleTotals (sp_items params) (sp_discount params)))
                0) as [L | L].
    + rewrite Hlt by exact L. reflexivity.
    + rewrite Hle by exact L. lra.
Qed.

End SaleBookkeeping.

(** ** Cart lines and stock *)

Section CartLines.

Lemma find_sold_item_skip (before after : list CartItem) (item : CartItem) (p : Product) :
  (exists earlier, In earlier before /\
     p_id (ci_product earlier) = p_id (ci_product item)) ->
  find_sold_item (before ++ item :: after) p = find_sold_item (before ++ after) p.
Proof.
  intros Hearlier. unfold find_sold_item.
  induction before as [| x before IH]; [destruct Hearlier as [? [[] _]] |].
  cbn [app List.find]. destruct (Z.eqb_spec (p_id (ci_product x)) (p_id p)) as [E | NE];
    [reflexivity |].
  destruct Hearlier as [earlier [[-> | Hin] Hid]].
  - clear IH. induction before as [| y before IH]; cbn [app List.find].
    + destruct (Z.eqb_spec (p_id (ci_product item)) (p_id p)); [congruence | reflexivity].
    + destruct (p_id (ci_product y) =? p_id p); [reflexivity | exact IH].
  - apply IH. eauto.
Qed.

(** X8.  Of several cart lines for one product, only the first is taken off
    the stock: a later line of a product already in the cart leaves the
    returned products as they would be without it, although it is billed as a
    sale line of its own. *)
Theorem createCashSale_deducts_first_line_only now invoiceNumber params params'
    before item after products :
  sp_items params = before ++ item :: after ->
  sp_items params' = before ++ after ->
  (exists earlier, In earlier before /\
     p_id (ci_product earlier) = p_id (ci_product item)) ->
  cso_updatedProducts (createCashSale now invoiceNumber params products)
    = cso_updatedProducts (createCashSale now invoiceNumber params' products) /\
  length (sr_saleItems (cso_sale (createCashSale now invoiceNumber params products)))
    = S (length (sr_saleItems (cso_sale (createCashSale now invoiceNumber params' products)))) /\
  t_itemCount (calculateSaleTotals (sp_items params) (sp_discount params))
    = t_itemCount (calculateSaleTotals (sp_items params') (sp_discount params'))
      + ci_quantity item.
Proof.
  intros E E' Hearlier.
  cbn [createCashSale cso_updatedProducts cso_sale sr_saleItems calculateSaleTotals
       t_itemCount].
  rewrite E, E'. split; [| split].
  - unfold update_quantities. apply List.map_ext. intros p.
    now rewrite (find_sold_item_skip before after item p Hearlier).
  - unfold make_sale_items. rewrite !length_imap, !length_app. cbn [length]. lia.
  - assert (F : forall l a, fold_left (fun sum it => sum + ci_quantity it) l a
                            = a + fold_left (fun sum it => sum + ci_quantity it) l 0).
    { induction l as [| x l IH]; intros a; cbn [fold_left]; [lia |].
      rewrite IH, (IH (0 + ci_quantity x)). lia. }
    rewrite !fold_left_app. cbn [fold_left].
    rewrite (F after (_ + ci_quantity item)), (F after (fold_left _ before 0)). lia.
Qed.

Lemma createCashSale_deducts_first_line_only_witness :
  List.map p_quantity
    (cso_updatedProducts
       (createCashSale 1 "INV-20240101-0001"
          (Sample.cash_sale [Sample.line (Sample.product_with 7 10 30) 2 50;
                             Sample.line (Sample.product_with 7 10 30) 3 50])
          [Sample.product_with 7 10 30]))
  = [8].
Proof.
  rewrite (proj1 (createCashSale_deducts_first_line_only 1 "INV-20240101-0001"
             (Sample.cash_sale [Sample.line (Sample.product_with 7 10 30) 2 50;
                                Sample.line (Sample.product_with 7 10 30) 3 50])
             (Sample.cash_sale [Sample.line (Sample.product_with 7 10 30) 2 50])
             [Sample.line (Sample.product_with 7 10 30) 2 50]
             (Sample.line (Sample.product_with 7 10 30) 3 50) []
             [Sample.product_with 7 10 30] eq_refl eq_refl
             (ex_intro _ (Sample.line (Sample.product_with 7 10 30) 2 50)
                       (conj (or_introl eq_refl) eq_refl)))).
  reflexivity.
Defined.

(** A cash sale of one line does to the products what [reduceStock] does. *)
Lemma update_quantities_single now item products :
  update_quantities now [item] products
  = reduceStock now products (p_id (ci_product item)) (ci_quantity item).
Proof.
  unfold update_quantities, reduceStock, find_sold_item. apply List.map_ext. intros p.
  cbn [List.find]. rewrite (Z.eqb_sym (p_id p)).
  destruct (p_id (ci_product item) =? p_id p); reflexivity.
Qed.

(** X9.  Stock reductions add up: reducing the stock of a product by [a] and
    then by [b], neither negative, gives the products that one reduction by
    [a + b] gives; and a cash sale of a single line reduces the stock as
    [reduceStock] does for that product and quantity. *)
Theorem reduceStock_adds_up now1 now2 products productId a b :
  0 <= a -> 0 <= b ->
  reduceStock now2 (reduceStock now1 products productId a) productId b
    = reduceStock now2 products productId (a + b) /\
  forall invoiceNumber params item,
    sp_items params = [item] ->
    cso_updatedProducts (createCashSale now1 invoiceNumber params products)
    = reduceStock now1 products (p_id (ci_product item)) (ci_quantity item).
Proof.
  intros Ha Hb. split.
  - unfold reduceStock. rewrite List.map_map. apply List.map_ext. intros p.
    destruct (Z.eqb_spec (p_id p) productId) as [E | NE]; cbn [negb].
    + cbn [with_reduced_quantity p_id]. rewrite E, Z.eqb_refl. cbn [negb].
      unfold with_reduced_quantity. cbn. f_equal. unfold Math_max. lia.
    + destruct (Z.eqb_spec (p_id p) productId); [contradiction | reflexivity].
  - intros invoiceNumber params item E.
    cbn [createCashSale cso_updatedProducts]. rewrite E.
    apply update_quantities_single.
Qed.

Lemma reduceStock_adds_up_witness :
  reduceStock 2 (reduceStock 1 [Sample.product_with 7 5 30] 7 3) 7 4
  = reduceStock 2 [Sample.product_with 7 5 30] 7 (3 + 4).
Proof.
  apply (proj1 (reduceStock_adds_up 1 2 [Sample.product_with 7 5 30] 7 3 4
                  ltac:(lia) ltac:(lia))).
Defined.

End CartLines.

(** ** A sale in the profit report *)

Section SaleInReport.

Local Open Scope Q_scope.

Lemma filter_all {A} (f : A -> bool) (l : list A) :
  Forall (fun x => f x = true) l -> List.filter f l = l.
Proof.
  induction 1 as [| x l Hx _ IH]; cbn [List.filter]; [reflexivity |].
  now rewrite Hx, IH.
Qed.

(** The running cost and the running count of the report over the lines made
    from a cart are those [calculateSaleTotals] runs over the cart: the same
    sums, term by term. *)
Lemma fold_add_item_made (h : nat -> CartItem -> SaleItem) (items : list CartItem)
    (acc : Totals) :
  (forall i item, si_quantity (h i item) = ci_quantity item /\
                  si_cost_price (h i item) = p_wac_cost (ci_product item)) ->
  acc_cost (fold_left add_item (imap h items) acc)
  = fold_left (fun sum item =>
                 sum + inject_Z (ci_quantity item) * p_wac_cost (ci_product item))
              items (acc_cost acc) /\
  acc_itemsSold (fold_left add_item (imap h items) acc)
  = fold_left (fun sum item => sum + ci_quantity item)%Z items (acc_itemsSold acc).
Proof.
  revert h acc. induction items as [| item items IH]; intros h acc Hh.
  - split; reflexivity.
  - cbn [imap fold_left].
    destruct (IH (h ∘ S) (add_item acc (h 0%nat item))) as [Ec Ei].
    { intros i x. apply Hh. }
    rewrite Ec, Ei. destruct (Hh 0%nat item) as [Eq Ew].
    cbn [add_item acc_cost acc_itemsSold]. rewrite Eq, Ew.
    split; reflexivity.
Qed.

(** The report over one completed sale and the lines made for it. *)
Lemma report_of_made_sale now (sale : Sale) (items : list CartItem) (discount : Q) :
  s_status sale = st_completed ->
  let report :=
    calculateNetProfit [sale] (make_sale_items now (s_id sale) items) None in
  totalCost report = t_totalCost (calculateSaleTotals items discount) /\
  itemsSold report = t_itemCount (calculateSaleTotals items discount) /\
  transactionCount report = 1%nat.
Proof.
  intros Hdone. cbn zeta. unfold calculateNetProfit, filter_sales, is_completed.
  cbn [List.filter]. rewrite Hdone.
  cbn [totalCost itemsSold transactionCount length List.map].
  rewrite filter_all.
  2:{ eapply Forall_impl; [apply make_sale_items_sale_id |].
      intros si E. cbn beta. apply bool_decide_eq_true.
      rewrite E. apply elem_of_list_to_set, list_elem_of_here. }
  unfold make_sale_items.
  match goal with
  | |- context [imap ?h items] =>
      destruct (fold_add_item_made h items
                  {| acc_revenue := 0; acc_cost := 0;
                     acc_itemDiscounts := 0; acc_itemsSold := 0 |}) as [Ec Ei];
      [intros i x; split; reflexivity |]
  end.
  rewrite Ec, Ei. cbn [calculateSaleTotals t_totalCost t_itemCount acc_cost acc_itemsSold].
  repeat split; reflexivity.
Qed.

(** X10.  The profit report takes the cost of a sale as the sale computed
    it.  Over the sale and the sale lines a cash sale returns, and no other,
    [calculateNetProfit] counts one transaction, as many items as
    [calculateSaleTotals] counts for the cart, and as total cost the total
    cost of [calculateSaleTotals]: the same sum over the same cost snapshots.
    So it does for a credit sale that goes through. *)
Theorem calculateNetProfit_of_created_sale :
  (forall now invoiceNumber params products,
     let made := cso_sale (createCashSale now invoiceNumber params products) in
     let report := calculateNetProfit [sr_sale made] (sr_saleItems made) None in
     let totals := calculateSaleTotals (sp_items params) (sp_discount params) in
     totalCost report = t_totalCost totals /\
     itemsSold report = t_itemCount totals /\
     transactionCount report = 1%nat) /\
  (forall now invoiceNumber params products customers ledger out,
     createKhataSale now invoiceNumber params products customers ledger = inr out ->
     let report :=
       calculateNetProfit [sr_sale (kso_sale out)] (sr_saleItems (kso_sale out)) None in
     let totals := calculateSaleTotals (kp_items params) (kp_discount params) in
     totalCost report = t_totalCost totals /\
     itemsSold report = t_itemCount totals /\
     transactionCount report = 1%nat).
Proof.
  split.
  - intros now invoiceNumber params products.
    cbn [createCashSale cso_sale sr_sale sr_saleItems].
    match goal with
    | |- context [calculateNetProfit [?sale] _ None] =>
        exact (report_of_made_sale now sale (sp_items params) (sp_discount params) eq_refl)
    end.
  - intros now invoiceNumber params products customers ledger out Hout.
    unfold createKhataSale in Hout.
    destruct (find_customer (kp_customerId params) customers); [| discriminate].
    injection Hout as <-. cbn [kso_sale sr_sale sr_saleItems].
    match goal with
    | |- context [calculateNetProfit [?sale] _ None] =>
        exact (report_of_made_sale now sale (kp_items params) (kp_discount params) eq_refl)
    end.
Qed.

Lemma calculateNetProfit_of_created_sale_witness :
  exists out,
    createKhataSale 1 "INV-20240101-0001"
      (Sample.khata_sale 3 [Sample.line (Sample.product_with 7 5 30) 2 50])
      [Sample.product_with 7 5 30] [Sample.customer_with 3 0] [] = inr out /\
    totalCost (calculateNetProfit [sr_sale (kso_sale out)] (sr_saleItems (kso_sale out))
                                  None)
    = t_totalCost (calculateSaleTotals [Sample.line (Sample.product_with 7 5 30) 2 50] 0) /\
    itemsSold (calculateNetProfit [sr_sale (kso_sale out)] (sr_saleItems (kso_sale out))
                                  None) = 2%Z.
Proof.
  eexists. split; [reflexivity |].
  destruct (proj2 calculateNetProfit_of_created_sale 1%Z "INV-20240101-0001"%string
              (Sample.khata_sale 3 [Sample.line (Sample.product_with 7 5 30) 2 50])
              [Sample.product_with 7 5 30] [Sample.customer_with 3 0] [] _ eq_refl)
    as (Ec & Ei & _).
  split; [exact Ec | exact Ei].
Defined.

End SaleInReport.

(** ** Payments *)

Section Payments.

Local Open Scope Q_scope.

(** X11.  [recordKhataPayment] fails in one case only, when no customer has
    the given id.  For an existing customer every amount is accepted, zero,
    negative or above the balance: the entry is tagged 'debit', its balance
    and the customer's new credit balance are the old balance less the amount,
    so that an amount above the balance leaves a negative balance; an absent
    or empty description becomes 'Payment received'. *)
Theorem recordKhataPayment_accepts_any_amount now customerId amount userId customers
    ledger description :
  (find_customer customerId customers = None <->
   recordKhataPayment now customerId amount userId customers ledger description
   = inl (CustomerNotFound customerId)) /\
  (forall customer, find_customer customerId customers = Some customer ->
     exists out,
       recordKhataPayment now customerId amount userId customers ledger description
         = inr out /\
       le_type (po_newLedgerEntry out) = lt_debit /\
       le_amount (po_newLedgerEntry out) = amount /\
       le_balance (po_newLedgerEntry out) = c_credit_balance customer - amount /\
       (c_credit_balance customer < amount -> le_balance (po_newLedgerEntry out) < 0) /\
       (forall c, In c (po_updatedCustomers out) -> c_id c = customerId ->
          c_credit_balance c = c_credit_balance customer - amount) /\
       ((description = None \/ description = Some ""%string) ->
          le_description (po_newLedgerEntry out) = Some "Payment received"%string)).
Proof.
  split.
  - unfold recordKhataPayment.
    destruct (find_customer customerId customers); split; congruence.
  - intros customer Hfind.
    destruct (recordKhataPayment_found now customerId amount userId customers ledger
                description customer Hfind)
      as (out & Hout & Hty & _ & Ham & Hbal & Hcust).
    exists out. split; [exact Hout |]. split; [exact Hty |]. split; [exact Ham |].
    split; [exact Hbal |]. split; [intros H; rewrite Hbal; lra |].
    split.
    + intros c Hin Hc. rewrite Hcust in Hin.
      apply set_balance_in in Hin as [[_ E] | [NE _]]; [| contradiction].
      now rewrite E, Hbal.
    + intros Hd. unfold recordKhataPayment in Hout. rewrite Hfind in Hout.
      injection Hout as <-. cbn [po_newLedgerEntry le_description].
      destruct Hd as [-> | ->]; reflexivity.
Qed.

Lemma recordKhataPayment_accepts_any_amount_witness :
  exists out,
    recordKhataPayment 1 3 40 1 [Sample.customer_with 3 100] [] None = inr out /\
    le_balance (po_newLedgerEntry out) == 60 /\
    List.map c_credit_balance (po_updatedCustomers out) = [100 - 40].
Proof.
  destruct (proj2 (recordKhataPayment_accepts_any_amount 1 3 40 1
                     [Sample.customer_with 3 100] [] None)
              (Sample.customer_with 3 100) eq_refl)
    as (out & E & _ & _ & B & _).
  exists out. split; [exact E |]. split; [rewrite B; reflexivity |].
  injection E as <-. reflexivity.
Defined.

Lemma Math_max_list_nonneg (xs : list Z) : (0 <= Math_max_list xs)%Z.
Proof. unfold Math_max_list. induction xs as [| x xs IH]; cbn [fold_right]; lia. Qed.

Lemma Math_max_list_bound (xs : list Z) (x : Z) :
  In x xs -> (x <= Math_max_list xs)%Z.
Proof.
  unfold Math_max_list. induction xs as [| y xs IH]; intros Hin; [destruct Hin |].
  cbn [fold_right]. destruct Hin as [-> | Hin]; [lia |]. apply IH in Hin. lia.
Qed.

Lemma Math_max_list_snoc (xs : list Z) (x : Z) :
  Math_max_list (xs ++ [x]) = Z.max (Math_max_list xs) (Z.max x 0).
Proof.
  unfold Math_max_list. induction xs as [| y xs IH]; cbn [app fold_right]; [lia |].
  rewrite IH. lia.
Qed.

End Payments.

(** ** What the operations keep of the store *)

Section StoreInvariants.

(** The ledger after one operation: as it was, or with one entry more, whose
    id is the next one. *)
Lemma apply_op_ledger op s :
  st_ledger (apply_op op s) = st_ledger s \/
  exists e, st_ledger (apply_op op s) = st_ledger s ++ [e] /\
            le_id e = next_ledger_id (st_ledger s).
Proof.
  destruct op; cbn [apply_op].
  - destruct (performStockIn now (st_products s) params); left; reflexivity.
  - destruct (stockIn now input (database_of s)) as [e | [db r]]; left; reflexivity.
  - left; reflexivity.
  - unfold createKhataSale.
    destruct (find_customer (kp_customerId params) (st_customers s)) as [customer |];
      [right; eexists; split; reflexivity | left; reflexivity].
  - unfold recordKhataPayment.
    destruct (find_customer customerId (st_customers s)) as [customer |];
      [right; eexists; split; reflexivity | left; reflexivity].
  - left; reflexivity.
  - destruct (stockOut now input (database_of s)) as [e | [db r]]; left; reflexivity.
Qed.

(** Below 2^53 a whole number is a double. *)
Lemma nearest_double_exact (n : Z) : Z.abs n < 2 ^ 53 -> nearest_double n = n.
Proof.
  intros H. unfold nearest_double. cbn zeta.
  destruct (Z.ltb_spec (Z.abs n) (2 ^ 53)); [reflexivity | lia].
Qed.

(** While the ids are below 2^53, the id given to a new entry is one more
    than the largest id so far. *)
Lemma next_ledger_id_exact (ledger : list LedgerEntry) :
  Math_max_list (List.map le_id ledger) + 1 < 2 ^ 53 ->
  next_ledger_id ledger = Math_max_list (List.map le_id ledger) + 1.
Proof.
  intros H. unfold next_ledger_id. apply nearest_double_exact.
  pose proof (Math_max_list_nonneg (List.map le_id ledger)). lia.
Qed.

Lemma next_ledger_id_fresh (ledger : list LedgerEntry) (e : LedgerEntry) :
  Math_max_list (List.map le_id ledger) + 1 < 2 ^ 53 ->
  In e ledger -> le_id e < next_ledger_id ledger.
Proof.
  intros Hsafe Hin. rewrite next_ledger_id_exact by exact Hsafe.
  pose proof (Math_max_list_bound (List.map le_id ledger) (le_id e)
                (List.in_map le_id _ _ Hin)).
  lia.
Qed.

(** Past that range the sum is rounded, and the id given is not new: after an
    entry of id 2^53 the next id is 2^53 again. *)
Example next_ledger_id_past_2_53 :
  next_ledger_id [Sample.entry (2 ^ 53) 3 5 100] = 2 ^ 53.
Proof. reflexivity. Qed.

(** One operation raises the largest id of the ledger by one at most. *)
Lemma apply_op_largest_id op s :
  Math_max_list (List.map le_id (st_ledger s)) + 1 < 2 ^ 53 ->
  Math_max_list (List.map le_id (st_ledger (apply_op op s)))
  <= Math_max_list (List.map le_id (st_ledger s)) + 1.
Proof.
  intros Hsafe.
  pose proof (Math_max_list_nonneg (List.map le_id (st_ledger s))).
  destruct (apply_op_ledger op s) as [-> | (e & -> & Hid)]; [lia |].
  rewrite List.map_app. cbn [List.map]. rewrite Math_max_list_snoc, Hid.
  rewrite next_ledger_id_exact by exact Hsafe. lia.
Qed.

(** X13.  Ledger entry ids stay distinct while they stay below 2^53, the
    range in which [Math.max(...ids, 0) + 1] is exact: from a ledger whose ids
    are distinct and whose largest id leaves room for one id per operation
    below 2^53, any sequence of operations leaves a ledger whose ids are
    distinct, every entry a credit sale or a payment adds having an id larger
    than all the ids before it. *)
Theorem ledger_ids_stay_distinct ops s :
  NoDup (List.map le_id (st_ledger s)) ->
  Math_max_list (List.map le_id (st_ledger s)) + Z.of_nat (length ops) < 2 ^ 53 ->
  NoDup (List.map le_id (st_ledger (run ops s))).
Proof.
  unfold run. revert s. induction ops as [| op ops IH]; intros s Hnd Hsafe; [exact Hnd |].
  cbn [fold_left]. cbn [length] in Hsafe.
  assert (Hone : Math_max_list (List.map le_id (st_ledger s)) + 1 < 2 ^ 53) by lia.
  pose proof (apply_op_largest_id op s Hone) as Hmax.
  apply IH; [| lia].
  destruct (apply_op_ledger op s) as [-> | (e & -> & Hid)]; [exact Hnd |].
  rewrite List.map_app. cbn [List.map]. apply NoDup_app.
  split; [exact Hnd |]. split; [| apply NoDup_singleton].
  intros x Hx Hxe. apply list_elem_of_singleton in Hxe. subst x.
  apply list_elem_of_In, List.in_map_iff in Hx as [e' [He' Hin]].
  pose proof (next_ledger_id_fresh _ _ Hone Hin). lia.
Qed.

Lemma ledger_ids_stay_distinct_witness :
  NoDup (List.map le_id (st_ledger (run Sample.busy_day (Sample.shop 0 0)))).
Proof.
  apply ledger_ids_stay_distinct.
  - cbn. apply NoDup_nil_2.
  - reflexivity.
Defined.

(** The movements after one operation: as they were, or with one more. *)
Lemma apply_op_movements op s :
  st_movements (apply_op op s) = st_movements s \/
  exists m, st_movements (apply_op op s) = st_movements s ++ [m].
Proof.
  destruct op; cbn [apply_op]; try (left; reflexivity).
  - destruct (performStockIn now (st_products s) params);
      [left; reflexivity | right; eexists; reflexivity].
  - unfold stockIn, getProductById, database_of. cbn [tbl_products tbl_stock_movements].
    destruct (find_product (sii_product_id input) (st_products s)) as [product |];
      [right; eexists; reflexivity | left; reflexivity].
  - destruct (createKhataSale now invoiceNumber params (st_products s)
                (st_customers s) (st_ledger s)); left; reflexivity.
  - destruct (recordKhataPayment now customerId amount userId (st_customers s)
                (st_ledger s) description); left; reflexivity.
  - unfold stockOut, getProductById, database_of. cbn [tbl_products tbl_stock_movements].
    destruct (find_product (soi_product_id input) (st_products s)) as [product |];
      [| left; reflexivity].
    destruct (p_quantity product <? soi_quantity input);
      [left; reflexivity | right; eexists; reflexivity].
Qed.

Lemma update_quantities_ids now items products :
  List.map p_id (update_quantities now items products) = List.map p_id products.
Proof.
  unfold update_quantities. rewrite List.map_map. apply List.map_ext. intros p.
  destruct (find_sold_item items p); reflexivity.
Qed.

Lemma set_balance_ids now id b customers :
  List.map c_id (set_balance now id b customers) = List.map c_id customers.
Proof.
  unfold set_balance. rewrite List.map_map. apply List.map_ext. intros c.
  destruct (negb (c_id c =? id)); reflexivity.
Qed.

Lemma apply_op_ids op s :
  List.map p_id (st_products (apply_op op s)) = List.map p_id (st_products s) /\
  List.map c_id (st_customers (apply_op op s)) = List.map c_id (st_customers s).
Proof.
  destruct op; cbn [apply_op].
  - unfold performStockIn.
    destruct (find_product (sip_productId params) (st_products s)) as [product |] eqn:F;
      [| split; reflexivity].
    cbn [st_products st_customers sio_updatedProducts]. split; [| reflexivity].
    apply find_product_some in F as [_ Hid].
    rewrite List.map_map. apply List.map_ext. intros p.
    destruct (Z.eqb_spec (p_id p) (sip_productId params)); [cbn; congruence | reflexivity].
  - unfold stockIn, getProductById, database_of. cbn [tbl_products].
    destruct (find_product (sii_product_id input) (st_products s)) as [product |];
      [| split; reflexivity].
    cbn [with_database st_products st_customers tbl_products]. split; [| reflexivity].
    unfold update_stock_in. rewrite List.map_map. apply List.map_ext. intros p.
    destruct (p_id p =? sii_product_id input); reflexivity.
  - cbn [st_products st_customers createCashSale cso_updatedProducts].
    split; [apply update_quantities_ids | reflexivity].
  - unfold createKhataSale.
    destruct (find_customer (kp_customerId params) (st_customers s)) as [customer |];
      [| split; reflexivity].
    cbn [st_products st_customers kso_updatedProducts kso_updatedCustomers].
    split; [apply update_quantities_ids | apply set_balance_ids].
  - unfold recordKhataPayment.
    destruct (find_customer customerId (st_customers s)) as [customer |]; [| split; reflexivity].
    cbn [st_products st_customers po_updatedCustomers].
    split; [reflexivity | apply set_balance_ids].
  - cbn [st_products st_customers]. split; [| reflexivity].
    unfold reduceStock. rewrite List.map_map. apply List.map_ext. intros p.
    destruct (negb (p_id p =? productId)); reflexivity.
  - unfold stockOut, getProductById, database_of. cbn [tbl_products].
    destruct (find_product (soi_product_id input) (st_products s)) as [product |];
      [| split; reflexivity].
    destruct (p_quantity product <? soi_quantity input); [split; reflexivity |].
    cbn [with_database st_products st_customers tbl_products]. split; [| reflexivity].
    unfold update_quantity. rewrite List.map_map. apply List.map_ext. intros p.
    destruct (p_id p =? soi_product_id input); reflexivity.
Qed.

(** X14.  No operation creates, removes or reorders a product or a customer:
    after any sequence of operations the array of products has the same ids
    in the same places, and so has the array of customers. *)
Theorem products_and_customers_keep_their_ids ops s :
  List.map p_id (st_products (run ops s)) = List.map p_id (st_products s) /\
  List.map c_id (st_customers (run ops s)) = List.map c_id (st_customers s).
Proof.
  unfold run. revert s. induction ops as [| op ops IH]; intros s; [split; reflexivity |].
  cbn [fold_left]. destruct (IH (apply_op op s)) as [P C].
  destruct (apply_op_ids op s) as [P1 C1]. split; congruence.
Qed.




End StoreInvariants.

(** ** The repository: receipts, stock outs and their movements *)

Section RepositoryTrail.

Local Open Scope Z_scope.

(** Updating the rows of another id leaves a lookup as it was. *)
Lemma find_product_other (id other : Z) (g : Product -> Product) (rows : list Product) :
  other <> id ->
  (forall x, p_id x = other -> p_id (g x) = other) ->
  find_product id (List.map (fun x => if p_id x =? other then g x else x) rows)
  = find_product id rows.
Proof.
  intros NE Hg. unfold find_product.
  induction rows as [| x rows IH]; [reflexivity |].
  cbn [List.map List.find]. destruct (Z.eqb_spec (p_id x) other) as [E | NE'].
  - rewrite (Hg x E). destruct (Z.eqb_spec other id); [contradiction |].
    rewrite E. destruct (Z.eqb_spec other id); [contradiction | exact IH].
  - now rewrite IH.
Qed.

Lemma movement_total_snoc (id : Z) (movements : list StockMovement) (m : StockMovement) :
  movement_total id (movements ++ [m])
  = movement_total id movements + (if sm_product_id m =? id then sm_quantity m else 0).
Proof.
  unfold movement_total. induction movements as [| x l IH]; cbn [app fold_right]; [lia |].
  rewrite IH. lia.
Qed.

(** What the repository's [stockIn] does when the product is found. *)
Lemma stockIn_ok now input db product :
  getProductById (sii_product_id input) db = Some product ->
  exists db' r row m,
    stockIn now input db = inr (db', r) /\
    getProductById (sii_product_id input) db' = Some row /\
    rr_product r = Some row /\
    p_quantity row = p_quantity product + sii_quantity input /\
    p_wac_cost row = calculateWAC (p_quantity product) (p_wac_cost product)
                                  (sii_quantity input) (sii_unit_cost input) /\
    p_cost_price row = sii_unit_cost input /\
    p_is_active row = p_is_active product /\
    tbl_stock_movements db' = tbl_stock_movements db ++ [m] /\
    sm_product_id m = sii_product_id input /\
    sm_quantity m = sii_quantity input /\
    sm_type m = mv_purchase /\
    (forall other, other <> sii_product_id input ->
       getProductById other db' = getProductById other db).
Proof.
  intros Hfind. unfold getProductById in Hfind.
  pose proof (find_product_some _ _ _ Hfind) as [_ Hid].
  unfold stockIn, getProductById. rewrite Hfind. cbn [tbl_products].
  eexists _, _, _, _. split; [reflexivity |].
  cbn [tbl_products tbl_stock_movements rr_product].
  unfold update_stock_in.
  split.
  { lazymatch goal with
    | |- context [List.map (fun p => if p_id p =? _ then @?g p else p) _] =>
        exact (find_product_updated _ g _ _ Hfind Hid)
    end. }
  split.
  { lazymatch goal with
    | |- context [List.map (fun p => if p_id p =? _ then @?g p else p) _] =>
        exact (find_product_updated _ g _ _ Hfind Hid)
    end. }
  cbn [p_quantity p_wac_cost p_cost_price p_is_active].
  repeat (split; [reflexivity |]).
  intros other NE. apply find_product_other; [congruence |].
  intros x Hx. exact Hx.
Qed.

(** What [stockOut] does when the product is found and has the quantity. *)
Lemma stockOut_ok now input db product :
  getProductById (soi_product_id input) db = Some product ->
  soi_quantity input <= p_quantity product ->
  exists db' r row m,
    stockOut now input db = inr (db', r) /\
    getProductById (soi_product_id input) db' = Some row /\
    rr_product r = Some row /\
    p_quantity row = p_quantity product - soi_quantity input /\
    p_wac_cost row = p_wac_cost product /\
    p_cost_price row = p_cost_price product /\
    p_is_active row = p_is_active product /\
    tbl_stock_movements db' = tbl_stock_movements db ++ [m] /\
    sm_product_id m = soi_product_id input /\
    sm_quantity m = - soi_quantity input /\
    sm_unit_cost m = Some (p_wac_cost product) /\
    (forall other, other <> soi_product_id input ->
       getProductById other db' = getProductById other db).
Proof.
  intros Hfind Hle. unfold getProductById in Hfind.
  pose proof (find_product_some _ _ _ Hfind) as [_ Hid].
  unfold stockOut, getProductById. rewrite Hfind. cbn [tbl_products].
  destruct (Z.ltb_spec (p_quantity product) (soi_quantity input)); [lia |].
  eexists _, _, _, _. split; [reflexivity |].
  cbn [tbl_products tbl_stock_movements rr_product].
  unfold update_quantity.
  split.
  { lazymatch goal with
    | |- context [List.map (fun p => if p_id p =? _ then @?g p else p) _] =>
        exact (find_product_updated _ g _ _ Hfind Hid)
    end. }
  split.
  { lazymatch goal with
    | |- context [List.map (fun p => if p_id p =? _ then @?g p else p) _] =>
        exact (find_product_updated _ g _ _ Hfind Hid)
    end. }
  cbn [p_quantity p_wac_cost p_cost_price p_is_active].
  repeat (split; [reflexivity |]).
  intros other NE. apply find_product_other; [congruence |].
  intros x Hx. exact Hx.
Qed.

(** X16.  A receipt followed by a stock out of the same quantity, through the
    repository, on a product whose stock is not negative: both go through,
    the quantity is back to what it was, two movements are added, of the
    quantity and of its opposite, and the weighted-average cost stays the one
    the receipt computed (the stock out, which records it as its unit cost,
    does not bring the earlier cost back). *)
Theorem stockIn_then_stockOut_round_trip now1 now2 input output db product :
  getProductById (sii_product_id input) db = Some product ->
  0 <= p_quantity product ->
  soi_product_id output = sii_product_id input ->
  soi_quantity output = sii_quantity input ->
  exists db1 r1 db2 r2 row m1 m2,
    stockIn now1 input db = inr (db1, r1) /\
    stockOut now2 output db1 = inr (db2, r2) /\
    getProductById (sii_product_id input) db2 = Some row /\
    rr_product r2 = Some row /\
    p_quantity row = p_quantity product /\
    p_wac_cost row = calculateWAC (p_quantity product) (p_wac_cost product)
                                  (sii_quantity input) (sii_unit_cost input) /\
    p_cost_price row = sii_unit_cost input /\
    tbl_stock_movements db2 = tbl_stock_movements db ++ [m1; m2] /\
    sm_quantity m1 = sii_quantity input /\
    sm_quantity m2 = - sii_quantity input /\
    sm_type m1 = mv_purchase /\
    sm_unit_cost m2 = Some (p_wac_cost row).
Proof.
  intros Hfind Hq Eid Eq.
  destruct (stockIn_ok now1 input db product Hfind)
    as (db1 & r1 & row1 & m1 & E1 & F1 & _ & Q1 & W1 & C1 & _ & M1 & _ & MQ1 & MT1 & _).
  rewrite <- Eid in F1.
  destruct (stockOut_ok now2 output db1 row1 F1 ltac:(lia))
    as (db2 & r2 & row2 & m2 & E2 & F2 & R2 & Q2 & W2 & C2 & _ & M2 & _ & MQ2 & MU2 & _).
  exists db1, r1, db2, r2, row2, m1, m2.
  rewrite Eid in F2.
  split; [exact E1 |]. split; [exact E2 |]. split; [exact F2 |]. split; [exact R2 |].
  split; [lia |]. split; [congruence |]. split; [congruence |].
  split; [rewrite M2, M1, <- List.app_assoc; reflexivity |].
  split; [exact MQ1 |]. split; [lia |]. split; [exact MT1 |]. congruence.
Qed.

Lemma stockIn_then_stockOut_round_trip_witness :
  exists db2 row,
    getProductById 7 db2 = Some row /\
    p_quantity row = 10 /\
    (p_wac_cost row == 110)%Q /\
    length (tbl_stock_movements db2) = 2%nat.
Proof.
  destruct (stockIn_then_stockOut_round_trip 1 2 (MoreSample.stock_in 7 10 120)
              (Sample.stock_out 7 10) (MoreSample.table [Sample.product_with 7 10 100])
              (Sample.product_with 7 10 100) eq_refl ltac:(simpl; lia) eq_refl eq_refl)
    as (db1 & r1 & db2 & r2 & row & m1 & m2 & _ & _ & F & _ & Q & W & _ & M & _).
  exists db2, row. split; [exact F |]. split; [exact Q |].
  split; [rewrite W; reflexivity | rewrite M; reflexivity].
Defined.

(** The quantity of a product and the movements recorded for it, over one
    operation that comes with a movement. *)
Lemma apply_op_trail op s id p :
  is_stock_movement_op op = true ->
  find_product id (st_products s) = Some p ->
  exists p',
    find_product id (st_products (apply_op op s)) = Some p' /\
    p_quantity p' - p_quantity p
    = movement_total id (st_movements (apply_op op s))
      - movement_total id (st_movements s).
Proof.
  intros Hop Hfind. destruct op; try discriminate; cbn [apply_op].
  - unfold performStockIn.
    destruct (find_product (sip_productId params) (st_products s)) as [product |] eqn:F;
      [| exists p; split; [exact Hfind | lia]].
    cbn [st_products st_movements sio_updatedProducts sio_result sir_stockMovement].
    pose proof (find_product_some _ _ _ F) as [_ Hid].
    rewrite movement_total_snoc. cbn [sm_product_id sm_quantity].
    destruct (Z.eqb_spec (sip_productId params) id) as [E | NE].
    + subst id. rewrite F in Hfind. injection Hfind as <-.
      eexists. split.
      * apply (find_product_updated _ (fun _ => _) _ _ F). exact Hid.
      * cbn [p_quantity]. lia.
    + exists p. split; [| lia].
      rewrite (find_product_other id (sip_productId params) (fun _ => _));
        [exact Hfind | exact NE | intros x _; exact Hid].
  - destruct (getProductById (sii_product_id input) (database_of s))
      as [product |] eqn:F.
    + destruct (stockIn_ok now input (database_of s) product F)
        as (db' & r & row & m & E & F' & _ & Q & _ & _ & _ & M & MP & MQ & _ & Hother).
      rewrite E. cbn [with_database st_products st_movements].
      rewrite M. cbn [database_of tbl_stock_movements]. rewrite movement_total_snoc.
      rewrite MP, MQ.
      destruct (Z.eqb_spec (sii_product_id input) id) as [Eid | NE].
      * subst id. unfold getProductById in F. cbn [database_of tbl_products] in F.
        rewrite F in Hfind. injection Hfind as <-.
        exists row. split; [exact F' | lia].
      * exists p. split; [| lia].
        specialize (Hother id ltac:(congruence)). unfold getProductById in Hother.
        cbn [database_of tbl_products] in Hother. now rewrite Hother.
    + unfold stockIn. rewrite F. exists p. split; [exact Hfind | lia].
  - destruct (getProductById (soi_product_id input) (database_of s))
      as [product |] eqn:F.
    + destruct (Z.lt_ge_cases (p_quantity product) (soi_quantity input)) as [Hlt | Hge].
      * rewrite (stockOut_insufficient now input (database_of s) product F Hlt).
        exists p. split; [exact Hfind | lia].
      * destruct (stockOut_ok now input (database_of s) product F ltac:(lia))
          as (db' & r & row & m & E & F' & _ & Q & _ & _ & _ & M & MP & MQ & _ & Hother).
        rewrite E. cbn [with_database st_products st_movements].
        rewrite M. cbn [database_of tbl_stock_movements]. rewrite movement_total_snoc.
        rewrite MP, MQ.
        destruct (Z.eqb_spec (soi_product_id input) id) as [Eid | NE].
        -- subst id. unfold getProductById in F. cbn [database_of tbl_products] in F.
           rewrite F in Hfind. injection Hfind as <-.
           exists row. split; [exact F' | lia].
        -- exists p. split; [| lia].
           specialize (Hother id ltac:(congruence)). unfold getProductById in Hother.
           cbn [database_of tbl_products] in Hother. now rewrite Hother.
    + unfold stockOut. rewrite F. exists p. split; [exact Hfind | lia].
Qed.

(** X17.  The movements account for the stock.  Over any sequence of receipts
    (in memory or through the repository) and stock outs, the quantity of the
    product a lookup of an id finds changes by exactly the sum of the signed
    quantities of the movements added for that id. *)
Theorem movements_account_for_stock ops s id p :
  Forall (fun op => is_stock_movement_op op = true) ops ->
  find_product id (st_products s) = Some p ->
  exists p',
    find_product id (st_products (run ops s)) = Some p' /\
    p_quantity p' - p_quantity p
    = movement_total id (st_movements (run ops s))
      - movement_total id (st_movements s).
Proof.
  unfold run. revert s p. induction ops as [| op ops IH]; intros s p Hops Hfind.
  - exists p. split; [exact Hfind | cbn [fold_left]; lia].
  - cbn [fold_left]. apply Forall_cons in Hops as [Hop Hops].
    destruct (apply_op_trail op s id p Hop Hfind) as (p1 & F1 & Q1).
    destruct (IH (apply_op op s) p1 Hops F1) as (p' & F' & Q').
    exists p'. split; [exact F' | lia].
Qed.

Lemma movements_account_for_stock_witness :
  exists p',
    find_product 7
      (st_products (run [OpStockIn 1 (Sample.receipt 7 10 100);
                         OpStockOut 5 (Sample.stock_out 7 4);
                         OpStockOut 6 (Sample.stock_out 7 40)] (Sample.shop 2 0)))
    = Some p' /\
    p_quantity p' - 2 = 10 + - 4.
Proof.
  destruct (movements_account_for_stock
              [OpStockIn 1 (Sample.receipt 7 10 100);
               OpStockOut 5 (Sample.stock_out 7 4);
               OpStockOut 6 (Sample.stock_out 7 40)] (Sample.shop 2 0) 7
              (Sample.product_with 7 2 30) ltac:(repeat constructor) eq_refl)
    as (p' & F & Q).
  exists p'. split; [exact F | exact Q].
Defined.

End RepositoryTrail.

(** ** Soft delete *)

Section SoftDelete.

Lemma existsb_find_product (id : Z) (rows : list Product) :
  existsb (fun p => p_id p =? id) rows = true <-> exists p, find_product id rows = Some p.
Proof.
  unfold find_product. induction rows as [| x rows IH]; cbn [existsb List.find].
  - split; [discriminate | intros [p H]; discriminate].
  - destruct (p_id x =? id); cbn [orb]; [split; eauto | exact IH].
Qed.

(** X18.  [deleteProduct] is a soft delete.  It reports a change exactly when
    a row has the id; the row stays in the table, found by its id with the
    same quantity and costs but inactive, the other ids and the stock
    movements are untouched; and the repository's [stockIn] still goes through
    on the deactivated product, nothing in it looking at [is_active]. *)
Theorem deleteProduct_keeps_the_row now id db :
  (snd (deleteProduct now id db) = true <-> exists p, getProductById id db = Some p) /\
  tbl_stock_movements (fst (deleteProduct now id db)) = tbl_stock_movements db /\
  (forall other, other <> id ->
     getProductById other (fst (deleteProduct now id db)) = getProductById other db) /\
  (forall product, getProductById id db = Some product ->
     exists row,
       getProductById id (fst (deleteProduct now id db)) = Some row /\
       p_is_active row = false /\
       p_quantity row = p_quantity product /\
       p_wac_cost row = p_wac_cost product /\
       p_cost_price row = p_cost_price product /\
       forall now' input, sii_product_id input = id ->
         exists db' r row',
           stockIn now' input (fst (deleteProduct now id db)) = inr (db', r) /\
           getProductById id db' = Some row' /\
           p_quantity row' = p_quantity product + sii_quantity input /\
           p_is_active row' = false).
Proof.
  unfold deleteProduct, getProductById. cbn [fst snd tbl_products tbl_stock_movements].
  split; [apply existsb_find_product |]. split; [reflexivity |]. split.
  - intros other NE. apply find_product_other; [congruence |]. intros x Hx. exact Hx.
  - intros product Hfind. pose proof (find_product_some _ _ _ Hfind) as [_ Hid].
    eexists. split.
    { lazymatch goal with
      | |- context [List.map (fun p => if p_id p =? _ then @?g p else p) _] =>
          exact (find_product_updated _ g _ _ Hfind Hid)
      end. }
    cbn [p_is_active p_quantity p_wac_cost p_cost_price].
    repeat (split; [reflexivity |]).
    intros now' input Ein.
    lazymatch goal with
    | |- context [List.map (fun p => if p_id p =? _ then @?g p else p) ?rows] =>
        pose proof (find_product_updated id g rows product Hfind Hid) as F;
        cbn beta in F
    end.
    rewrite <- Ein in F at 1.
    destruct (stockIn_ok now' input (mkDatabase _ (tbl_stock_movements db)) _ F)
      as (db' & r & row' & m & E & F' & _ & Q & _ & _ & A & _).
    exists db', r, row'.
    split; [exact E |]. split; [rewrite <- Ein; exact F' |]. split; [exact Q | exact A].
Qed.

Lemma deleteProduct_keeps_the_row_witness :
  exists row,
    getProductById 7 (fst (deleteProduct 9 7 (MoreSample.table [Sample.product_with 7 5 30])))
    = Some row /\
    p_is_active row = false /\ p_quantity row = 5.
Proof.
  destruct (proj2 (proj2 (proj2 (deleteProduct_keeps_the_row 9 7
              (MoreSample.table [Sample.product_with 7 5 30]))))
              (Sample.product_with 7 5 30) eq_refl)
    as (row & F & A & Q & _).
  exists row. split; [exact F |]. split; [exact A | exact Q].
Defined.

End SoftDelete.

(** ** Balances and summaries *)

Section BalancesAndSummaries.

Local Open Scope Q_scope.

(** X19.  [getOutstandingBalances] lists exactly the active customers whose
    credit balance is above 0, one entry each, by descending amount owed; a
    customer who owes nothing or has overpaid (a negative balance) is never
    listed.  The remaining credit of an entry is the limit less the amount
    owed, and is negative when the balance is above the limit. *)
Theorem getOutstandingBalances_positive_descending (customers : list Customer) :
  Permutation (List.map cb_customerId (getOutstandingBalances customers))
    (List.map c_id
       (List.filter (fun c => c_is_active c && negb (Qle_bool (c_credit_balance c) 0))
                    customers)) /\
  StronglySorted (fun a b => cb_amountOwed b <= cb_amountOwed a)
                 (getOutstandingBalances customers) /\
  (forall e, In e (getOutstandingBalances customers) ->
     0 < cb_amountOwed e /\
     cb_remainingCredit e = cb_creditLimit e - cb_amountOwed e /\
     (cb_creditLimit e < cb_amountOwed e -> cb_remainingCredit e < 0) /\
     exists c, In c customers /\ c_is_active c = true /\ c_id c = cb_customerId e /\
               c_credit_balance c = cb_amountOwed e /\
               c_credit_limit c = cb_creditLimit e) /\
  (forall c, In c customers -> c_is_active c = true -> 0 < c_credit_balance c ->
     exists e, In e (getOutstandingBalances customers) /\
               cb_customerId e = c_id c /\ cb_amountOwed e = c_credit_balance c).
Proof.
  unfold getOutstandingBalances, js_sortQ.
  set (owing := List.filter _ customers).
  set (entry := fun c : Customer => mkCustomerBalanceEntry _ _ _ _ _ _).
  set (gb := fun a b : CustomerBalanceEntry =>
               Qle_bool (cb_amountOwed b - cb_amountOwed a) 0).
  pose proof (sort_by_perm gb (List.map entry owing)) as P.
  assert (Hgb : forall a b, gb a b = true <-> cb_amountOwed b <= cb_amountOwed a).
  { intros a b. unfold gb. rewrite Qle_bool_iff. split; intros; lra. }
  assert (Howing : forall c, In c owing <->
            In c customers /\ c_is_active c = true /\ 0 < c_credit_balance c).
  { intros c. unfold owing. rewrite List.filter_In, andb_true_iff, negb_true_iff.
    assert (Qle_bool (c_credit_balance c) 0 = false <-> 0 < c_credit_balance c).
    { split.
      - intros B. apply Qnot_le_lt. intros H. apply Qle_bool_iff in H. congruence.
      - intros H. apply not_true_is_false. intros B. apply Qle_bool_iff in B. lra. }
    tauto. }
  split; [| split; [| split]].
  - rewrite P, List.map_map. reflexivity.
  - eapply StronglySorted_impl; [intros a b H; apply Hgb; exact H |].
    apply sort_by_sorted.
    + intros a b H. apply Hgb.
      assert (~ cb_amountOwed b <= cb_amountOwed a)
        by (intros L; apply Hgb in L; congruence).
      lra.
    + intros a b c H1 H2. apply Hgb in H1. apply Hgb in H2. apply Hgb. lra.
  - intros e Hin. rewrite P in Hin. apply List.in_map_iff in Hin as [c [<- Hc]].
    apply Howing in Hc as (Hin & Hact & Hpos).
    cbn [entry cb_amountOwed cb_remainingCredit cb_creditLimit cb_customerId].
    split; [exact Hpos |]. split; [reflexivity |]. split; [intros; lra |].
    exists c. repeat split; assumption || reflexivity.
  - intros c Hin Hact Hpos. exists (entry c). split; [| split; reflexivity].
    rewrite P. apply List.in_map, Howing. repeat split; assumption.
Qed.

Lemma filter_filter_comm {A} (f g : A -> bool) (l : list A) :
  List.filter f (List.filter g l) = List.filter g (List.filter f l).
Proof.
  induction l as [| x l IH]; [reflexivity |]. cbn [List.filter].
  destruct (f x) eqn:Ef, (g x) eqn:Eg; cbn [List.filter];
    rewrite ?Ef, ?Eg, IH; reflexivity.
Qed.

Lemma filter_filter_implied {A} (f g : A -> bool) (l : list A) :
  (forall x, f x = true -> g x = true) ->
  List.filter f (List.filter g l) = List.filter f l.
Proof.
  intros Himp. induction l as [| x l IH]; [reflexivity |]. cbn [List.filter].
  destruct (g x) eqn:Eg; cbn [List.filter].
  - now rewrite IH.
  - destruct (f x) eqn:Ef; [| exact IH]. apply Himp in Ef. congruence.
Qed.

(** Selecting the sales of a report and keeping those that pass a test can
    be done in either order. *)
Lemma filter_sales_filter (f : Sale -> bool) (sales : list Sale)
    (dateRange : option DateRange) :
  List.filter f (filter_sales sales dateRange)
  = filter_sales (List.filter f sales) dateRange.
Proof.
  unfold filter_sales. destruct dateRange as [r |].
  - rewrite (filter_filter_comm f (in_range r)). f_equal. apply filter_filter_comm.
  - apply filter_filter_comm.
Qed.

(** X20.  The figures of [getDailySalesSummary] by payment method.  The
    number of transactions is the number of completed sales in the range.
    Each of the cash, credit and card figures is the total the summary gives
    for the sales of that method alone.  Sales paid 'mixed' enter none of the
    three: leaving them out of the sales changes no figure by method, while
    the number of transactions counts them. *)
Theorem getDailySalesSummary_by_method (sales : list Sale) (dateRange : option DateRange) :
  let summary := getDailySalesSummary sales dateRange in
  let of_method m := getDailySalesSummary (List.filter (is_method m) sales) dateRange in
  let unmixed :=
    getDailySalesSummary (List.filter (fun s => negb (is_method pm_mixed s)) sales)
                         dateRange in
  ss_transactionCount summary = length (filter_sales sales dateRange) /\
  ss_cashSales summary = ss_totalSales (of_method pm_cash) /\
  ss_creditSales summary = ss_totalSales (of_method pm_credit) /\
  ss_cardSales summary = ss_totalSales (of_method pm_card) /\
  ss_cashSales unmixed = ss_cashSales summary /\
  ss_creditSales unmixed = ss_creditSales summary /\
  ss_cardSales unmixed = ss_cardSales summary /\
  ss_transactionCount summary
  = (ss_transactionCount unmixed + ss_transactionCount (of_method pm_mixed))%nat.
Proof.
  cbn zeta.
  cbn [getDailySalesSummary ss_totalSales ss_cashSales ss_creditSales ss_cardSales
       ss_transactionCount].
  split; [reflexivity |].
  rewrite <- !filter_sales_filter.
  split; [reflexivity |]. split; [reflexivity |]. split; [reflexivity |].
  assert (Hkeep : forall m, m <> pm_mixed ->
            List.filter (is_method m)
              (List.filter (fun s => negb (is_method pm_mixed s))
                           (filter_sales sales dateRange))
            = List.filter (is_method m) (filter_sales sales dateRange)).
  { intros m Hm. apply filter_filter_implied. intros s. unfold is_method.
    destruct m, (s_payment_method s); congruence || reflexivity. }
  rewrite !Hkeep by discriminate.
  split; [reflexivity |]. split; [reflexivity |]. split; [reflexivity |].
  rewrite <- (List.filter_length (is_method pm_mixed) (filter_sales sales dateRange)).
  lia.
Qed.

End BalancesAndSummaries.

(** ** Profit by product *)

Section ProductProfit.

Local Open Scope Q_scope.

Lemma map_get_in {V} (k : Z) (m : list (Z * V)) (v : V) :
  map_get k m = Some v -> In (k, v) m.
Proof.
  induction m as [| [k' v'] m IH]; cbn [map_get]; [discriminate |].
  destruct (Z.eqb_spec k' k) as [-> | NE].
  - intros [= ->]. now left.
  - intros H. right. now apply IH.
Qed.

Lemma map_set_keys {V} (k : Z) (v : V) (m : list (Z * V)) :
  List.map fst (map_set k v m) = List.map fst m \/
  (~ In k (List.map fst m) /\ List.map fst (map_set k v m) = List.map fst m ++ [k]).
Proof.
  induction m as [| [k' v'] m IH]; cbn [map_set List.map fst app].
  - right. split; [intros [] | reflexivity].
  - destruct (Z.eqb_spec k' k) as [-> | NE]; [left; reflexivity |].
    cbn [List.map fst]. destruct IH as [-> | [Hk ->]]; [left; reflexivity |].
    right. split; [intros [E | H]; [congruence | contradiction] | reflexivity].
Qed.

Lemma map_set_in {V} (k : Z) (v : V) (m : list (Z * V)) (k' : Z) (v' : V) :
  In (k', v') (map_set k v m) -> (k' = k /\ v' = v) \/ In (k', v') m.
Proof.
  induction m as [| [k0 v0] m IH]; cbn [map_set].
  - intros [[= <- <-] | []]. now left.
  - destruct (Z.eqb_spec k0 k) as [-> | NE].
    + intros [[= <- <-] | H]; [now left | right; now right].
    + intros [E | H]; [right; now left |].
      apply IH in H as [H | H]; [now left | right; now right].
Qed.

(** What holds of the statistics all along the [forEach]. *)
Local Abbreviation sound_stats products :=
  (fun stats : list (Z * ProductProfitEntry) =>
     NoDup (List.map fst stats) /\
     forall k e, In (k, e) stats ->
       pp_productId e = k /\
       exists p, find_product k products = Some p /\ pp_productName e = p_name p).

Lemma add_product_sale_sound products stats item :
  sound_stats products stats -> sound_stats products (add_product_sale products stats item).
Proof.
  intros [Hnd Hall]. unfold add_product_sale.
  destruct (find_product (si_product_id item) products) as [product |] eqn:F;
    [| split; assumption].
  pose proof (find_product_some _ _ _ F) as [Hin Hid].
  split.
  - lazymatch goal with
    | |- context [map_set ?k ?v stats] =>
        destruct (map_set_keys k v stats) as [E | [Hk E]]
    end;
      rewrite E; [exact Hnd |].
    apply NoDup_app. split; [exact Hnd |]. split; [| apply NoDup_singleton].
    intros x Hx Hxk. apply list_elem_of_singleton in Hxk. subst x.
    apply Hk. now apply list_elem_of_In.
  - intros k e Hke. apply map_set_in in Hke as [[-> ->] | Hke]; [| now apply Hall].
    cbn [pp_productId pp_productName].
    destruct (map_get (si_product_id item) stats) as [e0 |] eqn:G.
    + apply map_get_in in G. destruct (Hall _ _ G) as (Hk & Hex).
      split; [exact Hk | exact Hex].
    + cbn [pp_productId pp_productName].
      split; [exact Hid | eauto].
Qed.

Lemma fold_add_product_sale_sound products saleItems stats :
  sound_stats products stats ->
  sound_stats products (fold_left (add_product_sale products) saleItems stats).
Proof.
  revert stats. induction saleItems as [| item l IH]; intros stats H; [exact H |].
  cbn [fold_left]. apply IH. now apply add_product_sale_sound.
Qed.

Lemma StronglySorted_take {A} (R : A -> A -> Prop) (n : nat) (l : list A) :
  StronglySorted R l -> StronglySorted R (take n l).
Proof.
  intros H. revert n. induction H as [| x l Hs IH Hx]; intros [| n]; cbn [take];
    try constructor.
  - apply IH.
  - eapply Forall_take. exact Hx.
Qed.

Lemma js_slice0_take {A} (limit : Z) (l : list A) :
  exists n, js_slice0 limit l = take n l.
Proof. unfold js_slice0. destruct (limit <? 0)%Z; eauto. Qed.

Lemma js_slice0_length {A} (limit : Z) (l : list A) :
  (0 <= limit)%Z -> (length (js_slice0 limit l) <= Z.to_nat limit)%nat.
Proof.
  intros H. unfold js_slice0. destruct (Z.ltb_spec limit 0); [lia |].
  rewrite length_take. lia.
Qed.

(** A sale line of a product that is not in the array changes nothing. *)
Lemma add_product_sale_unknown products stats item :
  find_product (si_product_id item) products = None ->
  add_product_sale products stats item = stats.
Proof. intros F. unfold add_product_sale. now rewrite F. Qed.

(** X21.  [getProductProfitReport] gives at most [limit] entries (for a
    limit of zero or more), one per product id at most, by descending profit;
    each entry is for a product of the given array, whose name it carries,
    and its margin is 0 when its revenue is not positive; sale lines of
    products that are not in the array are left out. *)
Theorem getProductProfitReport_entries products saleItems limit :
  ((0 <= limit)%Z ->
   (length (getProductProfitReport products saleItems limit) <= Z.to_nat limit)%nat) /\
  NoDup (List.map pp_productId (getProductProfitReport products saleItems limit)) /\
  StronglySorted (fun a b => pp_profit b <= pp_profit a)
                 (getProductProfitReport products saleItems limit) /\
  (forall e, In e (getProductProfitReport products saleItems limit) ->
     (pp_revenue e <= 0 -> pp_profitMargin e = 0) /\
     exists p, find_product (pp_productId e) products = Some p /\
               pp_productName e = p_name p) /\
  getProductProfitReport products saleItems limit
  = getProductProfitReport products
      (List.filter (fun item => bool_decide (is_Some (find_product (si_product_id item)
                                                                   products)))
                   saleItems)
      limit.
Proof.
  unfold getProductProfitReport, js_sortQ, map_values.
  set (stats := fold_left (add_product_sale products) saleItems []).
  assert (Sound : sound_stats products stats).
  { apply fold_add_product_sale_sound. split; [apply NoDup_nil_2 | intros k e []]. }
  destruct Sound as [Hnd Hall].
  set (finish := fun entry : ProductProfitEntry => mkProductProfitEntry _ _ _ _ _ _ _ _).
  set (gb := fun a b : ProductProfitEntry => Qle_bool (pp_profit b - pp_profit a) 0).
  set (sorted := sort_by gb (List.map finish (List.map snd stats))).
  assert (Hgb : forall a b, gb a b = true <-> pp_profit b <= pp_profit a).
  { intros a b. unfold gb. rewrite Qle_bool_iff. split; intros; lra. }
  assert (P : Permutation sorted (List.map finish (List.map snd stats)))
    by apply sort_by_perm.
  assert (Hids : List.map pp_productId (List.map finish (List.map snd stats))
                 = List.map fst stats).
  { rewrite !List.map_map. apply List.map_ext_in. intros [k e] Hin.
    cbn [fst snd finish pp_productId]. now apply Hall. }
  split; [intros H; now apply js_slice0_length |].
  split.
  { destruct (js_slice0_take limit sorted) as [n ->].
    change (NoDup (pp_productId <$> take n sorted)). rewrite fmap_take.
    eapply sublist_NoDup; [| apply sublist_take].
    rewrite P. change (NoDup (List.map pp_productId
                                (List.map finish (List.map snd stats)))).
    now rewrite Hids. }
  split.
  { unfold js_slice0. destruct (limit <? 0)%Z; apply StronglySorted_take;
      (eapply StronglySorted_impl; [intros a b H; apply Hgb; exact H |];
       apply sort_by_sorted;
       [ intros a b H; apply Hgb;
         assert (~ pp_profit b <= pp_profit a) by (intros L; apply Hgb in L; congruence);
         lra
       | intros a b c H1 H2; apply Hgb in H1; apply Hgb in H2; apply Hgb; lra ]). }
  split.
  { intros e Hin.
    assert (Hs : In e sorted).
    { destruct (js_slice0_take limit sorted) as [n E]. rewrite E in Hin.
      apply list_elem_of_In. eapply elem_of_sublist; [| apply (sublist_take _ n)].
      now apply list_elem_of_In. }
    apply list_elem_of_In in Hs. rewrite P in Hs. apply list_elem_of_In in Hs.
    apply List.in_map_iff in Hs as [e0 [<- He0]].
    apply List.in_map_iff in He0 as [[k e1] [<- Hke]].
    destruct (Hall _ _ Hke) as (Hk & Hex).
    cbn [snd finish pp_revenue pp_profitMargin pp_productId pp_productName].
    split; [| now rewrite Hk].
    intros Hle. unfold margin_percent.
    destruct (Qlt_le_dec 0 (pp_revenue e1)); [lra | reflexivity]. }
  clear Hnd Hall P Hids. subst sorted stats.
  f_equal. f_equal. f_equal. f_equal.
  generalize (@nil (Z * ProductProfitEntry)).
  induction saleItems as [| item l IH]; intros acc; [reflexivity |].
  cbn [fold_left List.filter].
  destruct (find_product (si_product_id item) products) as [product |] eqn:F.
  - rewrite bool_decide_eq_true_2 by eauto. cbn [fold_left]. apply IH.
  - rewrite bool_decide_eq_false_2 by (intros [x Hx]; discriminate).
    rewrite (add_product_sale_unknown _ _ _ F). apply IH.
Qed.

End ProductProfit.

(** ** Editing a product *)

Section EditingAProduct.



(** An edit that gives a product the stock-keeping unit of another product
    is refused. *)
Example updateProduct_refuses_a_taken_sku :
  updateProduct 9 (MoreSample.edit 8 45 "RICE-001")
    (MoreSample.table [Sample.product_with 7 5 30;
                       MoreSample.relabel (Some "RICE-002"%string) (Sample.product_with 8 5 30)])
  = inl (UniqueConstraintFailed "products.sku").
Proof. reflexivity. Qed.

End EditingAProduct.

(** ** Failure of a credit sale *)

Section CreditSaleFailure.

Local Open Scope Q_scope.

(** X23.  [createKhataSale] fails in one case only, when no customer has the
    given id, and then nothing of the store is changed.  For an existing
    customer it goes through whatever the stock and the credit limit are: the
    products come out as from a cash sale of the same cart, and a sale that
    takes the balance above the limit leaves the customer above the limit. *)
Theorem createKhataSale_fails_only_when_customer_missing now invoiceNumber params s :
  (find_customer (kp_customerId params) (st_customers s) = None <->
   createKhataSale now invoiceNumber params (st_products s) (st_customers s)
                   (st_ledger s) = inl (CustomerNotFound (kp_customerId params))) /\
  (find_customer (kp_customerId params) (st_customers s) = None ->
   apply_op (OpKhataSale now invoiceNumber params) s = s) /\
  (forall customer,
     find_customer (kp_customerId params) (st_customers s) = Some customer ->
     exists out,
       createKhataSale now invoiceNumber params (st_products s) (st_customers s)
                       (st_ledger s) = inr out /\
       (forall cash, sp_items cash = kp_items params ->
          kso_updatedProducts out
          = cso_updatedProducts (createCashSale now invoiceNumber cash (st_products s))) /\
       (c_credit_limit customer
          < c_credit_balance customer + s_total (sr_sale (kso_sale out)) ->
        forall c, In c (kso_updatedCustomers out) -> c_id c = kp_customerId params ->
          c_credit_limit customer < c_credit_balance c)).
Proof.
  split; [| split].
  - unfold createKhataSale.
    destruct (find_customer (kp_customerId params) (st_customers s)); split; congruence.
  - intros F. cbn [apply_op]. unfold createKhataSale. now rewrite F.
  - intros customer F.
    destruct (createKhataSale_found now invoiceNumber params (st_products s)
                (st_customers s) (st_ledger s) customer F)
      as (out & Hout & _ & _ & _ & _ & _ & _ & _ & Hbal & _ & Hcust & Hprod).
    exists out. split; [exact Hout |]. split.
    + intros cash E. rewrite Hprod. cbn [createCashSale cso_updatedProducts].
      now rewrite E.
    + intros Hover c Hin Hc. rewrite Hcust in Hin.
      apply set_balance_in in Hin as [[_ E] | [NE _]]; [| contradiction].
      now rewrite E, Hbal.
Qed.

Lemma createKhataSale_fails_only_when_customer_missing_witness :
  apply_op (OpKhataSale 1 "INV-20240101-0001"
              (Sample.khata_sale 4 [Sample.line (Sample.product_with 7 5 30) 2 50]))
           (Sample.shop 5 0)
  = Sample.shop 5 0.
Proof.
  apply (proj1 (proj2 (createKhataSale_fails_only_when_customer_missing 1
                         "INV-20240101-0001"
                         (Sample.khata_sale 4 [Sample.line (Sample.product_with 7 5 30) 2 50])
                         (Sample.shop 5 0)))).
  reflexivity.
Defined.

End CreditSaleFailure.

(** ** The profit report, further *)

Section ProfitReportFurther.

Local Open Scope Q_scope.

Lemma filter_sales_completed (sales : list Sale) (dateRange : option DateRange) :
  filter_sales (List.filter is_completed sales) dateRange = filter_sales sales dateRange.
Proof.
  assert (Idem : List.filter is_completed (List.filter is_completed sales)
                 = List.filter is_completed sales).
  { induction sales as [| s l IH]; [reflexivity |].
    cbn [List.filter]. destruct (is_completed s) eqn:E; cbn [List.filter];
      [rewrite E; now rewrite IH | exact IH]. }
  unfold filter_sales. now rewrite Idem.
Qed.

(** The lines the report keeps, taken from the lines of the selected sales
    or from all the lines. *)
Lemma filtered_items_of_lines (selected : list Sale) (saleItems : list SaleItem) :
  List.filter (fun item =>
                 bool_decide (si_sale_id item
                              ∈ (list_to_set (List.map s_id selected) : gset Z)))
              (lines_of selected saleItems)
  = List.filter (fun item =>
                   bool_decide (si_sale_id item
                                ∈ (list_to_set (List.map s_id selected) : gset Z)))
                saleItems.
Proof.
  unfold lines_of. apply filter_filter_implied.
  intros item H. now rewrite sale_id_in_set in H.
Qed.

Lemma filter_no_sale (saleItems : list SaleItem) :
  List.filter (fun item => bool_decide (si_sale_id item ∈ (∅ : gset Z))) saleItems = [].
Proof.
  induction saleItems as [| item l IH]; [reflexivity |]. cbn [List.filter].
  rewrite bool_decide_eq_false_2 by apply not_elem_of_empty. exact IH.
Qed.

(** X24.  What counts in [calculateNetProfit].  The number of transactions
    is the number of completed sales in the range, and the margin is 0 when
    the revenue is not positive.  Sales that are not completed count for
    nothing in any figure, nor do the lines of sales that are not selected:
    the report is the same without them.  With no sale selected every figure
    is 0. *)
Theorem calculateNetProfit_figures (sales : list Sale) (saleItems : list SaleItem)
    (dateRange : option DateRange) :
  let report := calculateNetProfit sales saleItems dateRange in
  transactionCount report = length (filter_sales sales dateRange) /\
  (totalRevenue report <= 0 -> profitMargin report = 0) /\
  calculateNetProfit (List.filter is_completed sales) saleItems dateRange = report /\
  calculateNetProfit sales (lines_of (filter_sales sales dateRange) saleItems) dateRange
  = report /\
  (filter_sales sales dateRange = [] ->
   report = {| grossProfit := 0; totalRevenue := 0; totalCost := 0; totalDiscounts := 0;
               netProfit := 0; profitMargin := 0; transactionCount := 0;
               itemsSold := 0 |}).
Proof.
  cbn zeta. split; [reflexivity |]. split; [| split; [| split]].
  - cbn [calculateNetProfit totalRevenue profitMargin]. intros H.
    destruct (Qlt_le_dec 0 _); [lra | reflexivity].
  - unfold calculateNetProfit. now rewrite filter_sales_completed.
  - unfold calculateNetProfit. cbn zeta. now rewrite filtered_items_of_lines.
  - intros Hnone. unfold calculateNetProfit. cbn zeta. rewrite Hnone.
    cbn [List.map list_to_set]. rewrite filter_no_sale. reflexivity.
Qed.




End ProfitReportFurther.

(** ** Worked instances *)

Section WorkedInstances.

Lemma getLowStockAlerts_classified_witness :
  exists a,
    In a (getLowStockAlerts [Sample.product_with 7 3 30; Sample.product_with 8 40 5]) /\
    sa_productId a = 7 /\ sa_status a = critical /\ sa_unitsBelowMinimum a = 7.
Proof.
  eexists. split; [left; reflexivity |].
  destruct (proj2 (proj2 (getLowStockAlerts_classified
                            [Sample.product_with 7 3 30; Sample.product_with 8 40 5]))
              _ (or_introl eq_refl))
    as (_ & U & _ & _ & C & _).
  split; [reflexivity |]. split; [apply C; simpl; lia | exact U].
Defined.

Lemma getOutstandingBalances_positive_descending_witness :
  exists e,
    In e (getOutstandingBalances [Sample.customer_with 3 100; Sample.customer_with 4 0]) /\
    cb_customerId e = 3 /\ cb_amountOwed e = 100%Q.
Proof.
  apply (proj2 (proj2 (proj2 (getOutstandingBalances_positive_descending
                                [Sample.customer_with 3 100; Sample.customer_with 4 0])))
           (Sample.customer_with 3 100)).
  - left; reflexivity.
  - reflexivity.
  - reflexivity.
Defined.

Lemma getProductProfitReport_entries_witness :
  (length (getProductProfitReport
             [Sample.product_with 7 3 30; Sample.product_with 8 40 5]
             [Sample.sale_line 1 2 50 30;
              {| si_id := 2; si_sale_id := 1; si_product_id := 8; si_quantity := 1;
                 si_unit_price := 9; si_cost_price := 5; si_discount_amount := 0;
                 si_total := 9; si_created_at := 0 |}]
             1) <= Z.to_nat 1)%nat.
Proof.
  apply (proj1 (getProductProfitReport_entries
                  [Sample.product_with 7 3 30; Sample.product_with 8 40 5]
                  [Sample.sale_line 1 2 50 30;
                   {| si_id := 2; si_sale_id := 1; si_product_id := 8; si_quantity := 1;
                      si_unit_price := 9; si_cost_price := 5; si_discount_amount := 0;
                      si_total := 9; si_created_at := 0 |}]
                  1)).
  lia.
Defined.

Lemma calculateNetProfit_figures_witness :
  profitMargin (calculateNetProfit [Sample.sale_at 1 150 10] [] None) = 0%Q.
Proof.
  apply (proj1 (proj2 (calculateNetProfit_figures [Sample.sale_at 1 150 10] [] None))).
  vm_compute. discriminate.
Defined.

End WorkedInstances.
